(** * Bookvault: response cache, retry policy and the services on top

    A shallow embedding of
      - [Bookvault/cache.py]              (class [SQLiteCache]),
      - [Bookvault/apis/openai_engine.py] ([retry_on_failure] and the
                                           methods of the engine),
      - [Bookvault/apis/google_books.py]  ([GoogleBooksAPI.search]),
      - [Bookvault/security.py], [Bookvault/models.py],
        [Bookvault/service.py], [Bookvault/utils/ai_helpers.py] and
        [Bookvault/search_intelligence.py],
    with the properties the specification states about them.

    Conventions.  Python [int]s are [Z].  The delays of [retry_on_failure]
    are Python floats, that is binary64 numbers ([PyFloat.float]), and
    their products round as Python's do; a run records the lengths it
    slept as the rationals these floats are.  The readings of
    [time.time()] are rationals ([Q]): they are only compared and
    subtracted from.  A call that may raise is a value of [outcome];
    [try]/[except] is [try_except].  An external call (an HTTP request, a
    chat completion, wrapped by a retry loop) is an [operation]: the
    outcome of each of its invocations, in order.  The SQLite table is
    the list of its rows; the storage layer either answers or raises on
    every statement.  The functions of the [json] module are parameters
    ([JsonModule]).  A [string] is a Python [str] whose characters are
    below 256. *)

From Stdlib Require Import List ZArith QArith Qpower Bool String Ascii Lia Lqa.
From Stdlib Require Import DecimalString DecimalPos DecimalZ.
From Stdlib Require SpecFloat.
Import ListNotations.

Set Implicit Arguments.
Set Warnings "-register-all".

Local Open Scope string_scope.
Local Open Scope Z_scope.

(* ================================================================== *)
(** ** Python: exceptions and results *)

Module Py.

(** The exception classes the three modules name in their [except] clauses,
    each standing for "an instance whose most specific listed class is this
    one".  [AuthenticationError] and [BadRequestError] are the classes of
    the [openai] package for a refused key and a malformed request; like
    [RateLimitError] and [APIConnectionError] they are subclasses of
    [APIError].  [HTTPError] and [RequestException] carry
    [e.response.status_code] ([None] when [e.response is None]). *)
Inductive exc : Type :=
| APIError
| RateLimitError
| APIConnectionError
| AuthenticationError
| BadRequestError
| HTTPError (status_code : option Z)
| Timeout
| RequestException (status_code : option Z)
| JSONDecodeError
| ValueError
| TypeError
| OverflowError
| sqlite3_Error
| Exception (what : string).

Inductive outcome (A : Type) : Type :=
| Return (a : A)
| Raise (e : exc).
Arguments Return {A} a.
Arguments Raise {A} e.

Definition bind {A B} (m : outcome A) (k : A -> outcome B) : outcome B :=
  match m with
  | Return a => k a
  | Raise e => Raise e
  end.

(** [try: body  except Exception as e: handler e] *)
Definition try_except {A} (body : outcome A) (handler : exc -> outcome A)
  : outcome A :=
  match body with
  | Return a => Return a
  | Raise e => handler e
  end.

Definition raises {A} (m : outcome A) : bool :=
  match m with Return _ => false | Raise _ => true end.

(** [time.sleep(secs)] on the lengths [GoogleBooksAPI.search] sleeps, the
    [int]s [1] and [2 ** retry_count]: [ValueError] on a negative length.
    The [OverflowError] of a length from [2 ** 34] seconds on is left out:
    a call comes to such a length only after it has slept [2 ** 34 - 2]
    seconds.  The float lengths of [retry_on_failure] go through
    [PyFloat.time_sleep], which has it. *)
Definition time_sleep (secs : Q) : outcome unit :=
  if Qle_bool 0 secs then Return tt else Raise ValueError.

(** [range(n)] *)
Definition range (n : Z) : list Z :=
  map Z.of_nat (seq 0 (Z.to_nat n)).

(** [str(n)] for an [int]. *)
Definition str_int (n : Z) : string :=
  NilZero.string_of_int (Z.to_int n).

End Py.
Export Py.

Declare Scope py_scope.
Delimit Scope py_scope with py.
Notation "x <- m ;; k" := (bind m (fun x => k))
  (at level 61, m at next level, right associativity) : py_scope.
Local Open Scope py_scope.

(* ================================================================== *)
(** ** Python [float] *)

(** A Python [float] is an IEEE 754 binary64 number: a [spec_float] of the
    standard library's specification of floating-point arithmetic, with a
    mantissa of 53 bits.  Its operations round to the nearest number, ties
    to even. *)
Module PyFloat.
Import SpecFloat.

Definition prec : Z := 53.
Definition emax : Z := 1024.

Definition float : Type := spec_float.

(** [x] is a binary64 number, as every Python [float] is. *)
Definition valid (x : float) : bool := valid_binary prec emax x.

(** [x * y] *)
Definition mul (x y : float) : float := SFmul prec emax x y.

(** [x / y] *)
Definition div (x y : float) : float := SFdiv prec emax x y.

(** [x <= y] and [x < y] *)
Definition leb (x y : float) : bool := SFleb x y.
Definition ltb (x y : float) : bool := SFltb x y.

(** [float(n)] for an [int] *)
Definition of_Z (n : Z) : float := binary_normalize prec emax n 0 false.

Definition zero : float := S754_zero false.
Definition one : float := Eval cbv in of_Z 1.

(** The number a float stands for, in lowest terms; 0 for an infinity and
    for NaN, which are not numbers. *)
Definition to_Q (x : float) : Q :=
  match x with
  | S754_finite s m e =>
      let q := match e with
               | Zneg p => Zpos m # (2 ^ p)%positive
               | _ => inject_Z (Zpos m * 2 ^ e)
               end in
      Qred (if s then - q else q)
  | _ => 0
  end.

(** The clock of [time.sleep] counts nanoseconds in 64 bits. *)
Definition nanoseconds : float := Eval cbv in of_Z 1000000000.
Definition time_t_min : float := Eval cbv in of_Z (- 2 ^ 63).
Definition time_t_max : float := Eval cbv in of_Z (2 ^ 63).

(** [time.sleep(secs)] for a float, as CPython converts the length
    ([pytime.c]): NaN is a [ValueError]; the length in nanoseconds, a float
    product, must lie in the range of the clock, or the call raises
    [OverflowError]; a negative length is a [ValueError]. *)
Definition time_sleep (secs : float) : outcome unit :=
  match secs with
  | S754_nan => Raise ValueError
  | _ =>
      let ns := mul secs nanoseconds in
      if leb time_t_min ns && ltb ns time_t_max then
        if ltb secs zero then Raise ValueError else Return tt
      else Raise OverflowError
  end.

(** The number of a mantissa at an exponent that is not below the least
    one, -1074, as a multiple of [2 ^ -1074]. *)
Definition scaled (m e : Z) : Z := m * 2 ^ (e + 1074).

(** What holds of a positive binary64 number: at most 53 bits, and no
    exponent below the least one. *)
Definition bounded_number (x : float) : Prop :=
  forall m e, x = S754_finite false m e -> Zpos m < 2 ^ 53 /\ -1074 <= e.

End PyFloat.

(* ================================================================== *)
(** ** JSON values and the [json] module *)

(** What [json.loads] can produce; [JNull] is Python's [None]. *)
Inductive json : Type :=
| JNull
| JBool (b : bool)
| JInt (n : Z)
| JFloat (x : Q)
| JStr (s : string)
| JArr (items : list json)
| JObj (members : list (string * json)).

(** Python truth value of such an object ([if cached := ...]). *)
Definition truthy (v : json) : bool :=
  match v with
  | JNull => false
  | JBool b => b
  | JInt n => negb (n =? 0)
  | JFloat x => negb (Qeq_bool x 0)
  | JStr s => negb (String.eqb s "")
  | JArr items => match items with [] => false | _ :: _ => true end
  | JObj members => match members with [] => false | _ :: _ => true end
  end.

(** The two functions of the standard [json] module the cache calls.  They
    belong to the Python library, not to the repository: the cache is
    verified against any pair of them. *)
Class JsonModule : Type := {
  json_dumps : json -> outcome string;
  json_loads : string -> outcome json
}.

(** [v] is JSON-serializable and survives the round trip. *)
Definition round_trips `{JsonModule} (v : json) : Prop :=
  exists text, json_dumps v = Return text /\ json_loads text = Return v.

(* ================================================================== *)
(** ** [cache.py] *)

Module SQLiteCache.

(** One row of [cache (key TEXT PRIMARY KEY, value TEXT, timestamp REAL)]. *)
Record row : Type := Row {
  key : string;
  value : string;
  timestamp : Q
}.

(** The object: its connection ([self.conn], the rows of table [cache] in
    rowid order, and whether the storage layer answers at all) and
    [self.max_age_hours]. *)
Record t : Type := Cache {
  rows : list row;
  available : bool;
  max_age_hours : Z
}.

Definition with_rows (self : t) (rs : list row) : t :=
  {| rows := rs; available := available self;
     max_age_hours := max_age_hours self |}.

Definition has_key (k : string) (r : row) : bool := String.eqb (key r) k.

Definition Qlt_bool (x y : Q) : bool := negb (Qle_bool y x).

Definition older_than (cutoff : Q) (r : row) : bool :=
  Qlt_bool (timestamp r) cutoff.

(** *** The SQL statements, as [self.conn.execute(...)] runs them *)

Section Statements.
Variable self : t.

(** Every statement raises when the storage layer is down, and leaves the
    table as it was; when the storage layer answers, the statement and the
    [commit] that follows it go through.  A [commit] that fails after its
    statement went through is not a case of this model. *)
Definition execute {A} (effect : A) : outcome A :=
  if available self then Return effect else Raise sqlite3_Error.

(** [SELECT value FROM cache WHERE key=? LIMIT 1] then [.fetchone()] *)
Definition select_value (k : string) : outcome (option string) :=
  execute (option_map value (find (has_key k) (rows self))).

(** [INSERT OR REPLACE INTO cache (key, value, timestamp) VALUES (?,?,?)]:
    the row in conflict on the primary key is deleted, the new one is
    appended. *)
Definition insert_or_replace (k text : string) (ts : Q) : outcome t :=
  execute (with_rows self
             (filter (fun r => negb (has_key k r)) (rows self)
              ++ [Row k text ts])).

(** [DELETE FROM cache] *)
Definition delete_all : outcome t :=
  execute (with_rows self []).

(** [SELECT COUNT( * ) FROM cache WHERE timestamp < ?] *)
Definition count_older (cutoff : Q) : outcome Z :=
  execute (Z.of_nat (List.length (filter (older_than cutoff) (rows self)))).

(** [DELETE FROM cache WHERE timestamp < ?] *)
Definition delete_older (cutoff : Q) : outcome t :=
  execute (with_rows self
             (filter (fun r => negb (older_than cutoff r)) (rows self))).
End Statements.

(** *** The methods *)

Section Methods.
Context `{JsonModule}.

(** [get(self, key)] *)
Definition get (self : t) (k : string) : outcome json :=
  try_except
    (row <- select_value self k ;;
     match row with
     | Some text =>
         try_except (json_loads text)
           (fun e => match e with
                     | JSONDecodeError => Return JNull
                     | _ => Raise e
                     end)
     | None => Return JNull
     end)
    (fun _ => Return JNull).

(** [set(self, key, value)]; [now] is what [time.time()] reads.  The
    method returns [None]: the result is the object afterwards. *)
Definition set (self : t) (k : string) (v : json) (now : Q) : outcome t :=
  try_except
    (text <- json_dumps v ;;
     insert_or_replace self k text now)
    (fun _ => Return self).

(** [clear(self)] *)
Definition clear (self : t) : outcome t :=
  delete_all self.

Definition cutoff_time (self : t) (now : Q) : Q :=
  now - inject_Z (max_age_hours self * 3600).

(** [_clean_old_entries(self)] *)
Definition _clean_old_entries (self : t) (now : Q) : outcome t :=
  delete_older self (cutoff_time self now).

(** [clear_old_entries(self)]: the count and the object afterwards. *)
Definition clear_old_entries (self : t) (now : Q) : outcome (Z * t) :=
  let cutoff := cutoff_time self now in
  count <- count_older self cutoff ;;
  self' <- delete_older self cutoff ;;
  Return (count, self').
End Methods.

(** *** Observations on the table *)

Definition keys (self : t) : list string := map key (rows self).

(** The number of entries stored under [k]. *)
Definition entries_for (k : string) (self : t) : nat :=
  List.length (filter (has_key k) (rows self)).


(** Primary-key constraint: at most one entry per key. *)
Definition unique_keys (self : t) : Prop := NoDup (keys self).

End SQLiteCache.

(* ================================================================== *)
(** ** What a run of a retrying call did *)

(** The result, how many times the external operation was invoked, and the
    lengths the run slept ([time.sleep] returned), in order. *)
Record run (A : Type) : Type := Run {
  result : outcome A;
  calls : nat;
  sleeps : list Q
}.

Definition stop {A} (r : outcome A) : run A := Run r 0 [].

Definition call_then {A} (r : run A) : run A :=
  Run (result r) (S (calls r)) (sleeps r).

Definition sleep_then {A} (secs : Q) (r : run A) : run A :=
  Run (result r) (calls r) (secs :: sleeps r).

(** An external operation: the outcome of its [n]-th invocation, counted
    from 0, within one run. *)
Definition operation (A : Type) : Type := nat -> outcome A.

(* ================================================================== *)
(** ** [apis/openai_engine.py]: [retry_on_failure] *)

Module OpenAIEngine.

(** [except (APIError, RateLimitError, APIConnectionError)]: the clause
    catches every instance of [APIError], so the instances of its
    subclasses too. *)
Definition retryable (e : exc) : bool :=
  match e with
  | APIError | RateLimitError | APIConnectionError
  | AuthenticationError | BadRequestError => true
  | _ => false
  end.

Section RetryOnFailure.
Variable A : Type.
Variable max_retries : Z.
Variables delay backoff : PyFloat.float.
Variable func : operation A.

(** [current_delay] after [i] sleeps: [delay], multiplied [i] times by
    [backoff], every product rounded. *)
Definition delay_after (i : nat) : PyFloat.float :=
  Nat.iter i (fun current_delay => PyFloat.mul current_delay backoff) delay.

(** The [for attempt in range(max_retries + 1)] loop from the attempts
    still to make, with [current_delay], [last_exception] and the number
    [n] of invocations made so far; after the loop, [raise last_exception]
    ([raise None] is a [TypeError]).  An exception of [time.sleep] is
    raised inside the handler and leaves the wrapper.  The run records
    the number each slept length stands for. *)
Fixpoint for_attempt (attempts : list Z) (current_delay : PyFloat.float)
         (last_exception : option exc) (n : nat) : run A :=
  match attempts with
  | [] =>
      match last_exception with
      | Some e => stop (Raise e)
      | None => stop (Raise TypeError)
      end
  | attempt :: rest =>
      call_then
        match func n with
        | Return v => stop (Return v)
        | Raise e =>
            if retryable e then
              if attempt <? max_retries then
                match PyFloat.time_sleep current_delay with
                | Return _ =>
                    sleep_then (PyFloat.to_Q current_delay)
                      (for_attempt rest (PyFloat.mul current_delay backoff)
                                   (Some e) (S n))
                | Raise e' => stop (Raise e')
                end
              else for_attempt rest current_delay (Some e) (S n)
            else stop (Raise e)
        end
  end.

(** [wrapper( *args, **kwargs)] *)
Definition wrapper : run A :=
  for_attempt (range (max_retries + 1)) delay None 0.
End RetryOnFailure.

(** [retry_on_failure(max_retries, delay, backoff)(func)], called once. *)
Definition retry_on_failure {A : Type} (max_retries : Z)
           (delay backoff : PyFloat.float) (func : operation A) : run A :=
  wrapper max_retries delay backoff func.

End OpenAIEngine.

(* ================================================================== *)
(** ** [apis/google_books.py]: [GoogleBooksAPI.search] *)

Module GoogleBooksAPI.

Definition is_429 (status_code : option Z) : bool :=
  match status_code with
  | Some c => c =? 429
  | None => false
  end.

(** [e.response is not None and e.response.status_code == 429], in the
    [HTTPError] handler and in the [RequestException] handler. *)
Definition rate_limited (e : exc) : bool :=
  match e with
  | HTTPError st | RequestException st => is_429 st
  | _ => false
  end.

(** The failures [search] retries: a 429 answer, or a timeout. *)
Definition retryable (e : exc) : bool :=
  match e with
  | Timeout => true
  | _ => rate_limited e
  end.

(** The length of the sleep a retrying handler asks for, once it has
    incremented [retry_count]: [2 ** retry_count] in the two 429 handlers,
    [1] in the timeout handler. *)
Definition backoff_for (e : exc) (retry_count : Z) : Q :=
  if rate_limited e then inject_Z (2 ^ retry_count) else 1.

Definition cache_key (query lang : string) (max_results start_index : Z)
  : string :=
  "search:" ++ query ++ ":" ++ lang ++ ":" ++ str_int max_results
            ++ ":" ++ str_int start_index.

Section Search.
Context `{JsonModule}.
Variable MAX_RETRIES : Z.
(** The body of the [try] up to [books]: request, [raise_for_status],
    conversion of the items. *)
Variable request : operation (list json).
(** The clock, when [self.cache.set] reads it. *)
Variable now : Q.
Variable cache : SQLiteCache.t.
Variable key : string.

Definition empty_handed : run json * SQLiteCache.t :=
  (stop (Return (JArr [])), cache).

Definition called (r : run json * SQLiteCache.t) : run json * SQLiteCache.t :=
  (call_then (fst r), snd r).

(** [time.sleep(secs)] inside an [except] clause, then [continue]. *)
Definition sleep_continue (secs : Q) (continue : run json * SQLiteCache.t)
  : run json * SQLiteCache.t :=
  match time_sleep secs with
  | Return _ => (sleep_then secs (fst continue), snd continue)
  | Raise e => (stop (Raise e), cache)
  end.

(** [while retry_count < Config.MAX_RETRIES], with [n] invocations made so
    far.  Every iteration that continues adds one to [retry_count], so
    [Z.to_nat (MAX_RETRIES - retry_count)] iterations always suffice
    ([while_retry_fuel]); the first branch is the loop's own exit. *)
Fixpoint while_retry (fuel : nat) (retry_count : Z) (n : nat)
  : run json * SQLiteCache.t :=
  match fuel with
  | O => empty_handed
  | S fuel' =>
      if retry_count <? MAX_RETRIES then
        called
          match request n with
          | Return books =>
              match SQLiteCache.set cache key (JArr books) now with
              | Return cache' => (stop (Return (JArr books)), cache')
              | Raise _ => empty_handed
              end
          | Raise (HTTPError st) =>
              if is_429 st then
                let retry_count := retry_count + 1 in
                if retry_count >=? MAX_RETRIES then empty_handed
                else
                  let backoff_time := 2 ^ retry_count in
                  sleep_continue (inject_Z backoff_time)
                    (while_retry fuel' retry_count (S n))
              else empty_handed
          | Raise Timeout =>
              let retry_count := retry_count + 1 in
              if retry_count >=? MAX_RETRIES then empty_handed
              else sleep_continue 1 (while_retry fuel' retry_count (S n))
          | Raise (RequestException st) =>
              if is_429 st then
                let retry_count := retry_count + 1 in
                if retry_count >=? MAX_RETRIES then empty_handed
                else
                  let backoff_time := 2 ^ retry_count in
                  sleep_continue (inject_Z backoff_time)
                    (while_retry fuel' retry_count (S n))
              else empty_handed
          | Raise _ => empty_handed
          end
      else empty_handed
  end.
End Search.

Section SearchMethod.
Context `{JsonModule}.
Variable MAX_RETRIES : Z.
Variable request : operation (list json).
Variable now : Q.

(** [search(self, query, max_results, lang, start_index)]; [cache] is
    [self.cache]. *)
Definition search (cache : SQLiteCache.t) (query : string)
           (max_results : Z) (lang : string) (start_index : Z)
  : run json * SQLiteCache.t :=
  let key := cache_key query lang max_results start_index in
  match SQLiteCache.get cache key with
  | Raise e => (stop (Raise e), cache)
  | Return cached =>
      if truthy cached then (stop (Return cached), cache)
      else while_retry MAX_RETRIES request now cache key
                       (Z.to_nat MAX_RETRIES) 0 0
  end.
End SearchMethod.

End GoogleBooksAPI.

(* ================================================================== *)
(** ** [apis/openai_engine.py]: the cached methods of the engine *)

Module AIRecommendationEngine.

Section Engine.
Context `{JsonModule}.
(** [hashlib.md5(prompt.encode()).hexdigest()] *)
Variable md5_hexdigest : string -> string.
(** The clock, when [self.cache.set] reads it. *)
Variable now : Q.

(** [_generate_cache_key(self, prompt)].  On a [string], whose characters
    are below 256, [prompt.encode()] does not raise; a prompt with a lone
    surrogate, on which it raises [UnicodeEncodeError], is not a value of
    this model, and neither is a description that is [None], whose slice
    raises [TypeError] while the prompt is built. *)
Definition _generate_cache_key (prompt : string) : string :=
  "ai:" ++ md5_hexdigest prompt.

Definition empty_handed (cache : SQLiteCache.t) : run json * SQLiteCache.t :=
  (stop (Return (JArr [])), cache).

Definition called (r : run json * SQLiteCache.t) : run json * SQLiteCache.t :=
  (call_then (fst r), snd r).




End Engine.

End AIRecommendationEngine.

(* ================================================================== *)
(** ** A [json] module to run the models on concrete payloads *)

(** [dumps] writes the text [json.dumps] writes with its defaults
    (separators [", "] and [": "], [ensure_ascii]); [loads] reads as the
    decoder of [json.loads] does: its white space, its escapes, no leading
    zero, no control character inside a string, the last of the values
    given to one key.  A [string] stands for the text of its code points,
    all below 256.  Floats are outside this instance, and so is an escape
    for a code point from 256 on: on them [dumps] and [loads] raise
    [outside], which stands for no behaviour of the library. *)
Module JsonText.

Local Open Scope char_scope.

Definition dquote : ascii := "034".
Definition backslash : ascii := "\".

Definition outside {A : Type} : outcome A :=
  Raise (Exception "outside the instance").

(** The characters the encoder leaves as they are: from the space to [~],
    but the quote and the backslash. *)
Definition plain (c : ascii) : bool :=
  let n := nat_of_ascii c in
  (32 <=? n)%nat && (n <? 127)%nat
  && negb (Ascii.eqb c dquote) && negb (Ascii.eqb c backslash).

Definition hex_digit (n : nat) : ascii :=
  nth n (list_ascii_of_string "0123456789abcdef") "0".

(** [ESCAPE_DCT] of the encoder, and [\u00xx] for the other characters. *)
Definition escape (c : ascii) : string :=
  if plain c then String c EmptyString
  else
    String backslash
      (if Ascii.eqb c dquote || Ascii.eqb c backslash
       then String c EmptyString
       else
         match nat_of_ascii c with
         | 8%nat => "b"
         | 9%nat => "t"
         | 10%nat => "n"
         | 12%nat => "f"
         | 13%nat => "r"
         | n =>
             String "u" (String "0" (String "0"
               (String (hex_digit (n / 16))
                  (String (hex_digit (n mod 16)) EmptyString))))
         end)%string.

Fixpoint dumps_chars (s : string) : string :=
  match s with
  | EmptyString => EmptyString
  | String c s' => (escape c ++ dumps_chars s')%string
  end.

Definition dumps_str (s : string) : string :=
  String dquote (dumps_chars s ++ String dquote EmptyString)%string.

Fixpoint dumps (v : json) : outcome string :=
  match v with
  | JNull => Return "null"%string
  | JBool true => Return "true"%string
  | JBool false => Return "false"%string
  | JInt n => Return (str_int n)
  | JFloat _ => outside
  | JStr s => Return (dumps_str s)
  | JArr items =>
      let fix elements (l : list json) : outcome string :=
        match l with
        | [] => Return ""%string
        | [x] => dumps x
        | x :: l' =>
            a <- dumps x ;; b <- elements l' ;;
            Return (a ++ ", " ++ b)%string
        end in
      r <- elements items ;; Return ("[" ++ r ++ "]")%string
  | JObj members =>
      let fix pairs (l : list (string * json)) : outcome string :=
        match l with
        | [] => Return ""%string
        | [(k, x)] =>
            b <- dumps x ;;
            Return (dumps_str k ++ ": " ++ b)%string
        | (k, x) :: l' =>
            b <- dumps x ;; c <- pairs l' ;;
            Return (dumps_str k ++ ": " ++ b ++ ", " ++ c)%string
        end in
      r <- pairs members ;; Return ("{" ++ r ++ "}")%string
  end.

(** The reader works on the list of characters and returns what is left;
    it raises [JSONDecodeError] on a text that is not JSON. *)
Definition reader (A : Type) : Type :=
  list ascii -> outcome (A * list ascii).

Definition malformed {A : Type} : outcome A := Raise JSONDecodeError.

(** [WHITESPACE]: space, tab, line feed, carriage return. *)
Definition whitespace (c : ascii) : bool :=
  Ascii.eqb c " " || Ascii.eqb c "009" || Ascii.eqb c "010"
  || Ascii.eqb c "013".

Fixpoint skip_ws (l : list ascii) : list ascii :=
  match l with
  | c :: l' => if whitespace c then skip_ws l' else l
  | [] => []
  end.

Fixpoint expect (word : list ascii) (l : list ascii) : option (list ascii) :=
  match word, l with
  | [], _ => Some l
  | c :: word', d :: l' => if Ascii.eqb c d then expect word' l' else None
  | _ :: _, [] => None
  end.

Definition literal {A : Type} (word : string) (v : outcome A)
           (l : list ascii) : outcome (A * list ascii) :=
  match expect (list_ascii_of_string word) l with
  | Some rest => a <- v ;; Return (a, rest)
  | None => malformed
  end.

Definition digit (c : ascii) : option Z :=
  let n := nat_of_ascii c in
  if (48 <=? n)%nat && (n <=? 57)%nat then Some (Z.of_nat n - 48) else None.

Definition is_digit (c : ascii) : bool :=
  match digit c with Some _ => true | None => false end.

Fixpoint loads_digits (acc : Z) (l : list ascii) : Z * list ascii :=
  match l with
  | c :: l' =>
      match digit c with
      | Some d => loads_digits (10 * acc + d) l'
      | None => (acc, l)
      end
  | [] => (acc, l)
  end.

(** What follows the integer part when the number is a float: a point and
    a digit, or an exponent. *)
Definition float_follows (l : list ascii) : bool :=
  let exponent (l : list ascii) : bool :=
    match l with
    | e :: l' =>
        (Ascii.eqb e "e" || Ascii.eqb e "E")
        && match l' with
           | c :: l'' =>
               is_digit c
               || ((Ascii.eqb c "+" || Ascii.eqb c "-")
                   && match l'' with
                      | d :: _ => is_digit d
                      | [] => false
                      end)
           | [] => false
           end
    | [] => false
    end in
  match l with
  | "." :: c :: _ => is_digit c
  | _ => exponent l
  end.

(** [NUMBER_RE]: [0], or a digit from 1 to 9 and more digits. *)
Definition loads_number (sign : Z) (l : list ascii)
  : outcome (json * list ascii) :=
  match l with
  | c :: l' =>
      match digit c with
      | Some d =>
          let (n, rest) :=
            if (d =? 0)%Z then (0%Z, l') else loads_digits d l' in
          if float_follows rest then outside
          else Return (JInt (sign * n), rest)
      | None => malformed
      end
  | [] => malformed
  end.

Definition hex_value (c : ascii) : option nat :=
  let n := nat_of_ascii c in
  if (48 <=? n)%nat && (n <=? 57)%nat then Some (n - 48)%nat
  else if (97 <=? n)%nat && (n <=? 102)%nat then Some (n - 87)%nat
  else if (65 <=? n)%nat && (n <=? 70)%nat then Some (n - 55)%nat
  else None.

(** [BACKSLASH] of the decoder. *)
Definition unescape (c : ascii) : option ascii :=
  if Ascii.eqb c dquote || Ascii.eqb c backslash || Ascii.eqb c "/"
  then Some c
  else if Ascii.eqb c "b" then Some "008"
  else if Ascii.eqb c "f" then Some "012"
  else if Ascii.eqb c "n" then Some "010"
  else if Ascii.eqb c "r" then Some "013"
  else if Ascii.eqb c "t" then Some "009"
  else None.

(** The characters of a string, after its opening quote. *)
Fixpoint loads_chars (l : list ascii) : outcome (string * list ascii) :=
  match l with
  | [] => malformed
  | c :: l' =>
      if Ascii.eqb c dquote then Return (EmptyString, l')
      else if Ascii.eqb c backslash then
        match l' with
        | [] => malformed
        | e :: l'' =>
            if Ascii.eqb e "u" then
              match l'' with
              | h1 :: h2 :: h3 :: h4 :: l4 =>
                  match hex_value h1, hex_value h2,
                        hex_value h3, hex_value h4 with
                  | Some a1, Some a2, Some a3, Some a4 =>
                      let n := (((a1 * 16 + a2) * 16 + a3) * 16 + a4)%nat in
                      if (n <? 256)%nat then
                        r <- loads_chars l4 ;;
                        Return (String (ascii_of_nat n) (fst r), snd r)
                      else outside
                  | _, _, _, _ => malformed
                  end
              | _ => malformed
              end
            else
              match unescape e with
              | Some c' =>
                  r <- loads_chars l'' ;;
                  Return (String c' (fst r), snd r)
              | None => malformed
              end
        end
      else if (nat_of_ascii c <? 32)%nat then malformed
      else
        r <- loads_chars l' ;;
        Return (String c (fst r), snd r)
  end.

(** [dict(pairs)]: a key met again keeps its place and takes the new
    value. *)
Fixpoint assign (k : string) (x : json) (members : list (string * json))
  : list (string * json) :=
  match members with
  | [] => [(k, x)]
  | (k', x') :: rest =>
      if String.eqb k' k then (k', x) :: rest
      else (k', x') :: assign k x rest
  end.

Definition dict (pairs : list (string * json)) : json :=
  JObj (fold_left (fun members kx => assign (fst kx) (snd kx) members)
                  pairs []).

Fixpoint loads_value (fuel : nat) (l : list ascii)
  : outcome (json * list ascii) :=
  match fuel with
  | O => outside
  | S fuel' =>
      let fix elements (n : nat) (l : list ascii)
        : outcome (list json * list ascii) :=
        match n with
        | O => outside
        | S n' =>
            r <- loads_value fuel' l ;;
            match skip_ws (snd r) with
            | "," :: rest' =>
                rs <- elements n' (skip_ws rest') ;;
                Return (fst r :: fst rs, snd rs)
            | "]" :: rest' => Return ([fst r], rest')
            | _ => malformed
            end
        end in
      let fix pairs (n : nat) (l : list ascii)
        : outcome (list (string * json) * list ascii) :=
        match n with
        | O => outside
        | S n' =>
            match l with
            | q :: l1 =>
                if Ascii.eqb q dquote then
                  k <- loads_chars l1 ;;
                  match skip_ws (snd k) with
                  | ":" :: l3 =>
                      r <- loads_value fuel' (skip_ws l3) ;;
                      match skip_ws (snd r) with
                      | "," :: rest' =>
                          rs <- pairs n' (skip_ws rest') ;;
                          Return ((fst k, fst r) :: fst rs, snd rs)
                      | "}" :: rest' => Return ([(fst k, fst r)], rest')
                      | _ => malformed
                      end
                  | _ => malformed
                  end
                else malformed
            | [] => malformed
            end
        end in
      match l with
      | "n" :: _ => literal "null" (Return JNull) l
      | "t" :: _ => literal "true" (Return (JBool true)) l
      | "f" :: _ => literal "false" (Return (JBool false)) l
      | "N" :: _ => literal "NaN" outside l
      | "I" :: _ => literal "Infinity" outside l
      | "-" :: "I" :: _ => literal "-Infinity" outside l
      | "-" :: l' => loads_number (-1)%Z l'
      | "[" :: l' =>
          match skip_ws l' with
          | "]" :: rest => Return (JArr [], rest)
          | l'' =>
              r <- elements (List.length l) l'' ;;
              Return (JArr (fst r), snd r)
          end
      | "{" :: l' =>
          match skip_ws l' with
          | "}" :: rest => Return (JObj [], rest)
          | l'' =>
              r <- pairs (List.length l) l'' ;;
              Return (dict (fst r), snd r)
          end
      | c :: l' =>
          if Ascii.eqb c dquote then
            r <- loads_chars l' ;;
            Return (JStr (fst r), snd r)
          else loads_number 1%Z l
      | [] => malformed
      end
  end.

Definition loads (text : string) : outcome json :=
  let l := list_ascii_of_string text in
  r <- loads_value (S (List.length l)) (skip_ws l) ;;
  match skip_ws (snd r) with
  | [] => Return (fst r)
  | _ :: _ => malformed
  end.

#[export] Instance module : JsonModule :=
  {| json_dumps := dumps; json_loads := loads |}.

End JsonText.

(* ================================================================== *)
(** ** Sequences of cache operations *)

Module CacheOps.

(** What can happen to a cache object between two observations: a method
    call, or the storage layer going down or coming back. *)
Inductive op : Type :=
| Get (k : string)
| Set_ (k : string) (v : json) (now : Q)
| Clear
| CleanOld (now : Q)
| ClearOld (now : Q)
| Storage (up : bool).

(** The object after a call: a call that raised left it as it was. *)
Definition after (self : SQLiteCache.t) (m : outcome SQLiteCache.t)
  : SQLiteCache.t :=
  match m with
  | Return self' => self'
  | Raise _ => self
  end.

Definition step `{JsonModule} (self : SQLiteCache.t) (o : op) : SQLiteCache.t :=
  match o with
  | Get k => self
  | Set_ k v now => after self (SQLiteCache.set self k v now)
  | Clear => after self (SQLiteCache.clear self)
  | CleanOld now => after self (SQLiteCache._clean_old_entries self now)
  | ClearOld now =>
      after self (p <- SQLiteCache.clear_old_entries self now ;; Return (snd p))
  | Storage up =>
      {| SQLiteCache.rows := SQLiteCache.rows self;
         SQLiteCache.available := up;
         SQLiteCache.max_age_hours := SQLiteCache.max_age_hours self |}
  end.

Definition exec `{JsonModule} (ops : list op) (self : SQLiteCache.t)
  : SQLiteCache.t :=
  fold_left step ops self.

(** The operations that leave the entry of [k] alone: reads, and writes
    under other keys. *)
Definition leaves (k : string) (o : op) : bool :=
  match o with
  | Get _ => true
  | Set_ k' _ _ => negb (String.eqb k' k)
  | _ => false
  end.

End CacheOps.

(** A sequence of delays that never decreases. *)
Definition nondecreasing (ds : list Q) : Prop :=
  forall i x y, nth_error ds i = Some x -> nth_error ds (S i) = Some y ->
                (x <= y)%Q.

(* ================================================================== *)
(** ** Python [str] *)

(** Text is a [string]: a sequence of characters whose code points are
    below 256.  On such text the functions below are those of Python. *)
Module PyStr.

Definition ord (c : ascii) : nat := nat_of_ascii c.

(** [len(s)] *)
Definition len (s : string) : Z := Z.of_nat (String.length s).

(** [c.lower()] *)
Definition lower_char (c : ascii) : ascii :=
  let n := ord c in
  if ((65 <=? n) && (n <=? 90))%nat
     || ((192 <=? n) && (n <=? 222) && negb (n =? 215))%nat
  then ascii_of_nat (n + 32)
  else c.

Fixpoint map_chars (f : ascii -> ascii) (s : string) : string :=
  match s with
  | EmptyString => EmptyString
  | String c s' => String (f c) (map_chars f s')
  end.

(** [s.lower()] *)
Definition lower (s : string) : string := map_chars lower_char s.

(** [''.join(c for c in s if keep(c))] *)
Fixpoint filter_chars (keep : ascii -> bool) (s : string) : string :=
  match s with
  | EmptyString => EmptyString
  | String c s' =>
      if keep c then String c (filter_chars keep s') else filter_chars keep s'
  end.

(** [sub in s] *)
Fixpoint contains (sub s : string) : bool :=
  if String.prefix sub s then true
  else match s with
       | EmptyString => false
       | String _ s' => contains sub s'
       end.

(** [c.isspace()] *)
Definition isspace (c : ascii) : bool :=
  let n := ord c in
  ((9 <=? n) && (n <=? 13))%nat || ((28 <=? n) && (n <=? 32))%nat
  || (n =? 133)%nat || (n =? 160)%nat.

Fixpoint lstrip (s : string) : string :=
  match s with
  | String c s' => if isspace c then lstrip s' else s
  | EmptyString => EmptyString
  end.

Fixpoint rstrip (s : string) : string :=
  match s with
  | EmptyString => EmptyString
  | String c s' =>
      match rstrip s' with
      | EmptyString => if isspace c then EmptyString else String c EmptyString
      | r => String c r
      end
  end.

(** [s.strip()] *)
Definition strip (s : string) : string := rstrip (lstrip s).

(** [s[:stop]] *)
Definition slice_to (s : string) (stop : Z) : string :=
  if 0 <=? stop then substring 0 (Z.to_nat stop) s
  else substring 0 (Z.to_nat (len s + stop)) s.

(** [html.escape(s)], quotes included. *)
Definition escape_char (c : ascii) : string :=
  if Ascii.eqb c "&" then "&amp;"
  else if Ascii.eqb c "<" then "&lt;"
  else if Ascii.eqb c ">" then "&gt;"
  else if Ascii.eqb c "034" then "&quot;"
  else if Ascii.eqb c "'" then "&#x27;"
  else String c EmptyString.

Fixpoint html_escape (s : string) : string :=
  match s with
  | EmptyString => EmptyString
  | String c s' => escape_char c ++ html_escape s'
  end.

(** [s.replace(old, new)] for a non-empty [old]: the occurrences are taken
    from the left and do not overlap; [skip] counts the characters of an
    occurrence still to pass over. *)
Fixpoint replace_from (old new : string) (skip : nat) (s : string) : string :=
  match s with
  | EmptyString => EmptyString
  | String c s' =>
      match skip with
      | S k => replace_from old new k s'
      | O =>
          if String.prefix old s
          then new ++ replace_from old new (Nat.pred (String.length old)) s'
          else String c (replace_from old new 0 s')
      end
  end.

Definition replace (old new s : string) : string := replace_from old new 0 s.

(** [s.split(sep)] for a separator of one character. *)
Fixpoint split (sep : ascii) (s : string) : list string :=
  match s with
  | EmptyString => [EmptyString]
  | String c s' =>
      match split sep s' with
      | piece :: pieces =>
          if Ascii.eqb c sep then EmptyString :: piece :: pieces
          else String c piece :: pieces
      | [] => [String c EmptyString]
      end
  end.

Fixpoint forall_chars (p : ascii -> bool) (s : string) : bool :=
  match s with
  | EmptyString => true
  | String c s' => p c && forall_chars p s'
  end.

(** [c.isdigit()] *)
Definition isdigit_char (c : ascii) : bool :=
  let n := ord c in
  ((48 <=? n) && (n <=? 57))%nat
  || (n =? 178)%nat || (n =? 179)%nat || (n =? 185)%nat.

(** [s.isdigit()] *)
Definition isdigit (s : string) : bool :=
  negb (String.eqb s "") && forall_chars isdigit_char s.

End PyStr.

(* ================================================================== *)
(** ** [security.py] *)

Module InputValidator.

Definition MAX_QUERY_LENGTH : Z := 500.
Definition MAX_DESCRIPTION_LENGTH : Z := 5000.
Definition MAX_TITLE_LENGTH : Z := 300.

Definition newline : ascii := "010".

(** [ord(char) >= 32 or char == '\n'] *)
Definition printable (char : ascii) : bool :=
  (32 <=? PyStr.ord char)%nat || Ascii.eqb char newline.

(** [sanitize_string(input_str, max_length)]; [max_length] is [None] by
    default. *)
Definition sanitize_string (input_str : string) (max_length : option Z)
  : string :=
  if String.eqb input_str "" then ""
  else
    let sanitized := PyStr.strip input_str in
    let sanitized := PyStr.html_escape sanitized in
    let sanitized := PyStr.filter_chars printable sanitized in
    match max_length with
    | Some m =>
        if negb (m =? 0) && (PyStr.len sanitized >? m)
        then PyStr.slice_to sanitized m
        else sanitized
    | None => sanitized
    end.

Definition dangerous_patterns : list string :=
  ["<script"; "javascript:"; "onerror="; "onclick="].

(** [validate_search_query(query)] *)
Definition validate_search_query (query : string) : bool * option string :=
  if String.eqb query "" then (false, Some "Search query cannot be empty")
  else if PyStr.len query >? MAX_QUERY_LENGTH then
    (false, Some ("Search query too long (max " ++ str_int MAX_QUERY_LENGTH
                    ++ " characters)"))
  else
    let query_lower := PyStr.lower query in
    if existsb (fun pattern => PyStr.contains pattern query_lower)
               dangerous_patterns
    then (false, Some "Invalid characters in search query")
    else (true, None).

(** [validate_book_title(title)] *)
Definition validate_book_title (title : string) : bool * option string :=
  if String.eqb title "" then (false, Some "Book title cannot be empty")
  else if PyStr.len title >? MAX_TITLE_LENGTH then
    (false, Some ("Title too long (max " ++ str_int MAX_TITLE_LENGTH
                    ++ " characters)"))
  else (true, None).

(** [validate_integer(value, min_val, max_val)]; [int_value] is what
    [int(value)] does. *)
Definition validate_integer (int_value : outcome Z) (min_val max_val : Z)
  : outcome (bool * Z) :=
  try_except
    (int_val <- int_value ;;
     if (int_val <? min_val) || (int_val >? max_val)
     then Return (false, min_val)
     else Return (true, int_val))
    (fun e => match e with
              | ValueError | TypeError => Return (false, min_val)
              | _ => Raise e
              end).

End InputValidator.

Module RateLimiter.

(** [self.requests] is a [defaultdict(list)]: every identifier has a list,
    empty until something is appended. *)
Record t : Type := Limiter {
  max_requests : Z;
  time_window : Z;
  requests : string -> list Q
}.

(** [RateLimiter(max_requests, time_window)] *)
Definition __init__ (max_requests time_window : Z) : t :=
  Limiter max_requests time_window (fun _ => []).

(** [self.requests[identifier] = times] *)
Definition assign (self : t) (identifier : string) (times : list Q) : t :=
  Limiter (max_requests self) (time_window self)
          (fun id => if String.eqb id identifier then times
                     else requests self id).

Definition Qgt_bool (x y : Q) : bool := negb (Qle_bool x y).

(** [is_allowed(self, identifier)], [now] being what [time.time()] reads:
    the pair returned and the object afterwards. *)
Definition is_allowed (self : t) (identifier : string) (now : Q)
  : (bool * option string) * t :=
  let cutoff := (now - inject_Z (time_window self))%Q in
  let self :=
    assign self identifier
           (filter (fun req_time => Qgt_bool req_time cutoff)
                   (requests self identifier)) in
  if Z.of_nat (List.length (requests self identifier)) >=? max_requests self
  then
    ((false,
      Some ("Rate limit exceeded. Max " ++ str_int (max_requests self)
              ++ " requests per " ++ str_int (time_window self) ++ "s")),
     self)
  else
    ((true, None),
     assign self identifier (requests self identifier ++ [now])).

(** [search_rate_limiter = RateLimiter(max_requests=100, time_window=60)] *)
Definition search_rate_limiter : t := __init__ 100 60.

(** A series of calls [is_allowed(identifier)] at the given times: each call
    with its verdict, and the object afterwards. *)
Fixpoint serve (self : t) (calls : list (string * Q))
  : list (string * Q * bool) * t :=
  match calls with
  | [] => ([], self)
  | (identifier, now) :: rest =>
      let (verdict, self') := is_allowed self identifier now in
      let (log, self'') := serve self' rest in
      ((identifier, now, fst verdict) :: log, self'')
  end.

(** The times at which [identifier] was let through. *)
Definition allowed_times (identifier : string)
           (log : list (string * Q * bool)) : list Q :=
  map (fun entry => snd (fst entry))
      (filter (fun entry => snd entry && String.eqb (fst (fst entry)) identifier)
              log).

(** The clock never goes back: every call is at or after [lo] and after the
    call before it. *)
Fixpoint chronological (lo : Q) (calls : list (string * Q)) : Prop :=
  match calls with
  | [] => True
  | (_, now) :: rest => (lo <= now)%Q /\ chronological now rest
  end.

(** What the limiter has to remember: its lists are short, and they agree
    with the history on every window that can still be asked about. *)
Definition remembers (lo : Q) (self : t) (log : list (string * Q * bool))
  : Prop :=
  (forall id, Z.of_nat (List.length (requests self id)) <= max_requests self)
  /\ forall id cutoff,
       (lo - inject_Z (time_window self) <= cutoff)%Q ->
       filter (fun t => Qgt_bool t cutoff) (requests self id)
       = filter (fun t => Qgt_bool t cutoff) (allowed_times id log).

End RateLimiter.

(** The time a run spent sleeping. *)
Definition total_sleep (ds : list Q) : Q := fold_right Qplus 0%Q ds.

(* ================================================================== *)
(** ** Python objects read from JSON: iteration and [dict.get] *)

Module PyObj.

Definition AttributeError : exc := Exception "AttributeError".

(** [for x in v]: the elements of a list, the characters of a string, the
    keys of a dict; anything else is not iterable. *)
Definition iterate (v : json) : outcome (list json) :=
  match v with
  | JArr items => Return items
  | JStr s =>
      Return (map (fun c => JStr (String c EmptyString))
                  (list_ascii_of_string s))
  | JObj members => Return (map (fun kv => JStr (fst kv)) members)
  | _ => Raise TypeError
  end.

(** [members[k]] of a dict, when [k] is a key. *)
Definition lookup (members : list (string * json)) (k : string) : option json :=
  option_map snd (find (fun kv => String.eqb (fst kv) k) members).

Definition get_default (members : list (string * json)) (k : string)
           (default : json) : json :=
  match lookup members k with
  | Some v => v
  | None => default
  end.

(** [v.get(k, default)]: only a dict has the method. *)
Definition get (v : json) (k : string) (default : json) : outcome json :=
  match v with
  | JObj members => Return (get_default members k default)
  | _ => Raise AttributeError
  end.

(** [sep.join(v)] *)
Fixpoint strings (items : list json) : outcome (list string) :=
  match items with
  | [] => Return []
  | JStr s :: rest => l <- strings rest ;; Return (s :: l)
  | _ :: _ => Raise TypeError
  end.

Definition join (sep : string) (v : json) : outcome string :=
  items <- iterate v ;;
  l <- strings items ;;
  Return (String.concat sep l).

End PyObj.

(* ================================================================== *)
(** ** [models.py] *)

Module Book.

(** A [Book] is its [__dict__]: the keyword arguments it was built from, in
    their order. *)
Definition t : Type := list (string * json).

(** [to_dict(self)] *)
Definition to_dict (self : t) : json := JObj self.

Definition image_sizes : list string :=
  ["thumbnail"; "smallThumbnail"; "small"; "medium"; "large"].

(** [a or b or ... or last]: the first operand that is true, or the last. *)
Definition first_true (operands : list json) (last : json) : json :=
  match find truthy operands with
  | Some v => v
  | None => last
  end.

(** The two rewritings of a cover link. *)
Definition upgrade (cover_url : string) : string :=
  let cover_url :=
    if String.prefix "http://" cover_url
    then PyStr.replace "http://" "https://" cover_url
    else cover_url in
  if PyStr.contains "zoom=" cover_url
  then PyStr.replace "zoom=1" "zoom=2" cover_url
  else if negb (String.eqb cover_url "") then cover_url ++ "&zoom=2"
  else cover_url.

(** [from_google_api(item)] *)
Definition from_google_api (item : json) : outcome t :=
  info <- PyObj.get item "volumeInfo" (JObj []) ;;
  image_links <- PyObj.get info "imageLinks" (JObj []) ;;
  links <- match image_links with
           | JObj members =>
               Return (map (fun size => PyObj.get_default members size JNull)
                           image_sizes)
           | _ => Raise PyObj.AttributeError
           end ;;
  cover_url <- match first_true links (JStr "") with
               | JStr s => Return (upgrade s)
               | _ => Raise PyObj.AttributeError
               end ;;
  id <- PyObj.get item "id" (JStr "") ;;
  title <- PyObj.get info "title" (JStr "Unknown") ;;
  authors <- PyObj.get info "authors" (JArr [JStr "Unknown"]) ;;
  author <- PyObj.join ", " authors ;;
  description <- PyObj.get info "description" (JStr "") ;;
  publisher <- PyObj.get info "publisher" (JStr "") ;;
  published_date <- PyObj.get info "publishedDate" (JStr "") ;;
  page_count <- PyObj.get info "pageCount" (JStr "N/A") ;;
  language <- PyObj.get info "language" (JStr "en") ;;
  categories <- PyObj.get info "categories" (JArr []) ;;
  rating <- PyObj.get info "averageRating" (JInt 0) ;;
  info_link <- PyObj.get info "infoLink" (JStr "") ;;
  Return [("id", id); ("title", title); ("author", JStr author);
          ("description", description); ("cover_url", JStr cover_url);
          ("publisher", publisher); ("published_date", published_date);
          ("page_count", page_count); ("language", language);
          ("categories", categories); ("rating", rating);
          ("info_link", info_link)].

End Book.

(* ================================================================== *)
(** ** [apis/google_books.py]: from the response to the books *)

Module GoogleBooksResponse.

(** [cover_url and cover_url.strip() and len(cover_url) > 10] *)
Definition has_cover (cover_url : json) : outcome bool :=
  if truthy cover_url then
    match cover_url with
    | JStr s =>
        Return (negb (String.eqb (PyStr.strip s) "") && (PyStr.len s >? 10))
    | _ => Raise PyObj.AttributeError
    end
  else Return false.

(** The loop [for item in items] of [search]. *)
Fixpoint books_of_items (items : list json) : outcome (list json) :=
  match items with
  | [] => Return []
  | item :: rest =>
      book <- Book.from_google_api item ;;
      keep <- has_cover (PyObj.get_default book "cover_url" (JStr "")) ;;
      books <- books_of_items rest ;;
      Return (if keep then Book.to_dict book :: books else books)
  end.

(** What the [try] of [search] makes of the decoded response [res.json()],
    up to [books]. *)
Definition books_of_response (body : json) : outcome (list json) :=
  items <- PyObj.get body "items" (JArr []) ;;
  items <- PyObj.iterate items ;;
  books_of_items items.

(** The requests of [search], from the responses of the server. *)
Definition request_of (http : operation json) : operation (list json) :=
  fun n => body <- http n ;; books_of_response body.

End GoogleBooksResponse.

(* ================================================================== *)
(** ** [service.py]: [filter_books_with_images] *)

Module Service.

(** [cover_url and isinstance(cover_url, str) and cover_url.strip()
    and len(cover_url) > 10] *)
Definition shows_cover (cover_url : json) : bool :=
  truthy cover_url
  && match cover_url with
     | JStr s => negb (String.eqb (PyStr.strip s) "") && (PyStr.len s >? 10)
     | _ => false
     end.

Fixpoint filter_books (books : list json) : outcome (list json) :=
  match books with
  | [] => Return []
  | book :: rest =>
      cover_url <- PyObj.get book "cover_url" (JStr "") ;;
      filtered <- filter_books rest ;;
      Return (if shows_cover cover_url then book :: filtered else filtered)
  end.

(** [filter_books_with_images(books)] *)
Definition filter_books_with_images (books : json) : outcome json :=
  books <- PyObj.iterate books ;;
  filtered <- filter_books books ;;
  Return (JArr filtered).

(** A book that came through the loop of [search]: a dict whose
    [cover_url] is a string that passes both cover tests. *)
Definition covered (book : json) : Prop :=
  exists fields cover,
    book = JObj fields
    /\ PyObj.lookup fields "cover_url" = Some (JStr cover)
    /\ Service.shows_cover (JStr cover) = true.

End Service.

(* ================================================================== *)
(** ** [apis/openai_engine.py]: [verify_books_batch] *)

Module GenreCheck.

Definition is_dict (v : json) : bool :=
  match v with JObj _ => true | _ => false end.

Section VerifyBooksBatch.
(** [int(x)] on a text for which [x.isdigit()] holds. *)
Variable py_int : string -> outcome Z.

(** [[int(x.strip()) - 1 for x in answer.replace(' ', '').split(',')
      if x.strip().isdigit()]] *)
Fixpoint indices_of (pieces : list string) : outcome (list Z) :=
  match pieces with
  | [] => Return []
  | x :: rest =>
      if PyStr.isdigit (PyStr.strip x) then
        n <- py_int (PyStr.strip x) ;;
        l <- indices_of rest ;;
        Return (n - 1 :: l)
      else indices_of rest
  end.

Definition valid_indices (answer : string) : outcome (list Z) :=
  indices_of (PyStr.split "," (PyStr.replace " " "" answer)).

(** [[books[i] for i in valid_indices if 0 <= i < len(books)]] *)
Fixpoint pick (books : list json) (indices : list Z) : list json :=
  match indices with
  | [] => []
  | i :: rest =>
      if (0 <=? i) && (i <? Z.of_nat (List.length books)) then
        match nth_error books (Z.to_nat i) with
        | Some book => book :: pick books rest
        | None => pick books rest
        end
      else pick books rest
  end.

(** [verify_books_batch(self, books, expected_genre)]; [completion] is the
    chat completion with the stripping of its answer.  The prompt is built
    before the [try], with [book.get] on the first 30 books. *)
Definition verify_books_batch (completion : operation string)
           (books : list json) : run (list json) :=
  match books with
  | [] => stop (Return [])
  | _ :: _ =>
      if forallb is_dict (firstn 30 books) then
        call_then
          (stop
             match completion 0%nat with
             | Return answer =>
                 match valid_indices answer with
                 | Return indices => Return (pick books indices)
                 | Raise _ => Return books
                 end
             | Raise _ => Return books
             end)
      else stop (Raise PyObj.AttributeError)
  end.
End VerifyBooksBatch.

End GenreCheck.

(* ================================================================== *)
(** ** [utils/ai_helpers.py] *)

Module AIHelpers.

(** [len(v)] *)
Definition py_len (v : json) : outcome Z :=
  match v with
  | JArr items => Return (Z.of_nat (List.length items))
  | JStr s => Return (PyStr.len s)
  | JObj members => Return (Z.of_nat (List.length members))
  | _ => Raise TypeError
  end.

(** What a call of [get_ai_book_recommendations] did: what it returned, the
    run of the retried completion (when the client could be built), and the
    queries it passed to [search_function], in order. *)
Record trace : Type := Trace {
  returned : outcome json;
  asked : option (run string);
  searched : list string
}.

Section GetAIBookRecommendations.
(** [Config.RETRY_MAX_ATTEMPTS], [Config.RETRY_INITIAL_DELAY],
    [Config.RETRY_BACKOFF_MULTIPLIER] *)
Variable RETRY_MAX_ATTEMPTS : Z.
Variables RETRY_INITIAL_DELAY RETRY_BACKOFF_MULTIPLIER : PyFloat.float.
(** [OpenAI(api_key=...)] *)
Variable client : outcome unit.
(** The body of [_call_openai_with_retry]. *)
Variable completion : operation string.
(** [search_function]: its [n]-th invocation, on a query. *)
Variable search_function : nat -> string -> outcome json.

(** [_call_openai_with_retry(client, prompt)] *)
Definition _call_openai_with_retry : run string :=
  OpenAIEngine.retry_on_failure RETRY_MAX_ATTEMPTS RETRY_INITIAL_DELAY
                                RETRY_BACKOFF_MULTIPLIER completion.

(** The [except] branch: the plain search, or the empty list. *)
Definition fallback (asked : option (run string)) (before : list string)
           (user_query : string) : trace :=
  Trace
    (match search_function (List.length before) user_query with
     | Return results => Return results
     | Raise _ => Return (JArr [])
     end)
    asked (before ++ [user_query]).

(** [get_ai_book_recommendations(user_query, search_function, ...)] *)
Definition get_ai_book_recommendations (user_query : string) : trace :=
  match client with
  | Raise _ => fallback None [] user_query
  | Return _ =>
      let ai := _call_openai_with_retry in
      match result ai with
      | Raise _ => fallback (Some ai) [] user_query
      | Return search_query =>
          match search_function 0%nat search_query with
          | Raise _ => fallback (Some ai) [search_query] user_query
          | Return results =>
              match py_len results with
              | Raise _ => fallback (Some ai) [search_query] user_query
              | Return _ => Trace (Return results) (Some ai) [search_query]
              end
          end
      end
  end.
End GetAIBookRecommendations.

End AIHelpers.

(* ================================================================== *)
(** ** [search_intelligence.py] *)

Module SearchIntelligence.

Section AnalyzeQueryAndResults.
Variable RETRY_MAX_ATTEMPTS : Z.
Variables RETRY_INITIAL_DELAY RETRY_BACKOFF_MULTIPLIER : PyFloat.float.
(** [self.openai_client] is set. *)
Variable has_client : bool.
(** The chat completion of [_get_ai_correction], with the stripping of its
    answer. *)
Variable completion : operation string.

(** The body of [_get_ai_correction(self, query)], at its [n]-th
    invocation. *)
Definition correct (query : string) : operation (option string) :=
  fun n =>
    if negb has_client then Return None
    else
      correction <- completion n ;;
      if String.eqb correction "CORRECT"
         || String.eqb (PyStr.lower correction) (PyStr.lower query)
      then Return None
      else Return (Some correction).

(** [_get_ai_correction], decorated. *)
Definition _get_ai_correction (query : string) : run (option string) :=
  OpenAIEngine.retry_on_failure RETRY_MAX_ATTEMPTS RETRY_INITIAL_DELAY
                                RETRY_BACKOFF_MULTIPLIER (correct query).

(** [analyze_query_and_results(self, query, results, threshold)] *)
Definition analyze_query_and_results (query : string) (results : list json)
           (threshold : Z) : run (option string * bool) :=
  if truthy (JArr results) && (Z.of_nat (List.length results) >=? threshold)
  then stop (Return (None, false))
  else
    let ai := _get_ai_correction query in
    Run (correction <- result ai ;;
         let should_auto_correct :=
           (Z.of_nat (List.length results) =? 0)
           && match correction with Some _ => true | None => false end in
         Return (correction, should_auto_correct))
        (calls ai) (sleeps ai).
End AnalyzeQueryAndResults.

End SearchIntelligence.

(* ================================================================== *)
(** ** [service.py]: [BookVaultService.search_books] *)

Module BookVaultService.

(** The state a call works on: [self.cache] and the module's
    [search_rate_limiter]. *)
Record t : Type := Service_ {
  cache : SQLiteCache.t;
  limiter : RateLimiter.t
}.

(** What a call of [search_books] did: what it returned, the query it gave
    to [self.books_api.search] with the run of that search, the number of
    chat completions, and the state afterwards. *)
Record searched : Type := Searched {
  returned : outcome json;
  api : option (string * run json);
  completions : nat;
  after : t
}.

Section SearchBooks.
Context `{JsonModule}.
(** [Config.ENABLE_INPUT_VALIDATION], [Config.RATE_LIMIT_ENABLED],
    [Config.MAX_RETRIES] *)
Variables ENABLE_INPUT_VALIDATION RATE_LIMIT_ENABLED : bool.
Variable MAX_RETRIES : Z.
(** The requests of [search] for a query. *)
Variable request : string -> operation (list json).
(** The clock, when the cache and when the rate limiter read it. *)
Variables now limit_now : Q.
(** [int] and the chat completion of [verify_books_batch]. *)
Variable py_int : string -> outcome Z.
Variable completion : operation string.
(** What [d[:30]] raises on a dict: a [TypeError] before Python 3.12, a
    [KeyError] since. *)
Variable dict_slice_error : exc.

(** [self.ai_engine.verify_books_batch(books, expected_genre)] on what
    [search] gave, which is truthy here: a string has characters without
    [get], a dict takes no slice, a number no subscript. *)
Definition verify (books : json) : run (list json) :=
  match books with
  | JArr l => GenreCheck.verify_books_batch py_int completion l
  | JStr _ => stop (Raise PyObj.AttributeError)
  | JObj _ => stop (Raise dict_slice_error)
  | _ => stop (Raise TypeError)
  end.

(** [search_books(self, query, max_results, lang, start_index,
    verify_genre, expected_genre)] *)
Definition search_books (self : t) (query : string) (max_results : Z)
           (lang : string) (start_index : Z) (verify_genre : bool)
           (expected_genre : string) : searched :=
  if ENABLE_INPUT_VALIDATION
     && negb (fst (InputValidator.validate_search_query query))
  then Searched (Return (JArr [])) None 0 self
  else
    let query :=
      InputValidator.sanitize_string
        query (Some InputValidator.MAX_QUERY_LENGTH) in
    let gate :=
      if RATE_LIMIT_ENABLED
      then RateLimiter.is_allowed (limiter self) "global" limit_now
      else ((true, None), limiter self) in
    if negb (fst (fst gate))
    then Searched (Return (JArr [])) None 0 (Service_ (cache self) (snd gate))
    else
      let found :=
        GoogleBooksAPI.search MAX_RETRIES (request query) now (cache self)
                              query max_results lang start_index in
      let self := Service_ (snd found) (snd gate) in
      let met := Some (query, fst found) in
      match result (fst found) with
      | Raise e => Searched (Raise e) met 0 self
      | Return books =>
          match AIHelpers.py_len books with
          | Raise e => Searched (Raise e) met 0 self
          | Return _ =>
              if verify_genre && negb (String.eqb expected_genre "")
                 && truthy books
              then
                let verified := verify books in
                Searched
                  (verified_books <- result verified ;;
                   Service.filter_books_with_images (JArr verified_books))
                  met (calls verified) self
              else
                Searched (Service.filter_books_with_images books) met 0 self
          end
      end.
End SearchBooks.

End BookVaultService.

(* ================================================================== *)
(** ** [apis/openai_engine.py]: [get_recommendations] *)

Module Recommendations.

Definition nl : string := String "010" EmptyString.

(** [s.lstrip(chars)] *)
Fixpoint lstrip_chars (chars : string) (s : string) : string :=
  match s with
  | EmptyString => EmptyString
  | String c s' =>
      if existsb (Ascii.eqb c) (list_ascii_of_string chars)
      then lstrip_chars chars s'
      else s
  end.

(** [l[:stop]] *)
Definition list_slice_to {A : Type} (l : list A) (stop : Z) : list A :=
  if 0 <=? stop then firstn (Z.to_nat stop) l
  else firstn (Z.to_nat (Z.of_nat (List.length l) + stop)) l.

(** [[line.strip() for line in content.split("\n") if line.strip()]] *)
Definition lines_of (content : string) : list string :=
  map PyStr.strip
      (filter (fun line => negb (String.eqb (PyStr.strip line) ""))
              (PyStr.split "010" content)).

(** [book.get("title", "").lower()] *)
Definition lower_title (book : json) : outcome string :=
  book_title <- PyObj.get book "title" (JStr "") ;;
  match book_title with
  | JStr s => Return (PyStr.lower s)
  | _ => Raise PyObj.AttributeError
  end.

Definition prompt (title author description categories : string)
           (max_results : Z) : string :=
  "Recommend " ++ str_int (max_results * 2) ++ " books similar to '" ++ title
    ++ "' by " ++ author ++ ". "
    ++ "Categories: " ++ categories ++ ". Description: "
    ++ substring 0 200 description ++ "." ++ nl ++ nl
    ++ "IMPORTANT RULES:" ++ nl
    ++ "1. DO NOT recommend '" ++ title ++ "' itself" ++ nl
    ++ "2. Include a mix of:" ++ nl
    ++ "   - Other books in the same series (if applicable)" ++ nl
    ++ "   - Books by the same author" ++ nl
    ++ "   - Books from related series with similar themes" ++ nl
    ++ "   - Books with similar genres/themes by different authors" ++ nl ++ nl
    ++ "Return ONLY book titles with authors in format: 'Book Title by Author Name', one per line."
    ++ nl
    ++ "Example: 'Harry Potter and the Goblet of Fire by J.K. Rowling'".

Section GetRecommendations.
Context `{JsonModule}.
Variable md5_hexdigest : string -> string.
Variable MAX_RETRIES : Z.
(** The requests of the [i]-th search of the call, for its query. *)
Variable request : nat -> string -> operation (list json).
Variable now : Q.
(** [resp.choices[0].message.content] of the chat completion. *)
Variable completion : operation string.
Variable title : string.
Variable lang : string.
Variable max_results : Z.

(** The loop [for book in results]: the lists afterwards. *)
Fixpoint scan (results : list json) (recommendations : list json)
         (seen_titles : list string) : outcome (list json * list string) :=
  match results with
  | [] => Return (recommendations, seen_titles)
  | book :: rest =>
      book_title <- lower_title book ;;
      if String.eqb book_title (PyStr.lower title)
         || existsb (String.eqb book_title) seen_titles
      then scan rest recommendations seen_titles
      else
        cover_url <- PyObj.get book "cover_url" JNull ;;
        if negb (truthy cover_url) then scan rest recommendations seen_titles
        else
          let recommendations := (recommendations ++ [book])%list in
          let seen_titles := book_title :: seen_titles in
          if Z.of_nat (List.length recommendations) >=? max_results
          then Return (recommendations, seen_titles)
          else scan rest recommendations seen_titles
  end.

(** The loop [for line in lines]; [i] searches were made before. *)
Fixpoint gather (lines : list string) (i : nat) (cache : SQLiteCache.t)
         (recommendations : list json) (seen_titles : list string)
  : outcome (list json) * SQLiteCache.t :=
  match lines with
  | [] => (Return recommendations, cache)
  | line :: rest =>
      let clean_line := PyStr.strip (lstrip_chars "0123456789.-) " line) in
      if String.eqb clean_line ""
         || String.eqb (PyStr.lower clean_line) (PyStr.lower title)
      then gather rest i cache recommendations seen_titles
      else
        let found :=
          GoogleBooksAPI.search MAX_RETRIES (request i clean_line) now cache
                                clean_line 3 lang 0 in
        match (results <- result (fst found) ;;
               results <- PyObj.iterate results ;;
               scan results recommendations seen_titles) with
        | Raise e => (Raise e, snd found)
        | Return (recommendations, seen_titles) =>
            if Z.of_nat (List.length recommendations) >=? max_results
            then (Return recommendations, snd found)
            else gather rest (S i) (snd found) recommendations seen_titles
        end
  end.

(** [[book for book in cached
      if book.get("title", "").lower() != title.lower()]] *)
Fixpoint others (cached : list json) : outcome (list json) :=
  match cached with
  | [] => Return []
  | book :: rest =>
      book_title <- lower_title book ;;
      kept <- others rest ;;
      Return (if String.eqb book_title (PyStr.lower title) then kept
              else book :: kept)
  end.

(** The body of [get_recommendations(self, title, author, description,
    categories, lang, max_results)], which [lru_cache] runs on arguments
    it has not seen: what it returns, and the cache afterwards. *)
Definition get_recommendations (cache : SQLiteCache.t)
           (author description categories : string)
  : outcome json * SQLiteCache.t :=
  let cache_key :=
    AIRecommendationEngine._generate_cache_key
      md5_hexdigest
      (prompt title author description categories max_results) in
  match SQLiteCache.get cache cache_key with
  | Raise e => (Raise e, cache)
  | Return cached =>
      if truthy cached then
        (books <- PyObj.iterate cached ;;
         kept <- others books ;;
         Return (JArr (list_slice_to kept max_results)),
         cache)
      else
        match completion 0%nat with
        | Raise _ => (Return (JArr []), cache)
        | Return content =>
            let gathered :=
              gather (lines_of content) 0 cache [] [PyStr.lower title] in
            match fst gathered with
            | Raise _ => (Return (JArr []), snd gathered)
            | Return recommendations =>
                match SQLiteCache.set (snd gathered) cache_key
                                      (JArr recommendations) now with
                | Return cache' => (Return (JArr recommendations), cache')
                | Raise _ => (Return (JArr []), snd gathered)
                end
            end
        end
  end.
End GetRecommendations.

(** What holds of the books of a fresh answer, with their titles in
    lower case. *)
Definition distinct_covered (title : string) (recommendations : list json)
           (titles : list string) : Prop :=
  Forall2 (fun book t => lower_title book = Return t) recommendations titles
  /\ NoDup titles
  /\ ~ In (PyStr.lower title) titles
  /\ Forall (fun book =>
               exists cover_url,
                 PyObj.get book "cover_url" JNull = Return cover_url
                 /\ truthy cover_url = true)
            recommendations.

(** What the loops keep: the titles of the recommendations are among the
    seen ones. *)
Definition kept (title : string) (recommendations : list json)
           (seen_titles titles : list string) : Prop :=
  distinct_covered title recommendations titles
  /\ incl titles seen_titles
  /\ ~ In (PyStr.lower title) titles.

End Recommendations.

(* ================================================================== *)
(** ** [functools.lru_cache] *)

(** [lru_cache(maxsize)] around a function: the memo of the results of the
    calls that returned, most recent first.  A call whose arguments are in
    the memo returns what is stored there, without running the function;
    otherwise it runs the function in the state of the moment and stores
    what it returns, dropping the least recent entry when the memo is
    full.  With [maxsize <= 0] nothing is stored. *)
Module LruCache.

Section Lru.
Variables K V S : Type.
Variable eqb : K -> K -> bool.
Variable maxsize : Z.

Definition memo : Type := list (K * V).

Definition lookup (m : memo) (args : K) : option V :=
  if 0 <? maxsize
  then option_map snd (find (fun kv => eqb (fst kv) args) m)
  else None.

Definition touch (m : memo) (args : K) (v : V) : memo :=
  (args, v) :: filter (fun kv => negb (eqb (fst kv) args)) m.

Definition store (m : memo) (args : K) (v : V) : memo :=
  if 0 <? maxsize then firstn (Z.to_nat maxsize) ((args, v) :: m) else m.

(** A call with [args], where [body] is what the function does when it
    is run now, in state [s]: its outcome and the state afterwards. *)
Definition call (m : memo) (args : K) (s : S) (body : outcome V * S)
  : outcome V * S * memo :=
  match lookup m args with
  | Some v => (Return v, s, touch m args v)
  | None =>
      match fst body with
      | Return v => (Return v, snd body, store m args v)
      | Raise e => (Raise e, snd body, m)
      end
  end.
End Lru.

End LruCache.

(* ================================================================== *)
(** ** [apis/openai_engine.py]: [get_recommendations], as decorated *)

Module CachedRecommendations.

(** The arguments of a call that gives all six by position, as
    [service.py] does; [lru_cache] compares them (and [self], the one
    engine of the service). *)
Record args : Type := Args {
  title : string;
  author : string;
  description : string;
  categories : string;
  lang : string;
  max_results : Z
}.

Definition args_eqb (a b : args) : bool :=
  String.eqb (title a) (title b) && String.eqb (author a) (author b)
  && String.eqb (description a) (description b)
  && String.eqb (categories a) (categories b)
  && String.eqb (lang a) (lang b) && (max_results a =? max_results b).

Definition memo : Type := LruCache.memo args json.

Section GetRecommendations.
Context `{JsonModule}.
Variable md5_hexdigest : string -> string.
(** [Config.CACHE_SIZE], [Config.MAX_RETRIES] *)
Variables CACHE_SIZE MAX_RETRIES : Z.
(** What the searches and the chat completion answer during this call. *)
Variable request : nat -> string -> operation (list json).
Variable now : Q.
Variable completion : operation string.

(** The key under which the body looks its answer up in the cache. *)
Definition cache_key (a : args) : string :=
  AIRecommendationEngine._generate_cache_key
    md5_hexdigest
    (Recommendations.prompt (title a) (author a) (description a)
                            (categories a) (max_results a)).

(** [get_recommendations(self, title, author, description, categories,
    lang, max_results)] under [@lru_cache(maxsize=Config.CACHE_SIZE)]. *)
Definition get_recommendations (m : memo) (cache : SQLiteCache.t) (a : args)
  : outcome json * SQLiteCache.t * memo :=
  LruCache.call args_eqb CACHE_SIZE m a cache
    (Recommendations.get_recommendations
       md5_hexdigest MAX_RETRIES request now completion
       (title a) (lang a) (max_results a) cache
       (author a) (description a) (categories a)).
End GetRecommendations.

End CachedRecommendations.

(* ================================================================== *)
(** ** [apis/openai_engine.py]: [interpret_natural_language_query] *)

Module NaturalLanguage.



Definition prompt (query : string) (max_results : Z) : string :=
  let nl := Recommendations.nl in
  "User query: '" ++ query ++ "'" ++ nl ++ nl
    ++ "This user is looking for book recommendations. Extract their preferences and suggest "
    ++ str_int max_results ++ " specific book titles." ++ nl ++ nl
    ++ "Analyze what they want:" ++ nl
    ++ "- Genre/category (romance, thriller, sci-fi, fantasy, etc.)" ++ nl
    ++ "- Target audience (young adult, adult, children, etc.)" ++ nl
    ++ "- Themes or topics they mentioned" ++ nl
    ++ "- Any specific requirements (short, long, classic, modern, etc.)"
    ++ nl ++ nl
    ++ "Recommend " ++ str_int max_results
    ++ " specific books that match their criteria." ++ nl
    ++ "Return ONLY book titles with authors in format: 'Book Title by Author Name', one per line."
    ++ nl
    ++ "Example: 'Pride and Prejudice by Jane Austen'" ++ nl ++ nl
    ++ "DO NOT include explanations, just the book titles.".

(** The dict the method returns. *)
Definition answer (is_nl : bool) (search_terms : list string)
           (books : list json) : json :=
  JObj [("is_nl_query", JBool is_nl);
        ("search_terms", JArr (map JStr search_terms));
        ("books", JArr books)].

Section Interpret.
Context `{JsonModule}.
Variable md5_hexdigest : string -> string.
Variable MAX_RETRIES : Z.
(** The requests of the [i]-th search of the call, for its query. *)
Variable request : nat -> string -> operation (list json).
Variable now : Q.
(** [resp.choices[0].message.content] of the chat completion. *)
Variable completion : operation string.
(** [str(e)] *)
Variable str_exception : exc -> string.
Variable lang : string.
Variable max_results : Z.

(** The loop [for book in results]: the lists afterwards. *)
Fixpoint scan (results : list json) (books : list json)
         (seen_titles : list string) : outcome (list json * list string) :=
  match results with
  | [] => Return (books, seen_titles)
  | book :: rest =>
      book_title <- Recommendations.lower_title book ;;
      if existsb (String.eqb book_title) seen_titles
      then scan rest books seen_titles
      else
        cover_url <- PyObj.get book "cover_url" JNull ;;
        if negb (truthy cover_url) then scan rest books seen_titles
        else
          let books := (books ++ [book])%list in
          let seen_titles := book_title :: seen_titles in
          if Z.of_nat (List.length books) >=? max_results
          then Return (books, seen_titles)
          else scan rest books seen_titles
  end.

(** The loop [for line in lines]; [i] searches were made before.  The
    result is [books] and [search_terms]. *)
Fixpoint gather (lines : list string) (i : nat) (cache : SQLiteCache.t)
         (books : list json) (search_terms seen_titles : list string)
  : outcome (list json * list string) * SQLiteCache.t :=
  match lines with
  | [] => (Return (books, search_terms), cache)
  | line :: rest =>
      let clean_line :=
        PyStr.strip (Recommendations.lstrip_chars "0123456789.-*) " line) in
      if String.eqb clean_line "" || (PyStr.len clean_line <? 5)
      then gather rest i cache books search_terms seen_titles
      else
        let search_terms := (search_terms ++ [clean_line])%list in
        let found :=
          GoogleBooksAPI.search MAX_RETRIES (request i clean_line) now cache
                                clean_line 2 lang 0 in
        match (results <- result (fst found) ;;
               results <- PyObj.iterate results ;;
               scan results books seen_titles) with
        | Raise e => (Raise e, snd found)
        | Return (books, seen_titles) =>
            if Z.of_nat (List.length books) >=? max_results
            then (Return (books, search_terms), snd found)
            else gather rest (S i) (snd found) books search_terms seen_titles
        end
  end.


End Interpret.

End NaturalLanguage.

Example dumps_books :
  JsonText.dumps (JArr [JObj [("title", JStr "A")]])
  = Return ("[{" ++ String JsonText.dquote "title" ++ String JsonText.dquote ": "
             ++ String JsonText.dquote "A" ++ String JsonText.dquote "}]").
Proof. reflexivity. Qed.

Example loads_dumps_books :
  let v := JArr [JObj [("title", JStr "A"); ("n", JInt (-12))]; JArr []; JNull; JBool true] in
  bind (JsonText.dumps v) JsonText.loads = Return v.
Proof. vm_compute. reflexivity. Qed.

(** A tab and a quote are written with their escapes and read back; a
    number with a leading zero is not JSON; of two values given to a key
    the second is kept. *)
Example dumps_escapes :
  let v := JStr (String "009" (String JsonText.dquote "a/b")) in
  JsonText.dumps v
  = Return (String JsonText.dquote
              ("\t\" ++ String JsonText.dquote "a/b"
                     ++ String JsonText.dquote ""))
  /\ bind (JsonText.dumps v) JsonText.loads = Return v.
Proof. vm_compute. split; reflexivity. Qed.

Example loads_strict :
  JsonText.loads "01" = Raise JSONDecodeError
  /\ JsonText.loads "[1, ]" = Raise JSONDecodeError
  /\ JsonText.loads (String "010" "[ 0,-7 ]" ++ String "009" "")
     = Return (JArr [JInt 0; JInt (-7)])
  /\ JsonText.loads
       ("{" ++ String JsonText.dquote "k" ++ String JsonText.dquote ": 1, "
            ++ String JsonText.dquote "k" ++ String JsonText.dquote ": 2}")
     = Return (JObj [("k", JInt 2)]).
Proof. vm_compute. repeat split; reflexivity. Qed.

(* ================================================================== *)
(** ** The cache: lookups, writes and the primary key *)

Module CacheFacts.
Import SQLiteCache.

Lemma Qlt_bool_iff (x y : Q) : Qlt_bool x y = true <-> (x < y)%Q.
Proof.
  unfold Qlt_bool. rewrite negb_true_iff.
  split; intro Hxy.
  - apply Qnot_le_lt. intro Hle. apply Qle_bool_iff in Hle. congruence.
  - destruct (Qle_bool y x) eqn:E; [|reflexivity].
    apply Qle_bool_iff in E. exfalso. apply (Qlt_not_le _ _ Hxy E).
Qed.

Lemma has_key_eq (k : string) (r : row) : has_key k r = true <-> key r = k.
Proof. unfold has_key. apply String.eqb_eq. Qed.

Lemma find_replaced (k text : string) (ts : Q) (rs : list row) :
  find (has_key k) (filter (fun r => negb (has_key k r)) rs ++ [Row k text ts])
  = Some (Row k text ts).
Proof.
  induction rs as [|r rs IH]; simpl.
  - unfold has_key at 1. simpl. now rewrite String.eqb_refl.
  - destruct (has_key k r) eqn:E; simpl; [exact IH|].
    now rewrite E.
Qed.

Lemma find_other (k k' text : string) (ts : Q) (rs : list row) :
  k' <> k ->
  find (has_key k) (filter (fun r => negb (has_key k' r)) rs ++ [Row k' text ts])
  = find (has_key k) rs.
Proof.
  intro Hne.
  induction rs as [|r rs IH]; simpl.
  - unfold has_key at 1. simpl.
    destruct (String.eqb k' k) eqn:E; [|reflexivity].
    apply String.eqb_eq in E. contradiction.
  - destruct (has_key k' r) eqn:E'; simpl.
    + destruct (has_key k r) eqn:E; [|exact IH].
      apply has_key_eq in E, E'. congruence.
    + destruct (has_key k r); [reflexivity|exact IH].
Qed.

Lemma In_keys_filter (f : row -> bool) (k : string) (rs : list row) :
  In k (map key (filter f rs)) -> In k (map key rs).
Proof.
  rewrite !in_map_iff. intros (r & Hk & Hin).
  apply filter_In in Hin. exists r. tauto.
Qed.

Lemma NoDup_keys_filter (f : row -> bool) (rs : list row) :
  NoDup (map key rs) -> NoDup (map key (filter f rs)).
Proof.
  induction rs as [|r rs IH]; simpl; intro Hnd; [constructor|].
  inversion Hnd as [|? ? Hnotin Hnd']; subst.
  destruct (f r); simpl; [|auto].
  constructor; [|auto].
  intro Hin. apply Hnotin. eapply In_keys_filter; eauto.
Qed.

Lemma NoDup_keys_snoc (r : row) (rs : list row) :
  NoDup (map key rs) -> ~ In (key r) (map key rs) ->
  NoDup (map key (rs ++ [r])).
Proof.
  induction rs as [|r' rs IH]; simpl; intros Hnd Hnotin.
  - constructor; [tauto|constructor].
  - inversion Hnd as [|? ? Hn Hnd']; subst.
    constructor.
    + rewrite map_app, in_app_iff. simpl. intros [Hin|[Heq|[]]]; [tauto|].
      apply Hnotin. now left.
    + apply IH; [assumption|]. intro Hin. apply Hnotin. now right.
Qed.

Lemma unique_replaced (k text : string) (ts : Q) (rs : list row) :
  NoDup (map key rs) ->
  NoDup (map key (filter (fun r => negb (has_key k r)) rs ++ [Row k text ts])).
Proof.
  intro Hnd. apply NoDup_keys_snoc.
  - now apply NoDup_keys_filter.
  - simpl. rewrite in_map_iff. intros (r & Hk & Hin).
    apply filter_In in Hin. destruct Hin as [_ Hneg].
    apply negb_true_iff in Hneg.
    apply has_key_eq in Hk. congruence.
Qed.

Lemma entries_le_1 (k : string) (rs : list row) :
  NoDup (map key rs) -> (List.length (filter (has_key k) rs) <= 1)%nat.
Proof.
  induction rs as [|r rs IH]; simpl; intro Hnd; [lia|].
  inversion Hnd as [|? ? Hnotin Hnd']; subst.
  destruct (has_key k r) eqn:E; [|auto].
  simpl.
  assert (Hnone : filter (has_key k) rs = []).
  { destruct (filter (has_key k) rs) as [|r' l] eqn:F; [reflexivity|].
    exfalso. apply Hnotin.
    assert (Hin : In r' (filter (has_key k) rs)) by (rewrite F; now left).
    apply filter_In in Hin. destruct Hin as [Hin Hk].
    apply has_key_eq in E, Hk. rewrite E, <- Hk. now apply in_map. }
  rewrite Hnone. simpl. lia.
Qed.

Section WithJson.
Context `{JsonModule}.

Lemma get_returns (self : t) (k : string) : exists v, get self k = Return v.
Proof.
  unfold get, select_value, execute, try_except, bind.
  destruct (available self); [|eauto].
  destruct (option_map value (find (has_key k) (rows self))) as [text|];
    [|eauto].
  destruct (json_loads text) as [v|e]; eauto.
  destruct e; eauto.
Qed.

Lemma set_returns (self : t) (k : string) (v : json) (now : Q) :
  exists self', set self k v now = Return self'.
Proof.
  unfold set, insert_or_replace, execute, try_except, bind.
  destruct (json_dumps v); [|eauto].
  destruct (available self); eauto.
Qed.

Lemma set_stores (self : t) (k : string) (v : json) (now : Q) (text : string) :
  available self = true -> json_dumps v = Return text ->
  set self k v now
  = Return (with_rows self
              (filter (fun r => negb (has_key k r)) (rows self)
               ++ [Row k text now])).
Proof.
  intros Hup Hd. unfold set, insert_or_replace, execute, try_except, bind.
  now rewrite Hd, Hup.
Qed.

Lemma get_set (self self' : t) (k : string) (v : json) (now : Q) :
  available self = true -> round_trips v ->
  set self k v now = Return self' ->
  get self' k = Return v /\ available self' = true.
Proof.
  intros Hup (text & Hd & Hl) Hset.
  rewrite (@set_stores self k v now text Hup Hd) in Hset.
  injection Hset as <-.
  split; [|exact Hup].
  unfold get, select_value, execute, try_except, bind. simpl.
  rewrite Hup, find_replaced. simpl. now rewrite Hl.
Qed.

Lemma set_available (self self' : t) (k : string) (v : json) (now : Q) :
  set self k v now = Return self' -> available self' = available self.
Proof.
  unfold set, insert_or_replace, execute, try_except, bind.
  destruct (json_dumps v); [|now intros [= <-]].
  destruct (available self) eqn:E; intros [= <-]; simpl; auto.
Qed.

Lemma get_set_other (self self' : t) (k k' : string) (v : json) (now : Q) :
  k' <> k -> set self k' v now = Return self' ->
  get self' k = get self k.
Proof.
  intros Hne. unfold set, insert_or_replace, execute, try_except, bind.
  destruct (json_dumps v) as [text|]; [|now intros [= <-]].
  destruct (available self) eqn:Hup; [|now intros [= <-]].
  intros [= <-].
  unfold get, select_value, execute, try_except, bind. simpl.
  rewrite Hup. now rewrite find_other.
Qed.

Lemma set_unique (self self' : t) (k : string) (v : json) (now : Q) :
  unique_keys self -> set self k v now = Return self' -> unique_keys self'.
Proof.
  unfold unique_keys, keys, set, insert_or_replace, execute, try_except, bind.
  intro Hnd.
  destruct (json_dumps v) as [text|]; [|now intros [= <-]].
  destruct (available self); [|now intros [= <-]].
  intros [= <-]. simpl. now apply unique_replaced.
Qed.

Lemma step_unique (self : t) (o : CacheOps.op) :
  unique_keys self -> unique_keys (CacheOps.step self o).
Proof.
  intro Hnd. destruct o as [k|k v now| |now|now|up]; simpl.
  - exact Hnd.
  - destruct (set_returns self k v now) as [self' Hs]. rewrite Hs. simpl.
    eapply set_unique; eauto.
  - unfold clear, delete_all, execute.
    destruct (available self); simpl; [constructor|exact Hnd].
  - unfold _clean_old_entries, delete_older, execute.
    destruct (available self); simpl; [|exact Hnd].
    now apply NoDup_keys_filter.
  - unfold clear_old_entries, count_older, delete_older, execute, bind.
    destruct (available self); simpl; [|exact Hnd].
    now apply NoDup_keys_filter.
  - exact Hnd.
Qed.

Lemma exec_unique (ops : list CacheOps.op) (self : t) :
  unique_keys self -> unique_keys (CacheOps.exec ops self).
Proof.
  unfold CacheOps.exec. revert self.
  induction ops as [|o ops IH]; simpl; intros self Hnd; [exact Hnd|].
  apply IH. now apply step_unique.
Qed.

Lemma step_leaves (k : string) (self : t) (o : CacheOps.op) :
  CacheOps.leaves k o = true -> get (CacheOps.step self o) k = get self k.
Proof.
  destruct o as [k0|k' v now| |now|now|up]; simpl; try discriminate.
  - reflexivity.
  - intro Hne. apply negb_true_iff in Hne.
    destruct (set_returns self k' v now) as [self' Hs]. rewrite Hs. simpl.
    eapply get_set_other; eauto.
    intro Heq. subst. rewrite String.eqb_refl in Hne. discriminate.
Qed.

Lemma exec_leaves (k : string) (ops : list CacheOps.op) (self : t) :
  forallb (CacheOps.leaves k) ops = true ->
  get (CacheOps.exec ops self) k = get self k.
Proof.
  unfold CacheOps.exec. revert self.
  induction ops as [|o ops IH]; simpl; intros self Hall; [reflexivity|].
  apply andb_true_iff in Hall. destruct Hall as [Ho Hall].
  rewrite IH by assumption. now apply step_leaves.
Qed.
End WithJson.

End CacheFacts.

(* ================================================================== *)
(** ** The cache: eviction by age *)

Module EvictionFacts.
Import SQLiteCache.

Lemma filter_split_length (f : row -> bool) (rs : list row) :
  (List.length (filter f rs) + List.length (filter (fun r => negb (f r)) rs)
   = List.length rs)%nat.
Proof.
  induction rs as [|r rs IH]; simpl; [reflexivity|].
  destruct (f r); simpl; lia.
Qed.

Lemma same_key_same_row (rs : list row) (r r' : row) :
  NoDup (map key rs) -> In r rs -> In r' rs -> key r = key r' -> r = r'.
Proof.
  induction rs as [|r0 rs IH]; simpl; intros Hnd Hr Hr' Hk; [tauto|].
  inversion Hnd as [|? ? Hnotin Hnd']; subst.
  destruct Hr as [->|Hr], Hr' as [->|Hr']; auto.
  - exfalso. apply Hnotin. rewrite Hk. now apply in_map.
  - exfalso. apply Hnotin. rewrite <- Hk. now apply in_map.
Qed.

Lemma find_unique (rs : list row) (r : row) :
  NoDup (map key rs) -> In r rs -> find (has_key (key r)) rs = Some r.
Proof.
  intros Hnd Hin.
  destruct (find (has_key (key r)) rs) as [r'|] eqn:F.
  - apply find_some in F. destruct F as [Hin' Hk].
    apply CacheFacts.has_key_eq in Hk.
    f_equal. eapply same_key_same_row; eauto.
  - exfalso. apply (find_none _ _ F) in Hin.
    unfold has_key in Hin. rewrite String.eqb_refl in Hin. discriminate.
Qed.

Lemma find_dropped (f : row -> bool) (rs : list row) (r : row) :
  NoDup (map key rs) -> In r rs -> f r = false ->
  find (has_key (key r)) (filter f rs) = None.
Proof.
  intros Hnd Hin Hf.
  destruct (find (has_key (key r)) (filter f rs)) as [r'|] eqn:F; [|reflexivity].
  apply find_some in F. destruct F as [Hin' Hk].
  apply filter_In in Hin'. destruct Hin' as [Hin' Hf'].
  apply CacheFacts.has_key_eq in Hk.
  assert (r' = r) by (eapply same_key_same_row; eauto).
  subst. congruence.
Qed.

Lemma clear_old_entries_up (self : t) (now : Q) :
  available self = true ->
  clear_old_entries self now
  = Return (Z.of_nat (List.length
                        (filter (older_than (cutoff_time self now)) (rows self))),
            with_rows self
              (filter (fun r => negb (older_than (cutoff_time self now) r))
                      (rows self))).
Proof.
  intro Hup.
  unfold clear_old_entries, count_older, delete_older, execute, bind.
  now rewrite Hup.
Qed.

Lemma older_than_age (self : t) (now : Q) (r : row) :
  older_than (cutoff_time self now) r = true
  <-> (inject_Z (max_age_hours self * 3600) < now - timestamp r)%Q.
Proof.
  unfold older_than, cutoff_time. rewrite CacheFacts.Qlt_bool_iff.
  split; intro Hlt; lra.
Qed.

End EvictionFacts.

(* ================================================================== *)
(** ** Binary64 multiplication by a number that is at least 1 *)

Module FloatFacts.
Import SpecFloat PyFloat.

Lemma digits2_pos_spec (p : positive) :
  2 ^ (Zpos (digits2_pos p) - 1) <= Zpos p < 2 ^ Zpos (digits2_pos p).
Proof.
  induction p as [p IH|p IH|]; cbn [digits2_pos].
  - rewrite Pos2Z.inj_succ.
    replace (Z.succ (Zpos (digits2_pos p)) - 1) with (Z.succ (Zpos (digits2_pos p) - 1)) by lia.
    rewrite !Z.pow_succ_r by lia. lia.
  - rewrite Pos2Z.inj_succ.
    replace (Z.succ (Zpos (digits2_pos p)) - 1) with (Z.succ (Zpos (digits2_pos p) - 1)) by lia.
    rewrite !Z.pow_succ_r by lia. lia.
  - simpl. lia.
Qed.

Lemma shr_1_m (mrs : shr_record) :
  0 <= shr_m mrs -> shr_m (shr_1 mrs) = shr_m mrs / 2.
Proof.
  destruct mrs as [m r s]. cbn [shr_m shr_1]. intro Hm.
  destruct m as [|[p|p|]|p]; cbn [shr_m]; try lia.
  - reflexivity.
  - rewrite Pos2Z.inj_xI. apply Z.div_unique with 1; lia.
  - rewrite Pos2Z.inj_xO. apply Z.div_unique with 0; lia.
  - reflexivity.
Qed.

Lemma pow2_xI (p : positive) :
  2 ^ Zpos p~1 = 2 * (2 ^ Zpos p * 2 ^ Zpos p).
Proof.
  replace (Zpos p~1) with (1 + (Zpos p + Zpos p)) by lia.
  rewrite !Z.pow_add_r by lia. reflexivity.
Qed.

Lemma pow2_xO (p : positive) : 2 ^ Zpos p~0 = 2 ^ Zpos p * 2 ^ Zpos p.
Proof.
  replace (Zpos p~0) with (Zpos p + Zpos p) by lia.
  now rewrite Z.pow_add_r by lia.
Qed.

Lemma shr_m_iter (p : positive) :
  forall mrs, 0 <= shr_m mrs ->
              shr_m (iter_pos shr_1 p mrs) = shr_m mrs / 2 ^ Zpos p.
Proof.
  assert (Hnn : forall mrs, 0 <= shr_m mrs -> 0 <= shr_m (shr_1 mrs)).
  { intros mrs Hm. rewrite shr_1_m by assumption. apply Z.div_pos; lia. }
  induction p as [p IH|p IH|]; intros mrs Hm; cbn [iter_pos].
  - rewrite !IH.
    + rewrite shr_1_m by assumption.
      rewrite !Z.div_div by lia.
      f_equal. now rewrite pow2_xI.
    + now apply Hnn.
    + rewrite IH by now apply Hnn. apply Z.div_pos; [now apply Hnn|lia].
  - rewrite !IH.
    + rewrite !Z.div_div by lia.
      f_equal. now rewrite pow2_xO.
    + assumption.
    + rewrite IH by assumption. apply Z.div_pos; [assumption|lia].
  - rewrite shr_1_m by assumption. reflexivity.
Qed.

Lemma round_nearest_even_bounds (m : Z) (l : location) :
  m <= round_nearest_even m l <= m + 1.
Proof.
  destruct l as [|[| |]]; cbn [round_nearest_even]; try lia.
  destruct (Z.even m); lia.
Qed.

Lemma scaled_cancel (m1 e1 m2 e2 : Z) :
  -1074 <= e1 -> -1074 <= e2 ->
  m1 * 2 ^ (e1 + 2148) <= m2 * 2 ^ (e2 + 2148) ->
  scaled m1 e1 <= scaled m2 e2.
Proof.
  intros H1 H2 Hle. unfold scaled.
  replace (e1 + 2148) with ((e1 + 1074) + 1074) in Hle by lia.
  replace (e2 + 2148) with ((e2 + 1074) + 1074) in Hle by lia.
  rewrite (Z.pow_add_r 2 (e1 + 1074) 1074),
    (Z.pow_add_r 2 (e2 + 1074) 1074), !Z.mul_assoc in Hle by lia.
  apply Z.mul_le_mono_pos_r in Hle; [exact Hle|].
  apply Z.pow_pos_nonneg; lia.
Qed.

Lemma round_aux_ge (p : positive) (E md ed : Z) :
  0 < md < 2 ^ 53 -> -1074 <= ed -> -2148 <= E ->
  md * 2 ^ (ed + 2148) <= Zpos p * 2 ^ (E + 2148) ->
  let R := binary_round_aux prec emax false (Zpos p) E loc_Exact in
  R = S754_infinity false
  \/ exists m e, R = S754_finite false m e
                 /\ Zpos m < 2 ^ 53 /\ -1074 <= e
                 /\ scaled md ed <= scaled (Zpos m) e.
Proof.
  intros Hmd Hed HE Hle. cbv zeta.
  unfold binary_round_aux, shr_fexp, fexp, emin, prec, emax.
  cbn [shr_record_of_loc Zdigits2].
  pose proof (digits2_pos_spec p) as Hdig.
  set (dP := Zpos (digits2_pos p)) in *.
  replace (3 - 1024 - 53) with (-1074) by reflexivity.
  set (F := Z.max (dP + E - 53) (-1074)).
  assert (HdP : 0 < dP) by (subst dP; lia).
  destruct (F - E) as [|k|k] eqn:Hk.
  - (* no shift *)
    cbn [shr shr_m loc_of_shr_record round_nearest_even Zdigits2].
    fold dP. fold F. rewrite Hk. cbn [shr shr_m].
    assert (HEF : E = F) by lia.
    assert (HdP53 : dP <= 53) by lia.
    assert (HEmin : -1074 <= E) by lia.
    assert (Hbound : scaled md ed <= scaled (Zpos p) E)
      by (apply scaled_cancel; assumption).
    destruct (E <=? 1024 - 53); [right|now left].
    exists p, E. split; [reflexivity|]. split; [|split; [exact HEmin|exact Hbound]].
    apply Z.lt_le_trans with (2 ^ dP); [lia|].
    apply Z.pow_le_mono_r; lia.
  - (* shift *)
    assert (HF : F = E + Zpos k) by lia.
    cbn [shr].
    set (mrs1 := iter_pos shr_1 k _).
    assert (Hm1 : shr_m mrs1 = Zpos p / 2 ^ Zpos k)
      by (subst mrs1; rewrite shr_m_iter; cbn [shr_m]; [reflexivity|lia]).
    set (m1 := shr_m mrs1) in *.
    pose proof (round_nearest_even_bounds m1 (loc_of_shr_record mrs1)) as Hrne.
    set (m2 := round_nearest_even m1 (loc_of_shr_record mrs1)) in *.
    assert (Hpk : 0 < 2 ^ Zpos k) by (apply Z.pow_pos_nonneg; lia).
    (* the truncated mantissa has at most 53 digits *)
    assert (Hm1lt : m1 < 2 ^ 53).
    { rewrite Hm1. apply Z.div_lt_upper_bound; [lia|].
      rewrite <- Z.pow_add_r by lia.
      apply Z.lt_le_trans with (2 ^ dP); [lia|].
      apply Z.pow_le_mono_r; lia. }
    (* and it is not below the lower bound *)
    assert (Hlb : scaled md ed <= scaled m1 (E + Zpos k)).
    { unfold scaled. destruct (Z_le_gt_dec (E + Zpos k) ed) as [Hge|Hlt].
      - set (a := ed - (E + Zpos k)) in *.
        assert (HN : md * 2 ^ a <= m1).
        { rewrite Hm1. apply Z.div_le_lower_bound; [lia|].
          replace (ed + 2148) with (a + Zpos k + (E + 2148)) in Hle
            by (subst a; lia).
          rewrite (Z.pow_add_r 2 (a + Zpos k) (E + 2148)),
            (Z.pow_add_r 2 a (Zpos k)), !Z.mul_assoc in Hle by (subst a; lia).
          apply Z.mul_le_mono_pos_r in Hle;
            [|apply Z.pow_pos_nonneg; lia].
          lia. }
        replace (ed + 1074) with (a + (E + Zpos k + 1074)) by (subst a; lia).
        rewrite (Z.pow_add_r 2 a (E + Zpos k + 1074)), Z.mul_assoc
          by (subst a; lia).
        apply Z.mul_le_mono_nonneg_r; [|exact HN].
        apply Z.pow_nonneg; lia.
      - assert (HFn : F = dP + E - 53) by lia.
        assert (Hk53 : Zpos k = dP - 53) by lia.
        assert (Hm1ge : 2 ^ 52 <= m1).
        { rewrite Hm1. apply Z.div_le_lower_bound; [lia|].
          rewrite <- Z.pow_add_r by lia.
          replace (Zpos k + 52) with (dP - 1) by lia. lia. }
        replace (E + Zpos k + 1074) with (1 + (E + Zpos k - 1 + 1074)) by lia.
        rewrite (Z.pow_add_r 2 1 (E + Zpos k - 1 + 1074)) by lia.
        assert (He : 2 ^ (ed + 1074) <= 2 ^ (E + Zpos k - 1 + 1074))
          by (apply Z.pow_le_mono_r; lia).
        assert (HX : 0 < 2 ^ (ed + 1074)) by (apply Z.pow_pos_nonneg; lia).
        set (X := 2 ^ (ed + 1074)) in *.
        set (Y := 2 ^ (E + Zpos k - 1 + 1074)) in *.
        change (2 ^ 1) with 2.
        apply Z.le_trans with (2 ^ 53 * X).
        + apply Z.mul_le_mono_nonneg_r; lia.
        + apply Z.le_trans with (2 ^ 52 * (2 * Y)).
          * change (2 ^ 53) with (2 ^ 52 * 2). rewrite <- Z.mul_assoc.
            apply Z.mul_le_mono_nonneg_l; [lia|lia].
          * apply Z.mul_le_mono_nonneg_r; lia. }
    assert (Hm1pos : 0 < m1).
    { unfold scaled in Hlb.
      assert (HX : 0 < 2 ^ (ed + 1074)) by (apply Z.pow_pos_nonneg; lia).
      assert (HY : 0 < 2 ^ (E + Zpos k + 1074))
        by (apply Z.pow_pos_nonneg; lia).
      destruct (Z_lt_le_dec 0 m1) as [Hpos|Hneg]; [exact Hpos|exfalso].
      assert (0 < md * 2 ^ (ed + 1074)) by (apply Z.mul_pos_pos; lia).
      assert (m1 * 2 ^ (E + Zpos k + 1074) <= 0)
        by (apply Z.mul_nonpos_nonneg; lia).
      lia. }
    assert (HFmin : -1074 <= E + Zpos k) by lia.
    destruct m2 as [|q|q] eqn:Hq; [lia| |lia].
    cbn [Zdigits2].
    pose proof (digits2_pos_spec q) as Hdq.
    set (dq := Zpos (digits2_pos q)) in *.
    destruct (Z.eq_dec (Zpos q) (2 ^ 53)) as [Hfull|Hnot].
    + (* the mantissa rounded up to 2^53 *)
      assert (Hdq54 : dq = 54).
      { rewrite Hfull in Hdq. destruct Hdq as [H1 H2].
        apply Z.pow_le_mono_r_iff in H1; [|lia|lia].
        apply Z.pow_lt_mono_r_iff in H2; [|lia|lia]. lia. }
      replace (Z.max (dq + (E + Zpos k) - 53) (-1074) - (E + Zpos k))
        with 1 by lia.
      cbn [shr iter_pos].
      rewrite shr_1_m by (cbn [shr_m]; lia). cbn [shr_m].
      rewrite Hfull. change (2 ^ 53 / 2) with (Zpos (2 ^ 52)).
      destruct (E + Zpos k + 1 <=? 1024 - 53); [right|now left].
      exists (2 ^ 52)%positive, (E + Zpos k + 1).
      split; [reflexivity|]. split; [reflexivity|]. split; [lia|].
      apply Z.le_trans with (scaled m1 (E + Zpos k)); [exact Hlb|].
      unfold scaled.
      replace (E + Zpos k + 1 + 1074) with (1 + (E + Zpos k + 1074)) by lia.
      rewrite (Z.pow_add_r 2 1 (E + Zpos k + 1074)) by lia.
      assert (HY : 0 < 2 ^ (E + Zpos k + 1074))
        by (apply Z.pow_pos_nonneg; lia).
      set (Y := 2 ^ (E + Zpos k + 1074)) in *.
      change (Zpos (2 ^ 52) * (2 ^ 1 * Y)) with (2 ^ 52 * (2 * Y)).
      rewrite Z.mul_assoc. change (2 ^ 52 * 2) with (2 ^ 53).
      apply Z.mul_le_mono_nonneg_r; lia.
    + assert (Hqlt : Zpos q < 2 ^ 53) by lia.
      assert (Hdq53 : dq <= 53).
      { destruct Hdq as [H1 _].
        assert (H3 : 2 ^ (dq - 1) < 2 ^ 53) by lia.
        apply Z.pow_lt_mono_r_iff in H3; lia. }
      destruct (Z.max (dq + (E + Zpos k) - 53) (-1074) - (E + Zpos k))
        as [|k2|k2] eqn:Hk2; [| lia |]; cbn [shr shr_m].
      * destruct (E + Zpos k <=? 1024 - 53); [right|now left].
        exists q, (E + Zpos k). split; [reflexivity|].
        split; [exact Hqlt|]. split; [lia|].
        apply Z.le_trans with (scaled m1 (E + Zpos k)); [exact Hlb|].
        unfold scaled.
        apply Z.mul_le_mono_nonneg_r; [apply Z.pow_nonneg; lia|lia].
      * destruct (E + Zpos k <=? 1024 - 53); [right|now left].
        exists q, (E + Zpos k). split; [reflexivity|].
        split; [exact Hqlt|]. split; [lia|].
        apply Z.le_trans with (scaled m1 (E + Zpos k)); [exact Hlb|].
        unfold scaled.
        apply Z.mul_le_mono_nonneg_r; [apply Z.pow_nonneg; lia|lia].
  - (* a negative shift is no shift *)
    cbn [shr shr_m loc_of_shr_record round_nearest_even Zdigits2].
    fold dP. fold F. rewrite Hk. cbn [shr shr_m].
    assert (HdP53 : dP <= 53) by lia.
    assert (HEmin : -1074 <= E) by lia.
    assert (Hbound : scaled md ed <= scaled (Zpos p) E)
      by (apply scaled_cancel; assumption).
    destruct (E <=? 1024 - 53); [right|now left].
    exists p, E. split; [reflexivity|]. split; [|split; [exact HEmin|exact Hbound]].
    apply Z.lt_le_trans with (2 ^ dP); [lia|].
    apply Z.pow_le_mono_r; lia.
Qed.

Lemma valid_bounds (s : bool) (m : positive) (e : Z) :
  valid (S754_finite s m e) = true ->
  Zpos m < 2 ^ 53 /\ -1074 <= e /\ (-1074 < e -> 2 ^ 52 <= Zpos m).
Proof.
  unfold valid, valid_binary, bounded, canonical_mantissa, fexp, emin,
    prec, emax.
  replace (3 - 1024 - 53) with (-1074) by reflexivity.
  intro Hv. apply andb_true_iff in Hv. destruct Hv as [Hc _].
  apply Z.eqb_eq in Hc.
  pose proof (digits2_pos_spec m) as [Hlo Hhi].
  set (d := Zpos (digits2_pos m)) in *.
  split; [|split].
  - apply Z.lt_le_trans with (2 ^ d); [exact Hhi|].
    apply Z.pow_le_mono_r; lia.
  - lia.
  - intro He. assert (Hd : d = 53) by lia.
    rewrite Hd in Hlo. exact Hlo.
Qed.

(** A float that is at least 1.0 is [+inf] or a positive number whose
    value is at least 1. *)
Lemma one_leb (b : float) :
  valid b = true -> leb one b = true ->
  b = S754_infinity false
  \/ exists m e, b = S754_finite false m e /\ -1074 <= e
                  /\ 2 ^ 1074 <= scaled (Zpos m) e.
Proof.
  intros Hv Hle. destruct b as [s|s| |s m e].
  - discriminate Hle.
  - destruct s; [discriminate Hle|now left].
  - discriminate Hle.
  - right. destruct (valid_bounds _ _ _ Hv) as (Hm & He & Hnorm).
    unfold leb, SFleb, one, SFcompare in Hle.
    destruct s; [discriminate Hle|].
    exists m, e. split; [reflexivity|]. split; [exact He|].
    unfold scaled.
    assert (He52 : -52 <= e).
    { destruct (Z.compare_spec (-52) e) as [Heq|Hlt|Hgt];
        [lia|lia|discriminate Hle]. }
    apply Z.le_trans with (2 ^ 52 * 2 ^ (e + 1074)).
    + rewrite <- Z.pow_add_r by lia. apply Z.pow_le_mono_r; lia.
    + apply Z.mul_le_mono_nonneg_r; [apply Z.pow_nonneg; lia|].
      apply Hnorm. lia.
Qed.

(** Multiplying a positive number by a number that is at least 1 gives
    [+inf] or a number that is not smaller. *)
Lemma mul_ge (md mb : positive) (ed eb : Z) :
  Zpos md < 2 ^ 53 -> -1074 <= ed -> -1074 <= eb ->
  2 ^ 1074 <= scaled (Zpos mb) eb ->
  let R := mul (S754_finite false md ed) (S754_finite false mb eb) in
  R = S754_infinity false
  \/ exists m e, R = S754_finite false m e
                  /\ Zpos m < 2 ^ 53 /\ -1074 <= e
                  /\ scaled (Zpos md) ed <= scaled (Zpos m) e.
Proof.
  intros Hmd Hed Heb Hb. cbv zeta. unfold mul, SFmul. cbn [xorb].
  apply round_aux_ge; [lia|exact Hed|lia|].
  rewrite Pos2Z.inj_mul.
  replace (ed + eb + 2148) with ((ed + 1074) + (eb + 1074)) by lia.
  replace (ed + 2148) with ((ed + 1074) + 1074) by lia.
  rewrite (Z.pow_add_r 2 (ed + 1074) (eb + 1074)),
    (Z.pow_add_r 2 (ed + 1074) 1074) by lia.
  unfold scaled in Hb.
  replace (Zpos md * Zpos mb * (2 ^ (ed + 1074) * 2 ^ (eb + 1074)))
    with (Zpos md * 2 ^ (ed + 1074) * (Zpos mb * 2 ^ (eb + 1074))) by ring.
  rewrite Z.mul_assoc.
  apply Z.mul_le_mono_nonneg_l; [|exact Hb].
  apply Z.mul_nonneg_nonneg; [lia|apply Z.pow_nonneg; lia].
Qed.

Lemma to_Q_scaled (m : positive) (e : Z) :
  -1074 <= e ->
  (to_Q (S754_finite false m e) * inject_Z (2 ^ 1074)
   == inject_Z (scaled (Zpos m) e))%Q.
Proof.
  intro He. unfold to_Q, scaled. rewrite Qred_correct.
  destruct e as [|p|p].
  - rewrite <- inject_Z_mult. now rewrite Z.pow_0_r, Z.mul_1_r.
  - rewrite <- inject_Z_mult.
    now rewrite (Z.pow_add_r 2 (Zpos p) 1074), Z.mul_assoc by lia.
  - unfold Qeq, Qmult, inject_Z. cbn [Qnum Qden].
    rewrite Pos.mul_1_r, Z.mul_1_r, Pos2Z.inj_pow.
    rewrite <- Z.mul_assoc. f_equal.
    rewrite <- Z.pow_add_r by lia. f_equal. lia.
Qed.

Lemma to_Q_le (m1 m2 : positive) (e1 e2 : Z) :
  -1074 <= e1 -> -1074 <= e2 ->
  scaled (Zpos m1) e1 <= scaled (Zpos m2) e2 ->
  (to_Q (S754_finite false m1 e1) <= to_Q (S754_finite false m2 e2))%Q.
Proof.
  intros H1 H2 Hle.
  apply Qmult_le_r with (inject_Z (2 ^ 1074)).
  - change 0%Q with (inject_Z 0). rewrite <- Zlt_Qlt.
    apply Z.pow_pos_nonneg; lia.
  - rewrite !to_Q_scaled by assumption. now rewrite <- Zle_Qle.
Qed.

Lemma to_Q_nonneg (m : positive) (e : Z) :
  (0 <= to_Q (S754_finite false m e))%Q.
Proof.
  unfold to_Q. rewrite Qred_correct.
  destruct e as [|p|p].
  - change 0%Q with (inject_Z 0). rewrite <- Zle_Qle. lia.
  - change 0%Q with (inject_Z 0). rewrite <- Zle_Qle.
    apply Z.mul_nonneg_nonneg; [lia|apply Z.pow_nonneg; lia].
  - unfold Qle. cbn [Qnum Qden]. lia.
Qed.

(** What [time.sleep] accepts: a zero or a positive number. *)
Lemma sleep_accepted (d : float) :
  time_sleep d = Return tt ->
  (exists s, d = S754_zero s) \/ (exists m e, d = S754_finite false m e).
Proof.
  destruct d as [s|s| |s m e]; intro Hs.
  - left. now exists s.
  - destruct s; vm_compute in Hs; discriminate Hs.
  - discriminate Hs.
  - destruct s; [|right; now exists m, e].
    unfold time_sleep in Hs.
    destruct (leb time_t_min _ && ltb _ time_t_max); discriminate Hs.
Qed.

(** What it raises otherwise. *)
Lemma sleep_error (d : float) (e : exc) :
  time_sleep d = Raise e -> e = ValueError \/ e = OverflowError.
Proof.
  unfold time_sleep.
  destruct d as [s|s| |s m ex];
    try (destruct (leb time_t_min _ && ltb _ time_t_max);
         [destruct (ltb _ zero)|]);
    intro Hs; try discriminate Hs; injection Hs as <-; auto.
Qed.

Lemma valid_bounded (x : float) : valid x = true -> bounded_number x.
Proof.
  intros Hv m e ->.
  destruct (valid_bounds _ _ _ Hv) as (Hm & He & _). split; assumption.
Qed.

(** Between two lengths that [time.sleep] accepts, a multiplication by a
    number that is at least 1 does not go down. *)
Lemma mul_accepted_ge (d b : float) :
  bounded_number d -> valid b = true -> leb one b = true ->
  time_sleep d = Return tt -> time_sleep (mul d b) = Return tt ->
  (to_Q d <= to_Q (mul d b))%Q /\ bounded_number (mul d b).
Proof.
  intros Hd Hv Hb Hs Hs'.
  destruct (one_leb b Hv Hb) as [->|(mb & eb & -> & Heb & Hone)];
    destruct (sleep_accepted d Hs) as [[s ->]|(md & ed & ->)].
  - discriminate Hs'.
  - vm_compute in Hs'. discriminate Hs'.
  - cbn [mul SFmul to_Q]. split; [apply Qle_refl|].
    intros m e He. discriminate He.
  - destruct (Hd md ed eq_refl) as [Hmd Hed].
    destruct (@mul_ge md mb ed eb Hmd Hed Heb Hone)
      as [HR|(m & e & HR & Hm & He & Hle)]; cbv zeta in HR.
    + rewrite HR in Hs'. vm_compute in Hs'. discriminate Hs'.
    + rewrite HR. split; [apply to_Q_le; assumption|].
      intros m' e' [= <- <-]. split; assumption.
Qed.
End FloatFacts.

(* ================================================================== *)
(** ** [retry_on_failure]: attempts and delays *)

Module RetryFacts.
Import OpenAIEngine.

Lemma time_sleep_nonneg (secs : Q) :
  time_sleep secs = Return tt <-> (0 <= secs)%Q.
Proof.
  unfold time_sleep. rewrite <- Qle_bool_iff.
  destruct (Qle_bool 0 secs); split; congruence.
Qed.

Lemma time_sleep_returns (secs : Q) (u : unit) :
  time_sleep secs = Return u -> (0 <= secs)%Q.
Proof. destruct u. apply time_sleep_nonneg. Qed.

Section Wrapper.
Variable A : Type.
Variable max_retries : Z.
Variables delay backoff : PyFloat.float.
Variable func : operation A.

Let loop := for_attempt max_retries backoff func.
Let next := fun current_delay => PyFloat.mul current_delay backoff.

(** Every delay slept is the number of the current delay after as many
    multiplications, and [time.sleep] accepted it and those before it. *)
Lemma for_attempt_sleeps (attempts : list Z) :
  forall (d : PyFloat.float) (last : option exc) (n i : nat) (x : Q),
    nth_error (sleeps (loop attempts d last n)) i = Some x ->
    x = PyFloat.to_Q (Nat.iter i next d)
    /\ forall j, (j <= i)%nat ->
                 PyFloat.time_sleep (Nat.iter j next d) = Return tt.
Proof.
  subst loop next.
  induction attempts as [|attempt rest IH]; intros d last n i x; simpl.
  - destruct last; simpl; destruct i; discriminate.
  - destruct (func n) as [v|e]; simpl; [destruct i; discriminate|].
    destruct (retryable e); simpl; [|destruct i; discriminate].
    destruct (attempt <? max_retries).
    + destruct (PyFloat.time_sleep d) as [[]|e'] eqn:Hs; simpl;
        [|destruct i; discriminate].
      destruct i as [|i]; intro Hn; simpl in Hn.
      * injection Hn as <-. split; [reflexivity|].
        intros j Hj. now replace j with O by lia.
      * apply IH in Hn. destruct Hn as [Heq Hacc].
        split; [now rewrite Nat.iter_succ_r|].
        intros [|j] Hj; [exact Hs|].
        rewrite Nat.iter_succ_r. apply Hacc. lia.
    + apply IH.
Qed.

(** From attempt [max_retries] on, the loop no longer sleeps. *)
Lemma for_attempt_no_sleep (attempts : list Z) :
  Forall (fun a => max_retries <= a) attempts ->
  forall (d : PyFloat.float) (last : option exc) (n : nat),
    sleeps (loop attempts d last n) = [].
Proof.
  subst loop.
  induction 1 as [|attempt rest Hge Hall IH]; intros d last n; simpl.
  - now destruct last.
  - destruct (func n) as [v|e]; [reflexivity|].
    destruct (retryable e); [|reflexivity].
    apply Z.ltb_ge in Hge. rewrite Hge. apply IH.
Qed.

Lemma seq_from_max (a k : nat) :
  max_retries <= Z.of_nat a ->
  Forall (fun a => max_retries <= a) (map Z.of_nat (seq a k)).
Proof.
  intro Hge. apply Forall_forall. intros z Hin.
  apply in_map_iff in Hin. destruct Hin as (m & <- & Hin).
  apply in_seq in Hin. lia.
Qed.

(** Over a [range], the [i]-th delay is slept after the [i]-th invocation,
    which failed with a retryable error. *)
Lemma for_attempt_sleeps_after (k : nat) :
  forall (a : nat) (d : PyFloat.float) (last : option exc) (n i : nat)
         (x : Q),
    nth_error (sleeps (loop (map Z.of_nat (seq a k)) d last n)) i = Some x ->
    exists e, func (n + i)%nat = Raise e /\ retryable e = true.
Proof.
  induction k as [|k IH]; intros a d last n i x.
  - subst loop. simpl. destruct last; simpl; destruct i; discriminate.
  - change (loop (map Z.of_nat (seq a (S k))) d last n)
      with (for_attempt max_retries backoff func
              (Z.of_nat a :: map Z.of_nat (seq (S a) k)) d last n).
    cbn [for_attempt].
    destruct (func n) as [v|e] eqn:Hf; simpl; [destruct i; discriminate|].
    destruct (retryable e) eqn:Hre; simpl; [|destruct i; discriminate].
    destruct (Z.of_nat a <? max_retries) eqn:Hlt.
    + destruct (PyFloat.time_sleep d) as [u|e']; simpl;
        [|destruct i; discriminate].
      destruct i as [|i]; intro Hn; simpl in Hn.
      * exists e. rewrite Nat.add_0_r. auto.
      * apply IH in Hn. now replace (n + S i)%nat with (S n + i)%nat by lia.
    + apply Z.ltb_ge in Hlt.
      fold loop. rewrite for_attempt_no_sleep by (apply seq_from_max; lia).
      destruct i; discriminate.
Qed.

(** With a multiplier that is at least 1, the delays slept never go
    down. *)
Lemma for_attempt_nondecreasing (attempts : list Z) :
  PyFloat.valid backoff = true -> PyFloat.leb PyFloat.one backoff = true ->
  forall (d : PyFloat.float) (last : option exc) (n : nat),
    PyFloat.bounded_number d ->
    nondecreasing (sleeps (loop attempts d last n)).
Proof.
  intros Hv Hb d last n Hd i x y Hx Hy.
  destruct (for_attempt_sleeps _ _ _ _ _ Hx) as [-> _].
  destruct (for_attempt_sleeps _ _ _ _ _ Hy) as [-> Hacc].
  assert (Hbounded : forall j, (j <= i)%nat ->
                               PyFloat.bounded_number (Nat.iter j next d)).
  { induction j as [|j IHj]; intro Hj; [exact Hd|].
    assert (Hj' : (j <= i)%nat) by lia.
    assert (Hj1 : (j <= S i)%nat) by lia.
    assert (Hj2 : (S j <= S i)%nat) by lia.
    exact (proj2 (@FloatFacts.mul_accepted_ge
                    (Nat.iter j next d) backoff (IHj Hj') Hv Hb
                    (Hacc j Hj1) (Hacc (S j) Hj2))). }
  assert (Hi1 : (i <= S i)%nat) by lia.
  exact (proj1 (@FloatFacts.mul_accepted_ge
                  (Nat.iter i next d) backoff (Hbounded i (le_n i)) Hv Hb
                  (Hacc i Hi1) (Hacc (S i) (le_n (S i))))).
Qed.
End Wrapper.

End RetryFacts.

(* ================================================================== *)
(** ** [GoogleBooksAPI.search]: the retry loop *)

Module SearchFacts.
Import GoogleBooksAPI.

Lemma sleep_pow2 (n : Z) : time_sleep (inject_Z (2 ^ n)) = Return tt.
Proof.
  apply RetryFacts.time_sleep_nonneg.
  change 0%Q with (inject_Z 0). rewrite <- Zle_Qle.
  apply Z.pow_nonneg. lia.
Qed.

Section Loop.
Context `{JsonModule}.
Variable MAX_RETRIES : Z.
Variable request : operation (list json).
Variable now : Q.
Variable cache : SQLiteCache.t.
Variable key : string.

Let loop := while_retry MAX_RETRIES request now cache key.
Let empty_handed := empty_handed cache.

(** One iteration, with the three retrying handlers read through
    [retryable] and [rate_limited]. *)
Lemma while_retry_step (fuel : nat) (retry_count : Z) (n : nat) :
  loop (S fuel) retry_count n
  = if retry_count <? MAX_RETRIES then
      called
        match request n with
        | Return books =>
            match SQLiteCache.set cache key (JArr books) now with
            | Return cache' => (stop (Return (JArr books)), cache')
            | Raise _ => empty_handed
            end
        | Raise e =>
            if retryable e then
              if retry_count + 1 >=? MAX_RETRIES then empty_handed
              else
                (sleep_then (backoff_for e (retry_count + 1))
                   (fst (loop fuel (retry_count + 1) (S n))),
                 snd (loop fuel (retry_count + 1) (S n)))
            else empty_handed
        end
    else empty_handed.
Proof.
  subst loop empty_handed. simpl.
  destruct (retry_count <? MAX_RETRIES); [|reflexivity].
  f_equal.
  destruct (request n) as [books|e]; [reflexivity|].
  unfold backoff_for, sleep_continue.
  destruct e as [ | | | | |st| |st| | | | | |w]; simpl; try reflexivity.
  - destruct (is_429 st); [|reflexivity].
    destruct (retry_count + 1 >=? MAX_RETRIES); [reflexivity|].
    now rewrite sleep_pow2.
  - destruct (is_429 st); [|reflexivity].
    destruct (retry_count + 1 >=? MAX_RETRIES); [reflexivity|].
    now rewrite sleep_pow2.
Qed.

Lemma while_retry_exit (fuel : nat) (retry_count : Z) (n : nat) :
  MAX_RETRIES <= retry_count -> loop fuel retry_count n = empty_handed.
Proof.
  intro Hge. destruct fuel as [|fuel]; [reflexivity|].
  rewrite while_retry_step.
  destruct (retry_count <? MAX_RETRIES) eqn:E; [|reflexivity].
  apply Z.ltb_lt in E. lia.
Qed.

(** Fuel beyond [MAX_RETRIES - retry_count] changes nothing: the loop has
    left by its own condition before the fuel runs out. *)
Lemma while_retry_fuel (fuel : nat) :
  forall (retry_count : Z) (n : nat),
    (Z.to_nat (MAX_RETRIES - retry_count) <= fuel)%nat ->
    loop fuel retry_count n
    = loop (Z.to_nat (MAX_RETRIES - retry_count)) retry_count n.
Proof.
  induction fuel as [|fuel IH]; intros rc n Hfuel.
  - now replace (Z.to_nat (MAX_RETRIES - rc)) with O by lia.
  - destruct (Z_lt_le_dec rc MAX_RETRIES) as [Hlt|Hge].
    + replace (Z.to_nat (MAX_RETRIES - rc))
        with (S (Z.to_nat (MAX_RETRIES - (rc + 1)))) by lia.
      rewrite !while_retry_step.
      rewrite (IH (rc + 1) (S n)) by lia.
      reflexivity.
    + now rewrite !while_retry_exit by assumption.
Qed.

Lemma set_cases (books : list json) :
  exists cache', SQLiteCache.set cache key (JArr books) now = Return cache'.
Proof. apply CacheFacts.set_returns. Qed.

(** The loop never raises; what it returns is the empty list unless the
    last invocation it made succeeded. *)
Lemma while_retry_result (fuel : nat) :
  forall (retry_count : Z) (n : nat),
    let r := fst (loop fuel retry_count n) in
    result r = Return (JArr [])
    \/ exists m books, calls r = S m
                       /\ request (n + m)%nat = Return books
                       /\ result r = Return (JArr books).
Proof.
  induction fuel as [|fuel IH]; intros rc n; [now left|].
  cbv zeta. rewrite while_retry_step.
  destruct (rc <? MAX_RETRIES); [|now left].
  destruct (request n) as [books|e] eqn:Hreq.
  - destruct (set_cases books) as [cache' ->]. right.
    exists O, books. simpl. rewrite Nat.add_0_r. auto.
  - destruct (retryable e); [|now left].
    destruct (rc + 1 >=? MAX_RETRIES); [now left|].
    destruct (IH (rc + 1) (S n)) as [Hr|(m & books & Hc & Hq & Hr)].
    + left. exact Hr.
    + right. exists (S m), books. simpl. rewrite Hc.
      replace (n + S m)%nat with (S n + m)%nat by lia. auto.
Qed.

(** When the last invocation succeeded, its books are what the call
    returns and what it wrote to the cache. *)
Lemma while_retry_success (fuel : nat) :
  forall (retry_count : Z) (n m : nat) (books : list json),
    let r := loop fuel retry_count n in
    calls (fst r) = S m ->
    request (n + m)%nat = Return books ->
    result (fst r) = Return (JArr books)
    /\ SQLiteCache.set cache key (JArr books) now = Return (snd r).
Proof.
  induction fuel as [|fuel IH]; intros rc n m books; cbv zeta.
  - discriminate.
  - rewrite while_retry_step.
    destruct (rc <? MAX_RETRIES); [|discriminate].
    destruct (request n) as [books0|e] eqn:Hreq.
    + destruct (set_cases books0) as [cache' Hset]. rewrite Hset. simpl.
      intros [= <-]. rewrite Nat.add_0_r, Hreq. intros [= <-]. auto.
    + destruct (retryable e).
      * destruct (rc + 1 >=? MAX_RETRIES); simpl.
        -- intros [= <-]. rewrite Nat.add_0_r. congruence.
        -- intros [= Hc]. destruct m as [|m].
           ++ rewrite Nat.add_0_r. congruence.
           ++ replace (n + S m)%nat with (S n + m)%nat by lia.
              now apply IH.
      * simpl. intros [= <-]. rewrite Nat.add_0_r. congruence.
Qed.


(** Every invocation but the last failed with a retryable error, and the
    delay slept after the [j]-th of them is the one of its class. *)
Lemma while_retry_sleeps (fuel : nat) :
  forall (retry_count : Z) (n j : nat) (d : Q),
    nth_error (sleeps (fst (loop fuel retry_count n))) j = Some d ->
    exists e, request (n + j)%nat = Raise e /\ retryable e = true
              /\ d = backoff_for e (retry_count + 1 + Z.of_nat j).
Proof.
  induction fuel as [|fuel IH]; intros rc n j d.
  - destruct j; discriminate.
  - rewrite while_retry_step.
    destruct (rc <? MAX_RETRIES); [|destruct j; discriminate].
    destruct (request n) as [books|e] eqn:Hreq.
    + destruct (set_cases books) as [cache' ->]. destruct j; discriminate.
    + destruct (retryable e) eqn:Hre; [|destruct j; discriminate].
      destruct (rc + 1 >=? MAX_RETRIES); [destruct j; discriminate|].
      destruct j as [|j]; simpl.
      * intros [= <-]. exists e. rewrite Nat.add_0_r, Z.add_0_r. auto.
      * intro Hn. apply IH in Hn. destruct Hn as (e' & Hq & Hre' & Hd).
        exists e'. replace (n + S j)%nat with (S n + j)%nat by lia.
        repeat split; auto.
        rewrite Hd. f_equal. lia.
Qed.

(** With only retryable failures the loop invokes the operation once per
    unit of [retry_count] still below [MAX_RETRIES]. *)
Lemma while_retry_all_fail (fuel : nat) :
  forall (retry_count : Z) (n : nat),
    (forall m, exists e, request m = Raise e /\ retryable e = true) ->
    (Z.to_nat (MAX_RETRIES - retry_count) <= fuel)%nat ->
    let r := loop fuel retry_count n in
    calls (fst r) = Z.to_nat (MAX_RETRIES - retry_count)
    /\ List.length (sleeps (fst r))
       = Nat.pred (Z.to_nat (MAX_RETRIES - retry_count))
    /\ result (fst r) = Return (JArr [])
    /\ snd r = cache.
Proof.
  induction fuel as [|fuel IH]; intros rc n Hfail Hfuel; cbv zeta.
  - replace (Z.to_nat (MAX_RETRIES - rc)) with O by lia. now simpl.
  - rewrite while_retry_step.
    destruct (rc <? MAX_RETRIES) eqn:Hlt.
    + apply Z.ltb_lt in Hlt.
      destruct (Hfail n) as (e & -> & ->).
      destruct (rc + 1 >=? MAX_RETRIES) eqn:Hge.
      * apply Z.geb_le in Hge.
        replace (Z.to_nat (MAX_RETRIES - rc)) with 1%nat by lia.
        now simpl.
      * rewrite Z.geb_leb in Hge. apply Z.leb_gt in Hge.
        destruct (IH (rc + 1) (S n) Hfail) as (Hc & Hl & Hr & Hs); [lia|].
        simpl. rewrite Hc, Hl, Hr, Hs.
        repeat split; lia.
    + apply Z.ltb_ge in Hlt.
      replace (Z.to_nat (MAX_RETRIES - rc)) with O by lia. now simpl.
Qed.
End Loop.

End SearchFacts.

(* ================================================================== *)
(** ** The retry policy: attempts, delays, short circuit *)

Section RetryClaims.
Context `{JsonModule}.

Lemma search_miss (MAX_RETRIES : Z) (request : operation (list json))
      (now : Q) (cache : SQLiteCache.t) (query lang : string)
      (max_results start_index : Z) (stored : json) :
  SQLiteCache.get cache
    (GoogleBooksAPI.cache_key query lang max_results start_index)
  = Return stored ->
  truthy stored = false ->
  GoogleBooksAPI.search MAX_RETRIES request now cache
                        query max_results lang start_index
  = GoogleBooksAPI.while_retry MAX_RETRIES request now cache
      (GoogleBooksAPI.cache_key query lang max_results start_index)
      (Z.to_nat MAX_RETRIES) 0 0.
Proof.
  intros Hget Hfalsy. unfold GoogleBooksAPI.search.
  now rewrite Hget, Hfalsy.
Qed.

(** Whatever [MAX_RETRIES >= 1] is, [search] sends a request that always
    fails with a retried error [MAX_RETRIES] times. *)
Lemma search_attempts (MAX_RETRIES : Z) (request : operation (list json))
      (now : Q) (cache : SQLiteCache.t) (query lang : string)
      (max_results start_index : Z) (stored : json) :
  1 <= MAX_RETRIES ->
  (forall m, exists e, request m = Raise e
                       /\ GoogleBooksAPI.retryable e = true) ->
  SQLiteCache.get cache
    (GoogleBooksAPI.cache_key query lang max_results start_index)
  = Return stored ->
  truthy stored = false ->
  let r := GoogleBooksAPI.search MAX_RETRIES request now cache
                                 query max_results lang start_index in
  Z.of_nat (calls (fst r)) = MAX_RETRIES
  /\ Z.of_nat (List.length (sleeps (fst r))) = MAX_RETRIES - 1
  /\ result (fst r) = Return (JArr [])
  /\ snd r = cache.
Proof.
  intros Hmax Hfail Hget Hfalsy. cbv zeta.
  rewrite (search_miss _ _ _ _ _ _ _ _ Hget Hfalsy).
  destruct (@SearchFacts.while_retry_all_fail _ MAX_RETRIES request now cache
              (GoogleBooksAPI.cache_key query lang max_results start_index)
              (Z.to_nat MAX_RETRIES) 0 0%nat Hfail)
    as (Hc & Hl & Hr & Hs); [lia|].
  rewrite Hc, Hl, Hr, Hs. repeat split; lia.
Qed.
End RetryClaims.

(** C1: with [Config.MAX_RETRIES = 3], nothing in the cache and a server
    that answers every request with a 429, [GoogleBooksAPI.search] sends the
    request 3 times and sleeps 2 and 4 seconds before it returns the empty
    list: one invocation short of [MAX_RETRIES + 1], and without the third
    backoff its comment announces ([2s, 4s, 8s]).  The sibling
    [retry_on_failure] with [max_retries = 3], [delay = 1.0] and
    [backoff = 2.0] invokes a function that always raises [RateLimitError]
    [3 + 1] times, with sleeps of 1, 2 and 4 seconds. *)
Theorem retry_count_bound :
  let request : operation (list json) := fun _ => Raise (HTTPError (Some 429)) in
  let s := fst (GoogleBooksAPI.search (H := JsonText.module) 3 request 0
                  (SQLiteCache.Cache [] true 24) "dune" 20 "en" 0) in
  let func : operation unit := fun _ => Raise RateLimitError in
  let w := OpenAIEngine.retry_on_failure
             3 (PyFloat.of_Z 1) (PyFloat.of_Z 2) func in
  (forall m, exists e, request m = Raise e /\ GoogleBooksAPI.retryable e = true)
  /\ s = Run (Return (JArr [])) 3 [2; 4]%Q
  /\ Z.of_nat (calls s) <> 3 + 1
  /\ (forall m, exists e, func m = Raise e /\ OpenAIEngine.retryable e = true)
  /\ w = Run (Raise RateLimitError) 4 [1; 2; 4]%Q
  /\ Z.of_nat (calls w) = 3 + 1.
Proof.
  split; [intro m; eexists; split; reflexivity|].
  split; [vm_compute; reflexivity|].
  split; [vm_compute; discriminate|].
  split; [intro m; eexists; split; reflexivity|].
  split; vm_compute; reflexivity.
Qed.

(** C2, as stated, fails on [retry_on_failure]: its handler does not tell a
    [RateLimitError] from the other API errors, so with [delay = 1.0] and
    [backoff = 3.0] the delays after rate-limit failures are 1 and 3, not 2
    and 4. *)
Lemma dual_schedule_counterexample :
  let func : operation unit := fun _ => Raise RateLimitError in
  let r := OpenAIEngine.retry_on_failure
             2 (PyFloat.of_Z 1) (PyFloat.of_Z 3) func in
  sleeps r = [1; 3]%Q
  /\ ~ Forall2 Qeq (sleeps r) [inject_Z (2 ^ 1); inject_Z (2 ^ 2)].
Proof.
  vm_compute. split; [reflexivity|].
  intro Hall. inversion Hall as [|? ? ? ? Heq _]; subst.
  discriminate Heq.
Qed.

(** C2, amended: the delay schedule depends on the call site, and on the
    class of the failure only inside [GoogleBooksAPI.search].  There, the
    delay slept after the [i]-th retried failure of a call ([i] = 1, 2, ...)
    is [2^i] seconds when that failure is a 429 answer and 1 second when it
    is a timeout.  In [retry_on_failure] the delay slept after the [i]-th
    failure ([i] = 0, 1, ...) is [delay] multiplied [i] times by [backoff]
    in floating point, every product rounded, whichever error the handler
    caught: [RateLimitError], [APIConnectionError] or another
    [APIError]. *)
Theorem dual_schedule `{JsonModule}
        (A : Type) (max_retries : Z) (delay backoff : PyFloat.float)
        (func : operation A)
        (MAX_RETRIES : Z) (request : operation (list json)) (now : Q)
        (cache : SQLiteCache.t) (query lang : string)
        (max_results start_index : Z) :
  let w := OpenAIEngine.retry_on_failure max_retries delay backoff func in
  let s := fst (GoogleBooksAPI.search MAX_RETRIES request now cache
                  query max_results lang start_index) in
  (forall (j : nat) (d : Q),
      nth_error (sleeps s) j = Some d ->
      exists e, request j = Raise e
                /\ GoogleBooksAPI.retryable e = true
                /\ d = if GoogleBooksAPI.rate_limited e
                       then inject_Z (2 ^ (Z.of_nat j + 1))
                       else 1%Q)
  /\ (forall (i : nat) (x : Q),
         nth_error (sleeps w) i = Some x ->
         exists e, func i = Raise e
                   /\ OpenAIEngine.retryable e = true
                   /\ x = PyFloat.to_Q
                            (OpenAIEngine.delay_after delay backoff i)).
Proof.
  cbv zeta. split.
  - intros j d. unfold GoogleBooksAPI.search.
    destruct (SQLiteCache.get cache _) as [cached|e]; simpl;
      [|destruct j; discriminate].
    destruct (truthy cached); simpl; [destruct j; discriminate|].
    intro Hn. apply SearchFacts.while_retry_sleeps in Hn.
    destruct Hn as (e & Hq & Hre & Hd). exists e.
    repeat split; auto.
    rewrite Hd. unfold GoogleBooksAPI.backoff_for.
    now replace (0 + 1 + Z.of_nat j) with (Z.of_nat j + 1) by lia.
  - intros i x Hn.
    unfold OpenAIEngine.retry_on_failure, OpenAIEngine.wrapper, range in Hn.
    destruct (@RetryFacts.for_attempt_sleeps_after
                A max_retries backoff func _ _ _ _ _ _ _ Hn)
      as (e & Hf & Hre).
    destruct (@RetryFacts.for_attempt_sleeps
                A max_retries backoff func _ _ _ _ _ _ Hn) as [Heq _].
    exists e. split; [exact Hf|]. split; [exact Hre|exact Heq].
Qed.

Lemma dual_schedule_witness :
  let request : operation (list json) :=
    fun n => match n with
             | O => Raise (HTTPError (Some 429))
             | 1%nat => Raise Timeout
             | _ => Raise (RequestException (Some 429))
             end in
  let s := fst (GoogleBooksAPI.search (H := JsonText.module) 4 request 0
                  (SQLiteCache.Cache [] true 24) "dune" 20 "en" 0) in
  let delay := PyFloat.div PyFloat.one (PyFloat.of_Z 10) in
  let backoff := PyFloat.of_Z 3 in
  let func : operation unit := fun _ => Raise RateLimitError in
  let w := OpenAIEngine.retry_on_failure 3 delay backoff func in
  (sleeps s = [2; 1; 8]%Q
   /\ exists e, request 2%nat = Raise e
                /\ GoogleBooksAPI.retryable e = true
                /\ 8%Q = if GoogleBooksAPI.rate_limited e
                         then inject_Z (2 ^ (Z.of_nat 2 + 1))
                         else 1%Q)
  /\ (sleeps w = [3602879701896397 # 36028797018963968;
                  1351079888211149 # 4503599627370496;
                  4053239664633447 # 4503599627370496]
      /\ exists e, func 2%nat = Raise e
                   /\ OpenAIEngine.retryable e = true
                   /\ 4053239664633447 # 4503599627370496
                      = PyFloat.to_Q
                          (OpenAIEngine.delay_after delay backoff 2)).
Proof.
  intros request s delay backoff func w.
  pose proof (@dual_schedule JsonText.module unit 3 delay backoff func
                4 request 0 (SQLiteCache.Cache [] true 24) "dune" "en" 20 0)
    as [Hsearch Hwrapper].
  split.
  - split; [reflexivity|]. apply Hsearch. reflexivity.
  - split; [vm_compute; reflexivity|]. apply Hwrapper.
    vm_compute. reflexivity.
Defined.

(** The scenario of the specification: [max_retries = 3], [delay = 1.0],
    [backoff = 2.0], failures on attempts 1-3 and success on attempt 4. *)
Example retry_scenario :
  OpenAIEngine.retry_on_failure 3 (PyFloat.of_Z 1) (PyFloat.of_Z 2)
    (fun n => if (n <? 3)%nat then Raise APIConnectionError else Return 42)
  = Run (Return 42) 4 [1; 2; 4]%Q.
Proof. vm_compute. reflexivity. Qed.

(** C3, as stated, fails on the formula: the wrapper multiplies floats and
    every product is rounded.  With [delay = 0.1] and [backoff = 3.0] the
    third delay slept is 0.9000000000000001: neither the number
    [0.1 * 3^2] nor the float [0.1 * 9.0], which is 0.9. *)
Lemma backoff_monotone_counterexample :
  let delay := PyFloat.div PyFloat.one (PyFloat.of_Z 10) in
  let backoff := PyFloat.of_Z 3 in
  let func : operation unit := fun _ => Raise APIConnectionError in
  let w := OpenAIEngine.retry_on_failure 3 delay backoff func in
  PyFloat.leb PyFloat.one backoff = true
  /\ sleeps w = [3602879701896397 # 36028797018963968;
                 1351079888211149 # 4503599627370496;
                 4053239664633447 # 4503599627370496]
  /\ exists x,
       nth_error (sleeps w) 2 = Some x
       /\ ~ (x == PyFloat.to_Q delay * PyFloat.to_Q backoff ^ 2)%Q
       /\ x <> PyFloat.to_Q (PyFloat.mul delay (PyFloat.of_Z 9)).
Proof.
  split; [reflexivity|]. split; [vm_compute; reflexivity|].
  eexists. split; [vm_compute; reflexivity|].
  split; [|vm_compute; discriminate].
  intro Heq. vm_compute in Heq. discriminate Heq.
Qed.

(** C3, amended: in every run of the [retry_on_failure] wrapper with
    [backoff >= 1], the delays slept never decrease, and the first of them
    is [delay], each next one the float product of the one before and
    [backoff]: the [i]-th (from 0) is [delay] multiplied [i] times by
    [backoff], every product rounded to the nearest float. *)
Theorem backoff_monotone
        (A : Type) (max_retries : Z) (delay backoff : PyFloat.float)
        (func : operation A) :
  PyFloat.valid delay = true -> PyFloat.valid backoff = true ->
  PyFloat.leb PyFloat.one backoff = true ->
  let w := OpenAIEngine.retry_on_failure max_retries delay backoff func in
  nondecreasing (sleeps w)
  /\ forall (i : nat) (x : Q),
       nth_error (sleeps w) i = Some x ->
       x = PyFloat.to_Q (OpenAIEngine.delay_after delay backoff i).
Proof.
  intros Hd Hv Hb. cbv zeta.
  unfold OpenAIEngine.retry_on_failure, OpenAIEngine.wrapper. split.
  - apply RetryFacts.for_attempt_nondecreasing; [exact Hv|exact Hb|].
    now apply FloatFacts.valid_bounded.
  - intros i x Hx.
    now destruct (@RetryFacts.for_attempt_sleeps
                    A max_retries backoff func _ _ _ _ _ _ Hx).
Qed.

Lemma backoff_monotone_witness :
  let delay := PyFloat.div PyFloat.one (PyFloat.of_Z 10) in
  let backoff := PyFloat.of_Z 3 in
  let func : operation Z :=
    fun n => if (n <? 3)%nat then Raise APIConnectionError else Return 42 in
  let w := OpenAIEngine.retry_on_failure 3 delay backoff func in
  sleeps w = [3602879701896397 # 36028797018963968;
              1351079888211149 # 4503599627370496;
              4053239664633447 # 4503599627370496]
  /\ nondecreasing (sleeps w)
  /\ forall (i : nat) (x : Q),
       nth_error (sleeps w) i = Some x ->
       x = PyFloat.to_Q (OpenAIEngine.delay_after delay backoff i).
Proof.
  intros delay backoff func w. split; [vm_compute; reflexivity|].
  apply (@backoff_monotone Z 3 delay backoff func); reflexivity.
Defined.

(** C4, as stated, fails on [retry_on_failure]: a refused key
    ([AuthenticationError]) is an [APIError], which the handler catches,
    so the function is invoked [max_retries + 1] times, with the sleeps in
    between. *)
Lemma non_retryable_short_circuit_counterexample :
  let func : operation unit := fun _ => Raise AuthenticationError in
  let w := OpenAIEngine.retry_on_failure
             3 (PyFloat.of_Z 1) (PyFloat.of_Z 2) func in
  w = Run (Raise AuthenticationError) 4 [1; 2; 4]%Q
  /\ calls w <> 1%nat
  /\ sleeps w <> [].
Proof. vm_compute. repeat split; discriminate. Qed.

(** C4, amended: an operation whose first invocation fails with an error
    outside the set its loop retries is invoked exactly once, with no sleep
    at all.  For [retry_on_failure] that set is the class [APIError], which
    holds the rate-limit and connection errors and also the authentication
    and bad-request errors; any other exception is re-raised at once.  For
    [GoogleBooksAPI.search] the set is the 429 answers and the timeouts;
    after any other failure it returns the empty list at once. *)
Theorem non_retryable_short_circuit `{JsonModule}
        (A : Type) (max_retries : Z) (delay backoff : PyFloat.float)
        (func : operation A) (e : exc)
        (MAX_RETRIES : Z) (request : operation (list json)) (now : Q)
        (cache : SQLiteCache.t) (query lang : string)
        (max_results start_index : Z) (stored : json) (e' : exc) :
  0 <= max_retries ->
  func 0%nat = Raise e -> OpenAIEngine.retryable e = false ->
  1 <= MAX_RETRIES ->
  SQLiteCache.get cache
    (GoogleBooksAPI.cache_key query lang max_results start_index)
  = Return stored ->
  truthy stored = false ->
  request 0%nat = Raise e' -> GoogleBooksAPI.retryable e' = false ->
  OpenAIEngine.retry_on_failure max_retries delay backoff func = Run (Raise e) 1 []
  /\ GoogleBooksAPI.search MAX_RETRIES request now cache
                           query max_results lang start_index
     = (Run (Return (JArr [])) 1 [], cache).
Proof.
  intros Hm Hf Hre Hmax Hget Hfalsy Hq Hre'. split.
  - unfold OpenAIEngine.retry_on_failure, OpenAIEngine.wrapper, range.
    replace (Z.to_nat (max_retries + 1)) with (S (Z.to_nat max_retries)) by lia.
    cbn [seq map OpenAIEngine.for_attempt]. now rewrite Hf, Hre.
  - rewrite (search_miss _ _ _ _ _ _ _ _ Hget Hfalsy).
    replace (Z.to_nat MAX_RETRIES) with (S (Z.to_nat (MAX_RETRIES - 1))) by lia.
    rewrite SearchFacts.while_retry_step.
    replace (0 <? MAX_RETRIES) with true by (symmetry; apply Z.ltb_lt; lia).
    now rewrite Hq, Hre'.
Qed.

Lemma non_retryable_short_circuit_witness :
  let func : operation unit := fun _ => Raise (Exception "KeyError") in
  let request : operation (list json) := fun _ => Raise (HTTPError (Some 400)) in
  OpenAIEngine.retry_on_failure 3 (PyFloat.of_Z 1) (PyFloat.of_Z 2) func
  = Run (Raise (Exception "KeyError")) 1 []
  /\ GoogleBooksAPI.search (H := JsonText.module) 3 request 0
       (SQLiteCache.Cache [] true 24) "dune" 20 "en" 0
     = (Run (Return (JArr [])) 1 [], SQLiteCache.Cache [] true 24).
Proof.
  intros func request.
  apply (@non_retryable_short_circuit JsonText.module unit 3
           (PyFloat.of_Z 1) (PyFloat.of_Z 2) func
           (Exception "KeyError") 3 request 0
           (SQLiteCache.Cache [] true 24) "dune" "en" 20 0 JNull
           (HTTPError (Some 400)));
    try reflexivity; lia.
Defined.

(* ================================================================== *)
(** ** The cache: round trip, overwrite, eviction, faults *)

(** Shows [round_trips v] for a closed [v] by running the [json] module of
    [JsonText]. *)
Ltac run_round_trip v :=
  let t := eval vm_compute in (JsonText.dumps v) in
  match t with
  | Return ?text => exists text; split; vm_compute; reflexivity
  end.

(** C5, as stated, fails when the write is swallowed: [set] returns
    normally on a storage layer that is down, and the value is not there
    when the storage layer is back. *)
Lemma set_get_round_trip_counterexample :
  let down := SQLiteCache.Cache [] false 24 in
  let v := JArr [JObj [("title", JStr "A")]] in
  exists self',
    SQLiteCache.set (H := JsonText.module) down "q1" v 0 = Return self'
    /\ SQLiteCache.get (H := JsonText.module)
         (CacheOps.step (H := JsonText.module) self' (CacheOps.Storage true))
         "q1"
       = Return JNull
    /\ JNull <> v.
Proof.
  eexists. split; [reflexivity|]. split; [reflexivity|discriminate].
Qed.

(** C5, amended: for every key [k] and every value [v] that [json.dumps]
    serializes and [json.loads] reads back as [v], [set(k, v)] followed by
    [get(k)] returns [v] when the storage layer answers, also when reads
    and writes under other keys come in between. *)
Theorem set_get_round_trip `{JsonModule}
        (self : SQLiteCache.t) (k : string) (v : json) (now : Q)
        (between : list CacheOps.op) :
  SQLiteCache.available self = true ->
  round_trips v ->
  forallb (CacheOps.leaves k) between = true ->
  (self' <- SQLiteCache.set self k v now ;;
   SQLiteCache.get (CacheOps.exec between self') k) = Return v.
Proof.
  intros Hup Hrt Hleave.
  destruct (CacheFacts.set_returns self k v now) as [self' Hset].
  rewrite Hset. simpl.
  rewrite CacheFacts.exec_leaves by assumption.
  now destruct (@CacheFacts.get_set _ self self' k v now Hup Hrt Hset).
Qed.

Lemma set_get_round_trip_witness :
  let v := JArr [JObj [("title", JStr "A")]] in
  (self' <- SQLiteCache.set (H := JsonText.module)
              (SQLiteCache.Cache [] true 1) "q1" v 0 ;;
   SQLiteCache.get (H := JsonText.module)
     (CacheOps.exec (H := JsonText.module)
        [CacheOps.Set_ "q2" (JStr "B") 5; CacheOps.Get "q2"] self')
     "q1") = Return v.
Proof.
  intro v.
  apply (@set_get_round_trip JsonText.module).
  - reflexivity.
  - run_round_trip v.
  - reflexivity.
Defined.

(** C6, as stated, fails when the second write is swallowed: both calls of
    [set] return normally, the storage layer being down during the second,
    and [get] returns the first value. *)
Lemma overwrite_last_write_wins_counterexample :
  let self := SQLiteCache.Cache [] true 24 in
  exists s1 s2,
    SQLiteCache.set (H := JsonText.module) self "q1" (JInt 1) 0 = Return s1
    /\ SQLiteCache.set (H := JsonText.module)
         (CacheOps.step (H := JsonText.module) s1 (CacheOps.Storage false))
         "q1" (JInt 2) 1
       = Return s2
    /\ SQLiteCache.get (H := JsonText.module)
         (CacheOps.step (H := JsonText.module) s2 (CacheOps.Storage true))
         "q1"
       = Return (JInt 1)
    /\ JInt 1 <> JInt 2.
Proof.
  do 2 eexists. split; [reflexivity|]. split; [reflexivity|].
  split; [reflexivity|discriminate].
Qed.

(** C6, amended: [set(k, v1)], [set(k, v2)], [get(k)] returns [v2], and not
    [v1], when the storage layer answers and [v2] is a value that
    [json.dumps] serializes and [json.loads] reads back; and after any
    sequence of operations the table holds at most one entry per key. *)
Theorem overwrite_last_write_wins `{JsonModule}
        (self : SQLiteCache.t) (k : string) (v1 v2 : json) (t1 t2 : Q)
        (ops : list CacheOps.op) (k' : string) :
  SQLiteCache.available self = true ->
  round_trips v2 ->
  SQLiteCache.unique_keys self ->
  let read :=
    (s1 <- SQLiteCache.set self k v1 t1 ;;
     s2 <- SQLiteCache.set s1 k v2 t2 ;;
     SQLiteCache.get s2 k) in
  read = Return v2
  /\ (v1 <> v2 -> read <> Return v1)
  /\ SQLiteCache.unique_keys (CacheOps.exec ops self)
  /\ (SQLiteCache.entries_for k' (CacheOps.exec ops self) <= 1)%nat.
Proof.
  intros Hup Hrt Hnd. cbv zeta.
  assert (Hread : (s1 <- SQLiteCache.set self k v1 t1 ;;
                   s2 <- SQLiteCache.set s1 k v2 t2 ;;
                   SQLiteCache.get s2 k) = Return v2).
  { destruct (CacheFacts.set_returns self k v1 t1) as [s1 Hs1].
    rewrite Hs1. simpl.
    destruct (CacheFacts.set_returns s1 k v2 t2) as [s2 Hs2].
    rewrite Hs2. simpl.
    assert (Hup1 : SQLiteCache.available s1 = true)
      by (rewrite (@CacheFacts.set_available _ self s1 k v1 t1 Hs1); exact Hup).
    now destruct (@CacheFacts.get_set _ s1 s2 k v2 t2 Hup1 Hrt Hs2). }
  assert (Hinv : SQLiteCache.unique_keys (CacheOps.exec ops self))
    by now apply CacheFacts.exec_unique.
  repeat split.
  - exact Hread.
  - rewrite Hread. congruence.
  - exact Hinv.
  - apply CacheFacts.entries_le_1. exact Hinv.
Qed.

Lemma overwrite_last_write_wins_witness :
  let self := SQLiteCache.Cache [] true 24 in
  let ops := [CacheOps.Set_ "q1" (JInt 1) 0; CacheOps.Set_ "q1" (JInt 2) 1;
              CacheOps.Storage false; CacheOps.Set_ "q1" (JInt 3) 2;
              CacheOps.Storage true; CacheOps.Set_ "q2" JNull 3;
              CacheOps.ClearOld 4] in
  let read :=
    (s1 <- SQLiteCache.set (H := JsonText.module) self "q1" (JInt 1) 0 ;;
     s2 <- SQLiteCache.set (H := JsonText.module) s1 "q1" (JInt 2) 1 ;;
     SQLiteCache.get (H := JsonText.module) s2 "q1") in
  read = Return (JInt 2)
  /\ (JInt 1 <> JInt 2 -> read <> Return (JInt 1))
  /\ SQLiteCache.unique_keys (CacheOps.exec (H := JsonText.module) ops self)
  /\ (SQLiteCache.entries_for "q1" (CacheOps.exec (H := JsonText.module) ops self)
      <= 1)%nat.
Proof.
  intros self ops.
  apply (@overwrite_last_write_wins JsonText.module self "q1"
           (JInt 1) (JInt 2) 0 1 ops "q1").
  - reflexivity.
  - run_round_trip (JInt 2).
  - constructor.
Defined.

(** C7: after [clear_old_entries] run at time [now], every entry older than
    the TTL is absent, every entry younger than the TTL is still there with
    its value, and the count returned is the number of entries removed. *)
Theorem ttl_eviction `{JsonModule} (self : SQLiteCache.t) (now : Q) :
  SQLiteCache.available self = true ->
  SQLiteCache.unique_keys self ->
  let ttl := inject_Z (SQLiteCache.max_age_hours self * 3600) in
  exists (count : Z) (self' : SQLiteCache.t),
    SQLiteCache.clear_old_entries self now = Return (count, self')
    /\ (forall r, In r (SQLiteCache.rows self) ->
                  (ttl < now - SQLiteCache.timestamp r)%Q ->
                  ~ In r (SQLiteCache.rows self')
                  /\ SQLiteCache.select_value self' (SQLiteCache.key r)
                     = Return None
                  /\ SQLiteCache.get self' (SQLiteCache.key r) = Return JNull)
    /\ (forall r, In r (SQLiteCache.rows self) ->
                  (now - SQLiteCache.timestamp r < ttl)%Q ->
                  In r (SQLiteCache.rows self')
                  /\ SQLiteCache.select_value self' (SQLiteCache.key r)
                     = Return (Some (SQLiteCache.value r))
                  /\ SQLiteCache.get self' (SQLiteCache.key r)
                     = SQLiteCache.get self (SQLiteCache.key r))
    /\ (forall r, In r (SQLiteCache.rows self') -> In r (SQLiteCache.rows self))
    /\ count = Z.of_nat (List.length (SQLiteCache.rows self))
               - Z.of_nat (List.length (SQLiteCache.rows self')).
Proof.
  intros Hup Hnd. cbv zeta.
  rewrite (EvictionFacts.clear_old_entries_up self now Hup).
  do 2 eexists. split; [reflexivity|].
  set (cutoff := SQLiteCache.cutoff_time self now).
  set (keep := fun r => negb (SQLiteCache.older_than cutoff r)).
  assert (Hnd' : NoDup (map SQLiteCache.key (filter keep (SQLiteCache.rows self))))
    by now apply CacheFacts.NoDup_keys_filter.
  assert (Hdrop : forall r,
             (inject_Z (SQLiteCache.max_age_hours self * 3600)
              < now - SQLiteCache.timestamp r)%Q -> keep r = false).
  { intros r Hold. subst keep cutoff. simpl.
    apply (EvictionFacts.older_than_age self now r) in Hold.
    now rewrite Hold. }
  assert (Hkeep : forall r,
             (now - SQLiteCache.timestamp r
              < inject_Z (SQLiteCache.max_age_hours self * 3600))%Q ->
             keep r = true).
  { intros r Hyoung. subst keep. simpl. apply negb_true_iff.
    destruct (SQLiteCache.older_than cutoff r) eqn:E; [|reflexivity].
    apply (EvictionFacts.older_than_age self now r) in E. lra. }
  split; [|split; [|split]].
  - intros r Hin Hold. apply Hdrop in Hold.
    split; [|split].
    + intro Hin'. apply filter_In in Hin'. destruct Hin' as [_ Hk]. congruence.
    + unfold SQLiteCache.select_value, SQLiteCache.execute. simpl.
      rewrite Hup, EvictionFacts.find_dropped; auto.
    + unfold SQLiteCache.get, SQLiteCache.select_value, SQLiteCache.execute.
      simpl. rewrite Hup. simpl.
      rewrite EvictionFacts.find_dropped; auto.
  - intros r Hin Hyoung. apply Hkeep in Hyoung.
    assert (Hin' : In r (filter keep (SQLiteCache.rows self)))
      by (apply filter_In; auto).
    split; [exact Hin'|split].
    + unfold SQLiteCache.select_value, SQLiteCache.execute. simpl.
      rewrite Hup, EvictionFacts.find_unique; auto.
    + unfold SQLiteCache.get, SQLiteCache.select_value, SQLiteCache.execute.
      simpl. rewrite Hup. simpl.
      rewrite !EvictionFacts.find_unique; auto.
  - intros r Hin. apply filter_In in Hin. tauto.
  - simpl.
    pose proof (EvictionFacts.filter_split_length
                  (SQLiteCache.older_than cutoff) (SQLiteCache.rows self)) as Hlen.
    fold keep in Hlen. lia.
Qed.

(** The scenario of the specification: a TTL of one hour, ["q1"] written at
    [t = 0], swept at [t = 61 min]; ["q2"], written at [t = 30 min],
    stays. *)
Lemma ttl_eviction_witness :
  let old := SQLiteCache.Row "q1" "[]" 0 in
  let young := SQLiteCache.Row "q2" "[]" 1800 in
  let self := SQLiteCache.Cache [old; young] true 1 in
  exists (self' : SQLiteCache.t),
    SQLiteCache.clear_old_entries self 3660 = Return (1, self')
    /\ SQLiteCache.get (H := JsonText.module) self' "q1" = Return JNull
    /\ In young (SQLiteCache.rows self').
Proof.
  intros old young self.
  destruct (@ttl_eviction JsonText.module self 3660)
    as (count & self' & Hrun & Hold & Hyoung & _ & Hcount).
  - reflexivity.
  - repeat constructor; simpl; intuition discriminate.
  - exists self'.
    assert (Hget : SQLiteCache.get (H := JsonText.module) self' "q1"
                   = Return JNull).
    { apply (Hold old); [now left|reflexivity]. }
    assert (Hin : In young (SQLiteCache.rows self')).
    { apply (Hyoung young); [right; now left|reflexivity]. }
    vm_compute in Hrun. injection Hrun as <- <-.
    split; [reflexivity|]. split; [exact Hget|exact Hin].
Defined.

(** The scenario of the specification, run: ["q1"] is written at [t = 0]
    with a TTL of one hour, read at [t = 30 min], swept at [t = 61 min] and
    read again. *)
Example cache_scenario :
  let books := JArr [JObj [("title", JStr "A")]] in
  (c1 <- SQLiteCache.set (H := JsonText.module)
           (SQLiteCache.Cache [] true 1) "q1" books 0 ;;
   at_30_min <- SQLiteCache.get (H := JsonText.module) c1 "q1" ;;
   swept <- SQLiteCache.clear_old_entries c1 3660 ;;
   at_61_min <- SQLiteCache.get (H := JsonText.module) (snd swept) "q1" ;;
   Return (at_30_min, fst swept, at_61_min))
  = Return (books, 1, JNull).
Proof. vm_compute. reflexivity. Qed.

(** C8, as stated, fails on [clear] and [clear_old_entries]: they have no
    handler, and a storage fault comes out of them. *)
Lemma soft_failure_counterexample :
  let self := SQLiteCache.Cache [SQLiteCache.Row "q1" "[]" 0] false 24 in
  SQLiteCache.clear self = Raise sqlite3_Error
  /\ SQLiteCache.clear_old_entries self 100000 = Raise sqlite3_Error
  /\ ~ (forall c : SQLiteCache.t, raises (SQLiteCache.clear c) = false).
Proof.
  cbv zeta. repeat split.
  intro Hall.
  specialize (Hall (SQLiteCache.Cache [SQLiteCache.Row "q1" "[]" 0] false 24)).
  discriminate Hall.
Qed.

(** C8, amended: [get] never raises, and returns [None] when the key is
    missing, when the stored text does not deserialize, and when the storage
    layer fails; [set] never raises, whatever the storage layer and
    [json.dumps] do.  [clear], [clear_old_entries] and
    [_clean_old_entries] catch nothing: a storage fault in them reaches the
    caller. *)
Theorem soft_failure `{JsonModule}
        (self : SQLiteCache.t) (k : string) (v : json) (now : Q) :
  (exists x, SQLiteCache.get self k = Return x)
  /\ (find (SQLiteCache.has_key k) (SQLiteCache.rows self) = None ->
      SQLiteCache.get self k = Return JNull)
  /\ (forall r e,
         find (SQLiteCache.has_key k) (SQLiteCache.rows self) = Some r ->
         json_loads (SQLiteCache.value r) = Raise e ->
         SQLiteCache.get self k = Return JNull)
  /\ (SQLiteCache.available self = false ->
      SQLiteCache.get self k = Return JNull)
  /\ (exists self', SQLiteCache.set self k v now = Return self')
  /\ (SQLiteCache.available self = false ->
      SQLiteCache.clear self = Raise sqlite3_Error
      /\ SQLiteCache.clear_old_entries self now = Raise sqlite3_Error
      /\ SQLiteCache._clean_old_entries self now = Raise sqlite3_Error).
Proof.
  split; [apply CacheFacts.get_returns|].
  split.
  { intro Hnone.
    unfold SQLiteCache.get, SQLiteCache.select_value, SQLiteCache.execute.
    rewrite Hnone. now destruct (SQLiteCache.available self). }
  split.
  { intros r e Hfind Hload.
    unfold SQLiteCache.get, SQLiteCache.select_value, SQLiteCache.execute.
    rewrite Hfind. destruct (SQLiteCache.available self); [|reflexivity].
    simpl. rewrite Hload. simpl. now destruct e. }
  split.
  { intro Hdown.
    unfold SQLiteCache.get, SQLiteCache.select_value, SQLiteCache.execute.
    now rewrite Hdown. }
  split; [apply CacheFacts.set_returns|].
  intro Hdown.
  unfold SQLiteCache.clear, SQLiteCache.delete_all,
    SQLiteCache.clear_old_entries, SQLiteCache.count_older,
    SQLiteCache._clean_old_entries, SQLiteCache.delete_older,
    SQLiteCache.execute.
  rewrite Hdown. repeat split.
Qed.

Lemma soft_failure_witness :
  let corrupt := SQLiteCache.Cache [SQLiteCache.Row "q1" "[1, " 0] true 24 in
  let down := SQLiteCache.Cache [SQLiteCache.Row "q1" "[1]" 0] false 24 in
  SQLiteCache.get (H := JsonText.module) corrupt "q0" = Return JNull
  /\ SQLiteCache.get (H := JsonText.module) corrupt "q1" = Return JNull
  /\ SQLiteCache.get (H := JsonText.module) down "q1" = Return JNull
  /\ (exists self',
        SQLiteCache.set (H := JsonText.module) down "q1" (JInt 2) 5
        = Return self')
  /\ SQLiteCache.clear down = Raise sqlite3_Error.
Proof.
  intros corrupt down.
  destruct (@soft_failure JsonText.module corrupt "q0" (JInt 2) 5)
    as (_ & Hmiss & _).
  destruct (@soft_failure JsonText.module corrupt "q1" (JInt 2) 5)
    as (_ & _ & Hbad & _).
  destruct (@soft_failure JsonText.module down "q1" (JInt 2) 5)
    as (_ & _ & _ & Hget & Hset & Hclear).
  split; [apply Hmiss; reflexivity|].
  split; [apply (Hbad (SQLiteCache.Row "q1" "[1, " 0) JSONDecodeError);
          reflexivity|].
  split; [apply Hget; reflexivity|].
  split; [exact Hset|].
  apply Hclear; reflexivity.
Defined.

(* ================================================================== *)
(** ** The call sites: fail-soft search, falsy entries *)



Section FalsyEntries.
Context `{JsonModule}.






End FalsyEntries.




(* ================================================================== *)
(** ** Lists *)

Module ListFacts.

Lemma filter_filter_implied (A : Type) (f g : A -> bool) (l : list A) :
  (forall a, f a = true -> g a = true) ->
  filter f (filter g l) = filter f l.
Proof.
  intro Himp. induction l as [|a l IH]; simpl; [reflexivity|].
  destruct (g a) eqn:G; simpl.
  - now rewrite IH.
  - destruct (f a) eqn:F; [|exact IH].
    apply Himp in F. congruence.
Qed.

Lemma filter_length_le (A : Type) (f : A -> bool) (l : list A) :
  (List.length (filter f l) <= List.length l)%nat.
Proof.
  induction l as [|a l IH]; simpl; [lia|]. destruct (f a); simpl; lia.
Qed.

Lemma filter_nothing (A : Type) (f : A -> bool) (l : list A) :
  (forall a, In a l -> f a = false) -> filter f l = [].
Proof.
  induction l as [|a l IH]; simpl; intro Hall; [reflexivity|].
  rewrite (Hall a) by now left. apply IH. intros x Hx. apply Hall. now right.
Qed.

Lemma filter_everything (A : Type) (f : A -> bool) (l : list A) :
  (forall a, In a l -> f a = true) -> filter f l = l.
Proof.
  induction l as [|a l IH]; simpl; intro Hall; [reflexivity|].
  rewrite (Hall a) by now left. f_equal. apply IH.
  intros x Hx. apply Hall. now right.
Qed.

End ListFacts.

(* ================================================================== *)
(** ** The rate limiter *)

Module RateLimiterFacts.
Import RateLimiter.

Lemma Qgt_bool_iff (x y : Q) : Qgt_bool x y = true <-> (y < x)%Q.
Proof.
  unfold Qgt_bool. rewrite negb_true_iff. split; intro Hxy.
  - apply Qnot_le_lt. intro Hle. apply Qle_bool_iff in Hle. congruence.
  - destruct (Qle_bool x y) eqn:E; [|reflexivity].
    apply Qle_bool_iff in E. exfalso. apply (Qlt_not_le _ _ Hxy E).
Qed.

Lemma requests_assign_same (self : t) (id : string) (l : list Q) :
  requests (assign self id l) id = l.
Proof. simpl. now rewrite String.eqb_refl. Qed.

Lemma requests_assign_other (self : t) (id id' : string) (l : list Q) :
  id' <> id -> requests (assign self id l) id' = requests self id'.
Proof.
  intro Hne. simpl. destruct (String.eqb id' id) eqn:E; [|reflexivity].
  apply String.eqb_eq in E. contradiction.
Qed.

(** What one call does to the list of its identifier, and to the others. *)
Lemma is_allowed_spec (self : t) (id : string) (now : Q) :
  let cleaned := filter (fun t => Qgt_bool t (now - inject_Z (time_window self)))
                        (requests self id) in
  let r := is_allowed self id now in
  max_requests (snd r) = max_requests self
  /\ time_window (snd r) = time_window self
  /\ (forall id', id' <> id -> requests (snd r) id' = requests self id')
  /\ fst (fst r) = (Z.of_nat (List.length cleaned) <? max_requests self)
  /\ requests (snd r) id
     = if fst (fst r) then (cleaned ++ [now])%list else cleaned.
Proof.
  cbv zeta. unfold is_allowed. rewrite requests_assign_same.
  set (cleaned := filter _ (requests self id)).
  rewrite Z.geb_leb, Z.ltb_antisym.
  change (max_requests (assign self id cleaned)) with (max_requests self).
  destruct (max_requests self <=? Z.of_nat (List.length cleaned));
    cbn [fst snd negb].
  - split; [reflexivity|]. split; [reflexivity|]. split.
    + intros id' Hne. now apply requests_assign_other.
    + split; [reflexivity|]. apply requests_assign_same.
  - split; [reflexivity|]. split; [reflexivity|]. split.
    + intros id' Hne. rewrite !requests_assign_other by assumption.
      reflexivity.
    + split; [reflexivity|]. apply requests_assign_same.
Qed.

Lemma serve_app (calls calls' : list (string * Q)) :
  forall self,
    serve self (calls ++ calls')
    = ((fst (serve self calls)
        ++ fst (serve (snd (serve self calls)) calls'))%list,
       snd (serve (snd (serve self calls)) calls')).
Proof.
  induction calls as [|[id now] calls IH]; intro self; simpl.
  - now destruct (serve self calls').
  - destruct (is_allowed self id now) as [verdict self'].
    rewrite IH.
    destruct (serve self' calls) as [log self'']. simpl.
    now destruct (serve self'' calls').
Qed.

Lemma allowed_times_app (id : string) (log log' : list (string * Q * bool)) :
  allowed_times id (log ++ log')
  = (allowed_times id log ++ allowed_times id log')%list.
Proof. unfold allowed_times. now rewrite filter_app, map_app. Qed.

Lemma remembers_init (lo : Q) (max window : Z) :
  0 <= max -> remembers lo (__init__ max window) [].
Proof. intro Hmax. split; simpl; [lia|reflexivity]. Qed.

Lemma remembers_step (lo : Q) (self : t) (log : list (string * Q * bool))
      (id : string) (now : Q) :
  (lo <= now)%Q ->
  remembers lo self log ->
  remembers now (snd (is_allowed self id now))
            (log ++ [(id, now, fst (fst (is_allowed self id now)))])%list.
Proof.
  intros Hlo [Hlen Hwin].
  destruct (is_allowed_spec self id now) as (Hmax & Hw & Hother & Hok & Hsame).
  set (cleaned := filter (fun t => Qgt_bool t (now - inject_Z (time_window self)))
                         (requests self id)) in *.
  set (r := is_allowed self id now) in *.
  assert (Hclean : (List.length cleaned <= List.length (requests self id))%nat)
    by apply ListFacts.filter_length_le.
  split.
  - intro id'. rewrite Hmax.
    destruct (String.eqb id' id) eqn:E.
    + apply String.eqb_eq in E. subst id'. rewrite Hsame.
      destruct (fst (fst r)).
      * symmetry in Hok. apply Z.ltb_lt in Hok.
        rewrite length_app. simpl. lia.
      * specialize (Hlen id). lia.
    + apply String.eqb_neq in E. rewrite (Hother id' E). apply Hlen.
  - intros id' cutoff Hcut. rewrite Hw in Hcut.
    rewrite allowed_times_app, filter_app.
    assert (Hold : (lo - inject_Z (time_window self) <= cutoff)%Q) by lra.
    destruct (String.eqb id' id) eqn:E.
    + apply String.eqb_eq in E. subst id'. rewrite Hsame.
      assert (Hcleaned : filter (fun t => Qgt_bool t cutoff) cleaned
                         = filter (fun t => Qgt_bool t cutoff)
                                  (allowed_times id log)).
      { subst cleaned. rewrite ListFacts.filter_filter_implied; [now apply Hwin|].
        intros t Ht. apply Qgt_bool_iff in Ht. apply Qgt_bool_iff. lra. }
      unfold allowed_times at 2. simpl. rewrite String.eqb_refl.
      destruct (fst (fst r)); simpl.
      * now rewrite filter_app, Hcleaned.
      * now rewrite Hcleaned, app_nil_r.
    + rewrite (Hother id' (proj1 (String.eqb_neq _ _) E)).
      unfold allowed_times at 2. simpl. rewrite String.eqb_sym, E.
      rewrite andb_false_r. simpl. rewrite app_nil_r. now apply Hwin.
Qed.

Lemma remembers_until (id : string) (now : Q) (calls : list (string * Q)) :
  forall (lo : Q) (self : t) (log : list (string * Q * bool)),
    chronological lo (calls ++ [(id, now)]) ->
    remembers lo self log ->
    chronological lo calls
    /\ exists lo', chronological lo' [(id, now)]
                   /\ remembers lo' (snd (serve self calls))
                                (log ++ fst (serve self calls))%list.
Proof.
  induction calls as [|[id' t] calls IH]; intros lo self log Hchron Hrem.
  - simpl. split; [exact I|]. exists lo. rewrite app_nil_r. auto.
  - destruct Hchron as [Hlo Hchron].
    pose proof (remembers_step id' Hlo Hrem) as Hstep.
    simpl. destruct (is_allowed self id' t) as [verdict self'].
    simpl in Hstep.
    destruct (IH t self' _ Hchron Hstep) as (Hc & lo' & Hlast & Hrem').
    destruct (serve self' calls) as [log' self'']. simpl in *.
    split; [auto|]. exists lo'. split; [exact Hlast|].
    now rewrite <- app_assoc in Hrem'.
Qed.

Lemma serve_settings (calls : list (string * Q)) :
  forall self,
    max_requests (snd (serve self calls)) = max_requests self
    /\ time_window (snd (serve self calls)) = time_window self.
Proof.
  induction calls as [|[id now] calls IH]; intro self; simpl; [auto|].
  destruct (is_allowed_spec self id now) as (Hmax & Hw & _).
  destruct (is_allowed self id now) as [verdict self']. simpl in *.
  destruct (IH self') as [Hmax' Hw'].
  destruct (serve self' calls) as [log self'']. simpl in *.
  split; congruence.
Qed.

(** The lists hold at most [max_requests] times, whatever the clock does. *)
Lemma serve_bounded (calls : list (string * Q)) :
  forall self,
    (forall id, Z.of_nat (List.length (requests self id)) <= max_requests self) ->
    max_requests (snd (serve self calls)) = max_requests self
    /\ forall id, Z.of_nat (List.length (requests (snd (serve self calls)) id))
                  <= max_requests self.
Proof.
  induction calls as [|[id now] calls IH]; intros self Hlen; simpl; [auto|].
  destruct (is_allowed_spec self id now) as (Hmax & _ & Hother & Hok & Hsame).
  set (cleaned := filter (fun t => Qgt_bool t (now - inject_Z (time_window self)))
                         (requests self id)) in *.
  assert (Hclean : (List.length cleaned <= List.length (requests self id))%nat)
    by apply ListFacts.filter_length_le.
  destruct (is_allowed self id now) as [verdict self']. simpl in *.
  destruct (IH self') as [Hmax' Hlen'].
  - intro id'. rewrite Hmax.
    destruct (String.eqb id' id) eqn:E.
    + apply String.eqb_eq in E. subst id'. rewrite Hsame.
      destruct (fst verdict).
      * symmetry in Hok. apply Z.ltb_lt in Hok.
        rewrite length_app. simpl. lia.
      * specialize (Hlen id). lia.
    + apply String.eqb_neq in E. rewrite (Hother id' E). apply Hlen.
  - destruct (serve self' calls) as [log self'']. simpl in *.
    split; [congruence|]. intro id'. rewrite <- Hmax. apply Hlen'.
Qed.

(** Every time on a list is the time of a call of its identifier. *)
Lemma serve_stored (id : string) (P : Q -> Prop) (calls : list (string * Q)) :
  forall self,
    (forall t, In t (requests self id) -> P t) ->
    (forall t, In (id, t) calls -> P t) ->
    forall t, In t (requests (snd (serve self calls)) id) -> P t.
Proof.
  induction calls as [|[id' now] calls IH]; intros self Hstored Hcalls; simpl.
  - exact Hstored.
  - destruct (is_allowed_spec self id' now) as (_ & _ & Hother & _ & Hsame).
    destruct (is_allowed self id' now) as [verdict self']. simpl in *.
    specialize (IH self').
    destruct (serve self' calls) as [log self'']. simpl in *.
    apply IH; [|intros t Hin; apply Hcalls; now right].
    intros t Hin.
    destruct (String.eqb id id') eqn:E.
    + apply String.eqb_eq in E. subst id'. rewrite Hsame in Hin.
      assert (Hcleaned : forall x,
                 In x (filter (fun t => Qgt_bool t (now - inject_Z (time_window self)))
                              (requests self id)) -> P x).
      { intros x Hx. apply filter_In in Hx. apply Hstored. tauto. }
      destruct (fst verdict); [|auto].
      apply in_app_or in Hin. destruct Hin as [Hin|[<-|[]]]; [auto|].
      apply Hcalls. now left.
    + apply String.eqb_neq in E. rewrite (Hother id E) in Hin. auto.
Qed.

(** Calls for other identifiers do not change what an identifier is
    answered. *)
Lemma serve_separate (id : string) (calls : list (string * Q)) :
  forall self self',
    max_requests self = max_requests self' ->
    time_window self = time_window self' ->
    requests self id = requests self' id ->
    let only := filter (fun call => String.eqb (fst call) id) calls in
    filter (fun entry => String.eqb (fst (fst entry)) id) (fst (serve self calls))
    = fst (serve self' only)
    /\ requests (snd (serve self calls)) id = requests (snd (serve self' only)) id.
Proof.
  induction calls as [|[id' now] calls IH]; intros self self' Hmax Hw Hreq; simpl.
  - auto.
  - destruct (is_allowed_spec self id' now) as (Hmax1 & Hw1 & Hother1 & Hok1 & Hsame1).
    destruct (String.eqb id' id) eqn:E.
    + apply String.eqb_eq in E. subst id'. simpl.
      destruct (is_allowed_spec self' id now)
        as (Hmax2 & Hw2 & Hother2 & Hok2 & Hsame2).
      assert (Hverdict : fst (fst (is_allowed self id now))
                         = fst (fst (is_allowed self' id now)))
        by (rewrite Hok1, Hok2, Hmax, Hw, Hreq; reflexivity).
      assert (Hnext : requests (snd (is_allowed self id now)) id
                      = requests (snd (is_allowed self' id now)) id)
        by (rewrite Hsame1, Hsame2, Hverdict, Hw, Hreq; reflexivity).
      destruct (is_allowed self id now) as [verdict s1].
      destruct (is_allowed self' id now) as [verdict' s2]. simpl in *.
      destruct (IH s1 s2) as [Hlog Hfinal]; [congruence|congruence|assumption|].
      destruct (serve s1 calls) as [log1 f1].
      destruct (serve s2 _) as [log2 f2]. simpl in *.
      rewrite String.eqb_refl. simpl. split; congruence.
    + assert (Hne : id <> id')
        by (intro Heq; subst; rewrite String.eqb_refl in E; discriminate).
      specialize (Hother1 id Hne).
      destruct (is_allowed self id' now) as [verdict s1]. simpl in *.
      destruct (IH s1 self') as [Hlog Hfinal]; [congruence|congruence|congruence|].
      destruct (serve s1 calls) as [log1 f1]. simpl in *.
      rewrite E. simpl. auto.
Qed.

End RateLimiterFacts.

(** X1: with a clock that never goes back, a call is let through exactly
    when fewer than [max_requests] calls of its identifier were let through
    in the last [time_window] seconds. *)
Theorem rate_limiter_verdict
        (max window : Z) (lo : Q) (calls : list (string * Q))
        (id : string) (now : Q) :
  0 <= max ->
  RateLimiter.chronological lo (calls ++ [(id, now)]) ->
  let self := RateLimiter.__init__ max window in
  let log := fst (RateLimiter.serve self calls) in
  let recent :=
    filter (fun t => RateLimiter.Qgt_bool t (now - inject_Z window))
           (RateLimiter.allowed_times id log) in
  fst (RateLimiter.serve self (calls ++ [(id, now)]))
  = (log ++ [(id, now, Z.of_nat (List.length recent) <? max)])%list.
Proof.
  intros Hmax Hchron. cbv zeta.
  destruct (@RateLimiterFacts.remembers_until id now calls lo
              (RateLimiter.__init__ max window) [] Hchron
              (RateLimiterFacts.remembers_init lo window Hmax))
    as (_ & lo' & [Hlo _] & _ & Hwin).
  rewrite RateLimiterFacts.serve_app.
  destruct (RateLimiter.serve (RateLimiter.__init__ max window) calls)
    as [log self'] eqn:Hserve.
  assert (Hkeep : RateLimiter.max_requests self' = max
                  /\ RateLimiter.time_window self' = window).
  { pose proof (RateLimiterFacts.serve_settings calls
                  (RateLimiter.__init__ max window)) as Hset.
    now rewrite Hserve in Hset. }
  destruct Hkeep as [Hm Hw].
  cbn [fst snd RateLimiter.serve].
  destruct (RateLimiterFacts.is_allowed_spec self' id now)
    as (_ & _ & _ & Hok & _).
  destruct (RateLimiter.is_allowed self' id now) as [verdict self''].
  cbn [fst snd] in *. simpl app in Hwin.
  rewrite Hok, Hm, Hw.
  rewrite (Hwin id (now - inject_Z window)%Q) by (rewrite Hw; lra).
  reflexivity.
Qed.

Lemma rate_limiter_verdict_witness :
  fst (RateLimiter.serve (RateLimiter.__init__ 2 10)
         [("u", 0); ("u", 1); ("u", 2); ("u", 10.5); ("u", 11.5)]%Q)
  = [("u", 0, true); ("u", 1, true); ("u", 2, false);
     ("u", 10.5, true); ("u", 11.5, true)]%Q.
Proof.
  etransitivity.
  - apply (@rate_limiter_verdict 2 10 0
             [("u", 0); ("u", 1); ("u", 2); ("u", 10.5)]%Q "u" 11.5%Q).
    + lia.
    + simpl. repeat split; discriminate.
  - reflexivity.
Defined.

(** X2: with a clock that never goes back, at most [max_requests] calls of
    an identifier are let through in any window of [time_window] seconds
    that ends at one of its calls. *)
Theorem rate_limiter_window
        (max window : Z) (lo : Q) (calls : list (string * Q))
        (id : string) (now : Q) :
  0 <= max ->
  RateLimiter.chronological lo (calls ++ [(id, now)]) ->
  let log := fst (RateLimiter.serve (RateLimiter.__init__ max window)
                    (calls ++ [(id, now)])) in
  Z.of_nat (List.length
              (filter (fun t => RateLimiter.Qgt_bool t (now - inject_Z window))
                      (RateLimiter.allowed_times id log)))
  <= max.
Proof.
  intros Hmax Hchron. cbv zeta.
  destruct (@RateLimiterFacts.remembers_until id now calls lo
              (RateLimiter.__init__ max window) [] Hchron
              (RateLimiterFacts.remembers_init lo window Hmax))
    as (_ & lo' & [Hlo _] & Hrem).
  rewrite RateLimiterFacts.serve_app.
  destruct (RateLimiterFacts.serve_settings calls
              (RateLimiter.__init__ max window)) as [Hm Hw].
  destruct (RateLimiter.serve (RateLimiter.__init__ max window) calls)
    as [log self']. cbn [fst snd] in *. simpl app in Hrem.
  pose proof (RateLimiterFacts.remembers_step id Hlo Hrem) as [Hlen Hwin].
  cbn [RateLimiter.serve].
  destruct (RateLimiterFacts.is_allowed_spec self' id now) as (Hm' & Hw' & _).
  destruct (RateLimiter.is_allowed self' id now) as [verdict self''].
  cbn [fst snd] in *.
  rewrite <- (Hwin id (now - inject_Z window)%Q)
    by (rewrite Hw', Hw; simpl; lra).
  specialize (Hlen id). rewrite Hm', Hm in Hlen. simpl in Hlen.
  pose proof (ListFacts.filter_length_le
                (fun t => RateLimiter.Qgt_bool t (now - inject_Z window))
                (RateLimiter.requests self'' id)).
  lia.
Qed.

Lemma rate_limiter_window_witness :
  let log := fst (RateLimiter.serve (RateLimiter.__init__ 2 10)
                    [("u", 0); ("v", 0.5); ("u", 1); ("u", 2); ("u", 3)]%Q) in
  RateLimiter.allowed_times "u" log = [0; 1]%Q
  /\ Z.of_nat (List.length
                 (filter (fun t => RateLimiter.Qgt_bool t (3 - inject_Z 10))
                         (RateLimiter.allowed_times "u" log)))
     <= 2.
Proof.
  split; [reflexivity|].
  apply (@rate_limiter_window 2 10 0
           [("u", 0); ("v", 0.5); ("u", 1); ("u", 2)]%Q "u" 3%Q).
  - lia.
  - simpl. repeat split; discriminate.
Defined.

(** X3: identifiers have separate limits: what an identifier is answered,
    and the times kept for it, are the same as if the calls for the other
    identifiers had never been made. *)
Theorem rate_limiter_separate
        (self : RateLimiter.t) (id : string) (calls : list (string * Q)) :
  let only := filter (fun call => String.eqb (fst call) id) calls in
  filter (fun entry => String.eqb (fst (fst entry)) id)
         (fst (RateLimiter.serve self calls))
  = fst (RateLimiter.serve self only)
  /\ RateLimiter.requests (snd (RateLimiter.serve self calls)) id
     = RateLimiter.requests (snd (RateLimiter.serve self only)) id.
Proof. now apply RateLimiterFacts.serve_separate. Qed.

(** X4: the limit resets: once every earlier call of an identifier is at
    least [time_window] seconds old, its next call is let through (for
    [max_requests >= 1]), and it is then the only time kept. *)
Theorem rate_limiter_resets
        (max window : Z) (calls : list (string * Q)) (id : string) (now : Q) :
  1 <= max ->
  (forall t, In (id, t) calls -> (t <= now - inject_Z window)%Q) ->
  let self := RateLimiter.__init__ max window in
  let r := RateLimiter.serve self (calls ++ [(id, now)]) in
  fst r = (fst (RateLimiter.serve self calls) ++ [(id, now, true)])%list
  /\ RateLimiter.requests (snd r) id = [now].
Proof.
  intros Hmax Hold. cbv zeta.
  rewrite RateLimiterFacts.serve_app.
  pose proof (@RateLimiterFacts.serve_stored id
                (fun t => (t <= now - inject_Z window)%Q) calls
                (RateLimiter.__init__ max window)) as Hstored.
  destruct (RateLimiterFacts.serve_settings calls
              (RateLimiter.__init__ max window)) as [Hm Hw].
  destruct (RateLimiter.serve (RateLimiter.__init__ max window) calls)
    as [log self']. cbn [fst snd] in *.
  assert (Hgone : filter (fun t => RateLimiter.Qgt_bool t
                                     (now - inject_Z (RateLimiter.time_window self')))
                         (RateLimiter.requests self' id) = []).
  { rewrite Hw. simpl.
    assert (Hall : forall t, In t (RateLimiter.requests self' id) ->
                             (t <= now - inject_Z window)%Q).
    { apply Hstored; [intros t []|exact Hold]. }
    apply ListFacts.filter_nothing. intros t Hin.
    destruct (RateLimiter.Qgt_bool t (now - inject_Z window)) eqn:E;
      [|reflexivity].
    apply RateLimiterFacts.Qgt_bool_iff in E. specialize (Hall t Hin). lra. }
  cbn [RateLimiter.serve].
  destruct (RateLimiterFacts.is_allowed_spec self' id now)
    as (_ & _ & _ & Hok & Hsame).
  destruct (RateLimiter.is_allowed self' id now) as [verdict self''].
  cbn [fst snd] in *.
  rewrite Hgone in Hok, Hsame. simpl in Hok.
  assert (Htrue : fst verdict = true)
    by (rewrite Hok, Hm; apply Z.ltb_lt; simpl; lia).
  rewrite Htrue in *. split; [reflexivity|exact Hsame].
Qed.

Lemma rate_limiter_resets_witness :
  let r := RateLimiter.serve (RateLimiter.__init__ 1 1)
             [("user3", 0); ("user3", 0.1); ("user3", 1.2)]%Q in
  fst r = [("user3", 0, true); ("user3", 0.1, false); ("user3", 1.2, true)]%Q
  /\ RateLimiter.requests (snd r) "user3" = [1.2]%Q.
Proof.
  apply (@rate_limiter_resets 1 1 [("user3", 0); ("user3", 0.1)]%Q
           "user3" 1.2%Q).
  - lia.
  - intros t [[= <-]|[[= <-]|[]]]; discriminate.
Defined.

(** X5: whatever the clock does, the limiter never keeps more than
    [max_requests] times for an identifier. *)
Theorem rate_limiter_bounded
        (max window : Z) (calls : list (string * Q)) (id : string) :
  0 <= max ->
  Z.of_nat (List.length
              (RateLimiter.requests
                 (snd (RateLimiter.serve (RateLimiter.__init__ max window) calls))
                 id))
  <= max.
Proof.
  intro Hmax.
  destruct (@RateLimiterFacts.serve_bounded calls
              (RateLimiter.__init__ max window)) as [_ Hlen].
  - intro id'. simpl. lia.
  - apply Hlen.
Qed.

Lemma rate_limiter_bounded_witness :
  Z.of_nat (List.length
              (RateLimiter.requests
                 (snd (RateLimiter.serve (RateLimiter.__init__ 2 10)
                         [("u", 5); ("u", 3); ("u", 4); ("u", 1)]%Q))
                 "u"))
  <= 2.
Proof. apply rate_limiter_bounded. lia. Defined.

(* ================================================================== *)
(** ** Input validation *)

Module PyStrFacts.
Import PyStr.

Lemma in_append (c : ascii) (a b : string) :
  In c (list_ascii_of_string (a ++ b))
  <-> In c (list_ascii_of_string a) \/ In c (list_ascii_of_string b).
Proof.
  induction a as [|x a IH]; simpl; [tauto|]. rewrite IH. tauto.
Qed.

Lemma in_filter_chars (keep : ascii -> bool) (c : ascii) (s : string) :
  In c (list_ascii_of_string (filter_chars keep s))
  <-> In c (list_ascii_of_string s) /\ keep c = true.
Proof.
  induction s as [|x s IH]; simpl; [tauto|].
  destruct (keep x) eqn:K; simpl; rewrite IH; intuition (subst; congruence).
Qed.

Lemma in_substring (c : ascii) (m : nat) (s : string) :
  In c (list_ascii_of_string (substring 0 m s)) ->
  In c (list_ascii_of_string s).
Proof.
  revert m. induction s as [|x s IH]; intros [|m]; simpl; try tauto.
  intros [->|Hin]; [now left|right; eauto].
Qed.

Lemma in_slice_to (c : ascii) (stop : Z) (s : string) :
  In c (list_ascii_of_string (slice_to s stop)) ->
  In c (list_ascii_of_string s).
Proof. unfold slice_to. destruct (0 <=? stop); apply in_substring. Qed.

Lemma length_substring (m : nat) (s : string) :
  (String.length (substring 0 m s) <= m)%nat.
Proof.
  revert m. induction s as [|x s IH]; intros [|m]; simpl; try lia.
  specialize (IH m). lia.
Qed.

(** [html.escape] leaves none of the five characters it escapes, but for
    the ampersand of the entities. *)
Lemma in_html_escape (c : ascii) (s : string) :
  In c (list_ascii_of_string (html_escape s)) ->
  c <> "<"%char /\ c <> ">"%char /\ c <> "034"%char /\ c <> "'"%char.
Proof.
  induction s as [|x s IH]; simpl; [tauto|].
  rewrite in_append. intros [Hin|Hin]; [|auto].
  unfold escape_char in Hin.
  destruct (Ascii.eqb x "&") eqn:E1;
    [simpl in Hin; repeat split; intro; subst; intuition discriminate|].
  destruct (Ascii.eqb x "<") eqn:E2;
    [simpl in Hin; repeat split; intro; subst; intuition discriminate|].
  destruct (Ascii.eqb x ">") eqn:E3;
    [simpl in Hin; repeat split; intro; subst; intuition discriminate|].
  destruct (Ascii.eqb x "034") eqn:E4;
    [simpl in Hin; repeat split; intro; subst; intuition discriminate|].
  destruct (Ascii.eqb x "'") eqn:E5;
    [simpl in Hin; repeat split; intro; subst; intuition discriminate|].
  simpl in Hin. destruct Hin as [<-|[]].
  repeat split; intro; subst; discriminate.
Qed.

Lemma lower_append (a b : string) : lower (a ++ b) = (lower a ++ lower b)%string.
Proof.
  unfold lower. induction a as [|x a IH]; simpl; [reflexivity|]. now rewrite IH.
Qed.

Lemma prefix_append (p b : string) : String.prefix p (p ++ b) = true.
Proof.
  induction p as [|x p IH]; simpl; [now destruct b|].
  destruct (ascii_dec x x); [exact IH|contradiction].
Qed.

Lemma contains_prefix (p s : string) :
  String.prefix p s = true -> contains p s = true.
Proof. intro Hp. destruct s; cbn [contains]; now rewrite Hp. Qed.

Lemma contains_append (p a b : string) : contains p (a ++ p ++ b) = true.
Proof.
  induction a as [|x a IH].
  - cbn [append]. apply contains_prefix, prefix_append.
  - change (contains p (String x (a ++ p ++ b)) = true).
    cbn [contains].
    destruct (String.prefix p (String x (a ++ p ++ b))); [reflexivity|exact IH].
Qed.

End PyStrFacts.

(** The cases of [tests/test_security.py] for the validator. *)
Example test_sanitize_string_basic :
  InputValidator.sanitize_string "  Hello World  " None = "Hello World".
Proof. reflexivity. Qed.

Example test_sanitize_string_html_escape :
  InputValidator.sanitize_string "<script>alert('XSS')</script>" None
  = "&lt;script&gt;alert(&#x27;XSS&#x27;)&lt;/script&gt;".
Proof. reflexivity. Qed.

Example test_validate_search_query :
  InputValidator.validate_search_query "Harry Potter" = (true, None)
  /\ fst (InputValidator.validate_search_query "") = false
  /\ fst (InputValidator.validate_search_query "javascript:void(0)") = false.
Proof. repeat split. Qed.

(** X6: what [sanitize_string] returns holds no [<], [>], double or single
    quote, and no control character but the newline, whatever the input and
    [max_length]. *)
Theorem sanitize_string_safe
        (input_str : string) (max_length : option Z) (c : ascii) :
  In c (list_ascii_of_string
          (InputValidator.sanitize_string input_str max_length)) ->
  c <> "<"%char /\ c <> ">"%char /\ c <> "034"%char /\ c <> "'"%char
  /\ ((32 <= PyStr.ord c)%nat \/ c = InputValidator.newline).
Proof.
  unfold InputValidator.sanitize_string.
  destruct (String.eqb input_str ""); [intros []|].
  set (cleaned := PyStr.filter_chars InputValidator.printable
                    (PyStr.html_escape (PyStr.strip input_str))).
  assert (Hcleaned : In c (list_ascii_of_string cleaned) ->
                     c <> "<"%char /\ c <> ">"%char /\ c <> "034"%char
                     /\ c <> "'"%char
                     /\ ((32 <= PyStr.ord c)%nat \/ c = InputValidator.newline)).
  { intro Hin. apply PyStrFacts.in_filter_chars in Hin.
    destruct Hin as [Hin Hprint].
    apply PyStrFacts.in_html_escape in Hin.
    destruct Hin as (H1 & H2 & H3 & H4).
    repeat split; try assumption.
    unfold InputValidator.printable in Hprint.
    apply orb_true_iff in Hprint. destruct Hprint as [Hge|Hnl].
    - left. now apply Nat.leb_le.
    - right. now apply Ascii.eqb_eq. }
  destruct max_length as [m|]; [|exact Hcleaned].
  destruct (negb (m =? 0) && (PyStr.len cleaned >? m)); [|exact Hcleaned].
  intro Hin. apply Hcleaned. eapply PyStrFacts.in_slice_to; eauto.
Qed.

Lemma sanitize_string_safe_witness :
  let out := InputValidator.sanitize_string
               (String "009" "<b onclick='x'>" ++ String "000" "ok") (Some 30) in
  out = "&lt;b onclick=&#x27;x&#x27;&gt"
  /\ ("&"%char <> "<"%char /\ "&"%char <> ">"%char /\ "&"%char <> "034"%char
      /\ "&"%char <> "'"%char
      /\ ((32 <= PyStr.ord "&")%nat \/ "&"%char = InputValidator.newline)).
Proof.
  split; [reflexivity|].
  apply (@sanitize_string_safe
           (String "009" "<b onclick='x'>" ++ String "000" "ok") (Some 30)).
  simpl. now left.
Defined.

(** X7: with a positive [max_length], [sanitize_string] returns at most
    [max_length] characters. *)
Theorem sanitize_string_length (input_str : string) (max_length : Z) :
  0 < max_length ->
  PyStr.len (InputValidator.sanitize_string input_str (Some max_length))
  <= max_length.
Proof.
  intro Hpos. unfold InputValidator.sanitize_string.
  destruct (String.eqb input_str ""); [unfold PyStr.len; simpl; lia|].
  set (cleaned := PyStr.filter_chars InputValidator.printable
                    (PyStr.html_escape (PyStr.strip input_str))).
  replace (max_length =? 0) with false by (symmetry; apply Z.eqb_neq; lia).
  simpl negb. cbn [andb].
  destruct (PyStr.len cleaned >? max_length) eqn:E.
  - unfold PyStr.slice_to.
    replace (0 <=? max_length) with true by (symmetry; apply Z.leb_le; lia).
    unfold PyStr.len.
    pose proof (PyStrFacts.length_substring (Z.to_nat max_length) cleaned).
    lia.
  - rewrite Z.gtb_ltb in E. apply Z.ltb_ge in E. exact E.
Qed.

Lemma sanitize_string_length_witness :
  PyStr.len (InputValidator.sanitize_string "Tom & Jerry <3" (Some 8)) <= 8.
Proof. apply sanitize_string_length. lia. Defined.

(** X8: [validate_search_query] rejects every query in which one of the
    dangerous patterns occurs, in whatever letter case; a query it accepts
    has between 1 and 500 characters and comes with no message. *)
Theorem validate_search_query_sound :
  (forall before variant after,
      In (PyStr.lower variant) InputValidator.dangerous_patterns ->
      fst (InputValidator.validate_search_query (before ++ variant ++ after))
      = false)
  /\ (forall query,
         fst (InputValidator.validate_search_query query) = true ->
         InputValidator.validate_search_query query = (true, None)
         /\ 1 <= PyStr.len query <= InputValidator.MAX_QUERY_LENGTH).
Proof.
  split.
  - intros before variant after Hin.
    unfold InputValidator.validate_search_query.
    destruct (String.eqb _ ""); [reflexivity|].
    destruct (PyStr.len _ >? _); [reflexivity|].
    cbv zeta.
    replace (existsb _ _) with true; [reflexivity|].
    symmetry. apply existsb_exists. exists (PyStr.lower variant).
    split; [exact Hin|].
    rewrite !PyStrFacts.lower_append. apply PyStrFacts.contains_append.
  - intros query. unfold InputValidator.validate_search_query.
    destruct (String.eqb query "") eqn:E; [discriminate|].
    destruct (PyStr.len query >? InputValidator.MAX_QUERY_LENGTH) eqn:L;
      [discriminate|].
    cbv zeta. destruct (existsb _ _); [discriminate|].
    intros _. split; [reflexivity|].
    rewrite Z.gtb_ltb in L. apply Z.ltb_ge in L. split; [|exact L].
    apply String.eqb_neq in E. unfold PyStr.len.
    destruct query; [contradiction|simpl; lia].
Qed.

Lemma validate_search_query_sound_witness :
  fst (InputValidator.validate_search_query
         ("dune " ++ "<ScRiPt" ++ ">alert(1)")) = false
  /\ (InputValidator.validate_search_query "Ender's Game" = (true, None)
      /\ 1 <= PyStr.len "Ender's Game" <= InputValidator.MAX_QUERY_LENGTH).
Proof.
  split.
  - apply (proj1 validate_search_query_sound). simpl. now left.
  - apply (proj2 validate_search_query_sound). reflexivity.
Defined.

(** X9: for [min_val <= max_val], the integer that [validate_integer]
    returns is always within [min_val .. max_val]; it is flagged valid only
    when it is what [int(value)] gave.  [ValueError] and [TypeError] never
    leave it. *)
Theorem validate_integer_in_range
        (int_value : outcome Z) (min_val max_val : Z) :
  min_val <= max_val ->
  (forall b v,
      InputValidator.validate_integer int_value min_val max_val
      = Return (b, v) ->
      min_val <= v <= max_val /\ (b = true -> int_value = Return v))
  /\ InputValidator.validate_integer int_value min_val max_val
     <> Raise ValueError
  /\ InputValidator.validate_integer int_value min_val max_val
     <> Raise TypeError.
Proof.
  intro Hle. unfold InputValidator.validate_integer.
  destruct int_value as [n|e]; simpl.
  - destruct (n <? min_val) eqn:E1; simpl.
    + repeat split; try discriminate;
        injection H as <- <-; try lia; discriminate.
    + destruct (n >? max_val) eqn:E2; simpl.
      * repeat split; try discriminate;
          injection H as <- <-; try lia; discriminate.
      * apply Z.ltb_ge in E1. rewrite Z.gtb_ltb in E2. apply Z.ltb_ge in E2.
        repeat split; try discriminate;
          injection H as <- <-; try lia; reflexivity.
  - destruct e; simpl; repeat split; try discriminate;
      injection H as <- <-; try lia; discriminate.
Qed.

Lemma validate_integer_in_range_witness :
  InputValidator.validate_integer (Return 150) 1 100 = Return (false, 1)
  /\ (1 <= 1 <= 100 /\ (false = true -> Return 150 = Return 1)).
Proof.
  split; [reflexivity|].
  apply (proj1 (@validate_integer_in_range (Return 150) 1 100 ltac:(lia))).
  reflexivity.
Defined.

(* ================================================================== *)
(** ** More on the cache *)

Section CacheExtras.
Context `{JsonModule}.

(** X10: the TTL of an entry runs from its last write.  After [set(k, v)]
    at time [t] and a sweep at time [now], [get(k)] returns [v] when
    [now - t] is at most the TTL and [None] when it is more, whatever was
    stored under [k] before. *)
Theorem write_then_sweep
        (self : SQLiteCache.t) (k : string) (v : json) (t now : Q) :
  SQLiteCache.available self = true ->
  SQLiteCache.unique_keys self ->
  round_trips v ->
  let ttl := inject_Z (SQLiteCache.max_age_hours self * 3600) in
  (s1 <- SQLiteCache.set self k v t ;;
   swept <- SQLiteCache.clear_old_entries s1 now ;;
   SQLiteCache.get (snd swept) k)
  = Return (if Qle_bool (now - t) ttl then v else JNull).
Proof.
  intros Hup Hnd (text & Hdump & Hload). cbv zeta.
  rewrite (@CacheFacts.set_stores _ self k v t text Hup Hdump). simpl.
  set (rows1 := (filter (fun r => negb (SQLiteCache.has_key k r))
                        (SQLiteCache.rows self)
                 ++ [SQLiteCache.Row k text t])%list).
  set (s1 := SQLiteCache.with_rows self rows1).
  assert (Hup1 : SQLiteCache.available s1 = true) by exact Hup.
  rewrite (EvictionFacts.clear_old_entries_up s1 now Hup1). simpl.
  set (cutoff := SQLiteCache.cutoff_time s1 now).
  set (keep := fun r => negb (SQLiteCache.older_than cutoff r)).
  assert (Hnd1 : NoDup (map SQLiteCache.key rows1))
    by (apply CacheFacts.unique_replaced; exact Hnd).
  assert (Hin : In (SQLiteCache.Row k text t) rows1)
    by (apply in_or_app; right; now left).
  assert (Hage : SQLiteCache.older_than cutoff (SQLiteCache.Row k text t)
                 = negb (Qle_bool (now - t)
                           (inject_Z (SQLiteCache.max_age_hours self * 3600)))).
  { unfold SQLiteCache.older_than, SQLiteCache.Qlt_bool. simpl. f_equal.
    subst cutoff. unfold SQLiteCache.cutoff_time. simpl.
    destruct (Qle_bool (now - inject_Z (SQLiteCache.max_age_hours self * 3600)) t)
      eqn:E1;
      destruct (Qle_bool (now - t)
                  (inject_Z (SQLiteCache.max_age_hours self * 3600))) eqn:E2;
      try reflexivity; exfalso.
    - apply Qle_bool_iff in E1.
      assert (Hle : (now - t
                     <= inject_Z (SQLiteCache.max_age_hours self * 3600))%Q)
        by lra.
      apply Qle_bool_iff in Hle. congruence.
    - apply Qle_bool_iff in E2.
      assert (Hle : (now - inject_Z (SQLiteCache.max_age_hours self * 3600)
                     <= t)%Q) by lra.
      apply Qle_bool_iff in Hle. congruence. }
  unfold SQLiteCache.get, SQLiteCache.select_value, SQLiteCache.execute.
  simpl. rewrite Hup. simpl.
  destruct (Qle_bool (now - t)
              (inject_Z (SQLiteCache.max_age_hours self * 3600))) eqn:E.
  - change k with (SQLiteCache.key (SQLiteCache.Row k text t)) at 1.
    rewrite EvictionFacts.find_unique.
    + simpl. now rewrite Hload.
    + now apply CacheFacts.NoDup_keys_filter.
    + apply filter_In. split; [exact Hin|].
      subst keep. simpl. now rewrite Hage.
  - change k with (SQLiteCache.key (SQLiteCache.Row k text t)) at 1.
    rewrite EvictionFacts.find_dropped; auto.
    subst keep. simpl. now rewrite Hage.
Qed.

(** X11: a sweep is complete: after [clear_old_entries] at [now], a second
    sweep at any clock reading up to [now] removes nothing and returns 0. *)
Theorem sweep_is_complete (self : SQLiteCache.t) (now now' : Q) :
  SQLiteCache.available self = true ->
  (now' <= now)%Q ->
  exists count self',
    SQLiteCache.clear_old_entries self now = Return (count, self')
    /\ SQLiteCache.clear_old_entries self' now' = Return (0, self').
Proof.
  intros Hup Hle.
  rewrite (EvictionFacts.clear_old_entries_up self now Hup).
  do 2 eexists. split; [reflexivity|].
  set (cutoff := SQLiteCache.cutoff_time self now).
  set (kept := filter (fun r => negb (SQLiteCache.older_than cutoff r))
                      (SQLiteCache.rows self)).
  set (self' := SQLiteCache.with_rows self kept).
  assert (Hup' : SQLiteCache.available self' = true) by exact Hup.
  rewrite (EvictionFacts.clear_old_entries_up self' now' Hup').
  assert (Hnone : forall r, In r kept ->
                    SQLiteCache.older_than (SQLiteCache.cutoff_time self' now') r
                    = false).
  { intros r Hin. apply filter_In in Hin. destruct Hin as [_ Hk].
    apply negb_true_iff in Hk.
    destruct (SQLiteCache.older_than (SQLiteCache.cutoff_time self' now') r)
      eqn:E; [|reflexivity].
    exfalso.
    unfold SQLiteCache.older_than in *.
    apply CacheFacts.Qlt_bool_iff in E.
    assert (Hold : (SQLiteCache.timestamp r < cutoff)%Q).
    { subst cutoff. unfold SQLiteCache.cutoff_time in *. simpl in E. lra. }
    apply CacheFacts.Qlt_bool_iff in Hold. congruence. }
  assert (Hdrop : filter (SQLiteCache.older_than
                            (SQLiteCache.cutoff_time self' now')) kept = []).
  { apply ListFacts.filter_nothing. exact Hnone. }
  assert (Hsame : filter (fun r => negb (SQLiteCache.older_than
                                           (SQLiteCache.cutoff_time self' now') r))
                         kept = kept).
  { apply ListFacts.filter_everything. intros r Hin.
    now rewrite (Hnone r Hin). }
  change (SQLiteCache.rows self') with kept.
  rewrite Hdrop, Hsame. reflexivity.
Qed.

(** X12: [set] never adds more than one row.  Under a key that is present
    the number of rows stays the same, whether the write goes through or
    is swallowed; under a new key it grows by exactly one when the write
    goes through: the storage layer answers and [json.dumps] accepts the
    value. *)
Theorem set_row_count
        (self self' : SQLiteCache.t) (k : string) (v : json) (now : Q) :
  SQLiteCache.unique_keys self ->
  SQLiteCache.set self k v now = Return self' ->
  (List.length (SQLiteCache.rows self')
   <= S (List.length (SQLiteCache.rows self)))%nat
  /\ (existsb (SQLiteCache.has_key k) (SQLiteCache.rows self) = true ->
      List.length (SQLiteCache.rows self')
      = List.length (SQLiteCache.rows self))
  /\ (existsb (SQLiteCache.has_key k) (SQLiteCache.rows self) = false ->
      SQLiteCache.available self = true ->
      (exists text, json_dumps v = Return text) ->
      List.length (SQLiteCache.rows self')
      = S (List.length (SQLiteCache.rows self))).
Proof.
  intros Hnd Hset.
  assert (Hcases : self' = self
                   \/ SQLiteCache.available self = true
                      /\ exists text,
                          json_dumps v = Return text
                          /\ SQLiteCache.rows self'
                             = (filter (fun r => negb (SQLiteCache.has_key k r))
                                       (SQLiteCache.rows self)
                                ++ [SQLiteCache.Row k text now])%list).
  { unfold SQLiteCache.set, SQLiteCache.insert_or_replace,
      SQLiteCache.execute in Hset.
    destruct (json_dumps v) as [text|e]; cbn [bind try_except] in Hset;
      [|injection Hset as <-; now left].
    destruct (SQLiteCache.available self) eqn:Hup;
      cbn [try_except] in Hset; injection Hset as <-; [|now left].
    right. split; [reflexivity|]. exists text. split; reflexivity. }
  pose proof (EvictionFacts.filter_split_length
                (SQLiteCache.has_key k) (SQLiteCache.rows self)) as Hsplit.
  pose proof (@CacheFacts.entries_le_1 k (SQLiteCache.rows self) Hnd) as Hone.
  assert (Hfound : existsb (SQLiteCache.has_key k) (SQLiteCache.rows self)
                   = true ->
                   List.length (filter (SQLiteCache.has_key k)
                                       (SQLiteCache.rows self)) = 1%nat).
  { intro E. apply existsb_exists in E. destruct E as (r & Hin & Hk).
    assert (Hin' : In r (filter (SQLiteCache.has_key k)
                                (SQLiteCache.rows self)))
      by (apply filter_In; auto).
    destruct (filter (SQLiteCache.has_key k) (SQLiteCache.rows self));
      [contradiction|]. simpl in *. lia. }
  assert (Hnew : existsb (SQLiteCache.has_key k) (SQLiteCache.rows self)
                 = false ->
                 List.length (filter (SQLiteCache.has_key k)
                                     (SQLiteCache.rows self)) = O).
  { intro E.
    rewrite (@ListFacts.filter_nothing _ (SQLiteCache.has_key k)
               (SQLiteCache.rows self)); [reflexivity|].
    intros r Hin.
    destruct (SQLiteCache.has_key k r) eqn:Hk; [|reflexivity].
    assert (existsb (SQLiteCache.has_key k) (SQLiteCache.rows self) = true)
      by (apply existsb_exists; eauto).
    congruence. }
  destruct Hcases as [->|(Hup & text & Hdump & Hrows)].
  - split; [lia|]. split; [reflexivity|].
    intros E Hup [text Hdump]. exfalso.
    rewrite (@CacheFacts.set_stores _ self k v now text Hup Hdump) in Hset.
    injection Hset as Hself.
    apply (f_equal (fun c => List.length (SQLiteCache.rows c))) in Hself.
    simpl in Hself. rewrite length_app in Hself. simpl in Hself.
    specialize (Hnew E). lia.
  - rewrite Hrows, length_app. cbn [List.length].
    split; [lia|]. split.
    + intro E. specialize (Hfound E). lia.
    + intros E _ _. specialize (Hnew E). lia.
Qed.

(** X13: after [clear], every key is absent and a sweep finds nothing. *)
Theorem clear_empties (self : SQLiteCache.t) (k : string) (now : Q) :
  SQLiteCache.available self = true ->
  exists self',
    SQLiteCache.clear self = Return self'
    /\ SQLiteCache.rows self' = []
    /\ SQLiteCache.get self' k = Return JNull
    /\ SQLiteCache.clear_old_entries self' now = Return (0, self').
Proof.
  intro Hup. unfold SQLiteCache.clear, SQLiteCache.delete_all, SQLiteCache.execute.
  rewrite Hup. eexists. split; [reflexivity|]. split; [reflexivity|].
  split.
  - unfold SQLiteCache.get, SQLiteCache.select_value, SQLiteCache.execute.
    simpl. now rewrite Hup.
  - unfold SQLiteCache.clear_old_entries, SQLiteCache.count_older,
      SQLiteCache.delete_older, SQLiteCache.execute.
    simpl. now rewrite Hup.
Qed.
End CacheExtras.

Lemma write_then_sweep_witness :
  let self := SQLiteCache.Cache [SQLiteCache.Row "q1" "[1]" 0] true 1 in
  (s1 <- SQLiteCache.set (H := JsonText.module) self "q1" (JInt 2) 3000 ;;
   swept <- SQLiteCache.clear_old_entries s1 6600 ;;
   SQLiteCache.get (H := JsonText.module) (snd swept) "q1")
  = Return (JInt 2).
Proof.
  intro self.
  apply (@write_then_sweep JsonText.module self "q1" (JInt 2) 3000 6600).
  - reflexivity.
  - repeat constructor. simpl. tauto.
  - run_round_trip (JInt 2).
Defined.

Lemma sweep_is_complete_witness :
  exists count self',
    SQLiteCache.clear_old_entries
      (SQLiteCache.Cache [SQLiteCache.Row "q1" "[]" 0;
                          SQLiteCache.Row "q2" "[]" 1800] true 1) 3660
    = Return (count, self')
    /\ SQLiteCache.clear_old_entries self' 3000 = Return (0, self').
Proof. apply sweep_is_complete; [reflexivity|discriminate]. Defined.

Lemma set_row_count_witness :
  let self := SQLiteCache.Cache [SQLiteCache.Row "q1" "[1]" 0] true 1 in
  let self' := SQLiteCache.Cache [SQLiteCache.Row "q1" "[1]" 0;
                                  SQLiteCache.Row "q2" "2" 5] true 1 in
  SQLiteCache.set (H := JsonText.module) self "q2" (JInt 2) 5 = Return self'
  /\ List.length (SQLiteCache.rows self') = 2%nat.
Proof.
  intros self self'. split; [reflexivity|].
  assert (Hnd : SQLiteCache.unique_keys self)
    by (repeat constructor; simpl; tauto).
  apply (proj2 (proj2 (@set_row_count JsonText.module self self' "q2"
                         (JInt 2) 5 Hnd eq_refl))).
  - reflexivity.
  - reflexivity.
  - now exists "2".
Defined.

Lemma clear_empties_witness :
  exists self',
    SQLiteCache.clear (SQLiteCache.Cache [SQLiteCache.Row "q1" "[]" 0] true 1)
    = Return self'
    /\ SQLiteCache.rows self' = []
    /\ SQLiteCache.get (H := JsonText.module) self' "q1" = Return JNull
    /\ SQLiteCache.clear_old_entries self' 10 = Return (0, self').
Proof. apply (@clear_empties JsonText.module). reflexivity. Defined.

(* ================================================================== *)
(** ** More on [GoogleBooksAPI.search] *)

Module SearchBounds.
Import GoogleBooksAPI.

Lemma backoff_for_bound (e : exc) (retry_count : Z) :
  1 <= retry_count ->
  (0 <= backoff_for e retry_count)%Q
  /\ (backoff_for e retry_count <= inject_Z (2 ^ retry_count))%Q.
Proof.
  intro Hrc. unfold backoff_for.
  assert (Hpow : 2 <= 2 ^ retry_count).
  { change 2 with (2 ^ 1) at 1. apply Z.pow_le_mono_r; lia. }
  assert (Hq : (inject_Z 2 <= inject_Z (2 ^ retry_count))%Q)
    by now rewrite <- Zle_Qle.
  change (inject_Z 2) with 2%Q in Hq.
  destruct (rate_limited e); lra.
Qed.

Lemma pow2_double (n : Z) : 0 <= n -> 2 ^ (n + 1) = 2 * 2 ^ n.
Proof. intro Hn. rewrite Z.pow_add_r by lia. lia. Qed.

Section Loop.
Context `{JsonModule}.
Variable MAX_RETRIES : Z.
Variable request : operation (list json).
Variable now : Q.
Variable cache : SQLiteCache.t.
Variable key : string.

Let loop := while_retry MAX_RETRIES request now cache key.

(** However the request behaves: the invocations are bounded by
    [MAX_RETRIES - retry_count], there is one sleep less than invocations,
    and the sleeps add up to less than [2 ^ MAX_RETRIES]. *)
Lemma while_retry_bounds (fuel : nat) :
  forall (retry_count : Z) (n : nat),
    0 <= retry_count ->
    (Z.to_nat (MAX_RETRIES - retry_count) <= fuel)%nat ->
    let r := fst (loop fuel retry_count n) in
    Z.of_nat (calls r) <= Z.max 0 (MAX_RETRIES - retry_count)
    /\ (retry_count < MAX_RETRIES -> S (List.length (sleeps r)) = calls r)
    /\ (0 <= total_sleep (sleeps r))%Q
    /\ (total_sleep (sleeps r)
        <= inject_Z (2 ^ Z.max (retry_count + 1) MAX_RETRIES
                     - 2 ^ (retry_count + 1)))%Q.
Proof.
  assert (Hzero : forall rc, 0 <= rc ->
             (0 <= inject_Z (2 ^ Z.max (rc + 1) MAX_RETRIES - 2 ^ (rc + 1)))%Q).
  { intros rc Hrc. change 0%Q with (inject_Z 0). rewrite <- Zle_Qle.
    assert (2 ^ (rc + 1) <= 2 ^ Z.max (rc + 1) MAX_RETRIES)
      by (apply Z.pow_le_mono_r; lia).
    lia. }
  induction fuel as [|fuel IH]; intros rc n Hrc Hfuel; cbv zeta.
  - simpl. split; [lia|]. split; [lia|]. split; [lra|]. now apply Hzero.
  - subst loop. rewrite SearchFacts.while_retry_step.
    destruct (rc <? MAX_RETRIES) eqn:Hlt.
    2:{ apply Z.ltb_ge in Hlt. simpl.
        split; [lia|]. split; [lia|]. split; [lra|]. now apply Hzero. }
    apply Z.ltb_lt in Hlt.
    destruct (request n) as [books|e].
    + destruct (SearchFacts.set_cases now cache key books) as [cache' ->].
      simpl. split; [lia|]. split; [reflexivity|]. split; [lra|].
      now apply Hzero.
    + destruct (retryable e).
      2:{ simpl. split; [lia|]. split; [reflexivity|]. split; [lra|].
          now apply Hzero. }
      destruct (rc + 1 >=? MAX_RETRIES) eqn:Hge.
      { simpl. split; [lia|]. split; [reflexivity|]. split; [lra|].
        now apply Hzero. }
      rewrite Z.geb_leb in Hge. apply Z.leb_gt in Hge.
      destruct (IH (rc + 1) (S n)) as (Hc & Hl & Hpos & Hsum); [lia|lia|].
      specialize (Hl Hge).
      destruct (@backoff_for_bound e (rc + 1)) as [Hb0 Hb]; [lia|].
      cbn [fst snd called call_then sleep_then calls sleeps result].
      cbn [total_sleep fold_right].
      fold (total_sleep (sleeps (fst (while_retry MAX_RETRIES request now
                                        cache key fuel (rc + 1) (S n))))).
      split; [lia|]. split; [intros _; simpl; now rewrite Hl|].
      split; [lra|].
      replace (Z.max (rc + 1) MAX_RETRIES) with MAX_RETRIES by lia.
      replace (Z.max (rc + 1 + 1) MAX_RETRIES) with MAX_RETRIES in Hsum by lia.
      rewrite (@pow2_double (rc + 1)) in Hsum by lia.
      assert (Heq : (inject_Z (2 ^ MAX_RETRIES - 2 ^ (rc + 1))
                     == inject_Z (2 ^ (rc + 1))
                        + inject_Z (2 ^ MAX_RETRIES - 2 * 2 ^ (rc + 1)))%Q).
      { rewrite <- inject_Z_plus. apply inject_Z_injective. lia. }
      rewrite Heq. lra.
Qed.
End Loop.

Lemma str_int_injective (a b : Z) : str_int a = str_int b -> a = b.
Proof.
  unfold str_int. intro Heq.
  assert (Hparse : forall z, NilZero.int_of_string
                               (NilZero.string_of_int (Z.to_int z))
                             = Some (Z.to_int z)).
  { intro z. apply NilZero.isi.
    - destruct z; simpl; try discriminate.
      intros [= Hnil]. now apply DecimalPos.Unsigned.to_uint_nonnil in Hnil.
    - destruct z; simpl; try discriminate.
      intros [= Hnil]. now apply DecimalPos.Unsigned.to_uint_nonnil in Hnil. }
  pose proof (Hparse a) as Ha. rewrite Heq, Hparse in Ha.
  injection Ha as Ha.
  rewrite <- (DecimalZ.of_to a), <- (DecimalZ.of_to b). now rewrite Ha.
Qed.

Lemma uint_has_no_colon (d : Decimal.uint) :
  ~ In ":"%char (list_ascii_of_string (NilEmpty.string_of_uint d)).
Proof.
  induction d; simpl; try tauto; intros [Hc|Hin]; try discriminate; auto.
Qed.

Lemma str_int_has_no_colon (n : Z) :
  ~ In ":"%char (list_ascii_of_string (str_int n)).
Proof.
  unfold str_int. intro Hin.
  assert (Hu : forall d, ~ In ":"%char (list_ascii_of_string
                                       (NilZero.string_of_uint d))).
  { intros d. destruct d; try apply (uint_has_no_colon _).
    simpl. intros [Hc|[]]. discriminate. }
  destruct (Z.to_int n) as [d|d]; simpl in Hin.
  - now apply (Hu d).
  - destruct Hin as [Hc|Hin]; [discriminate|now apply (Hu d)].
Qed.

(** Two texts that agree up to their first colon agree piecewise. *)
Lemma split_at_colon (a b x y : string) :
  ~ In ":"%char (list_ascii_of_string a) ->
  ~ In ":"%char (list_ascii_of_string b) ->
  (a ++ String ":" x = b ++ String ":" y)%string ->
  a = b /\ x = y.
Proof.
  revert b. induction a as [|c a IH]; intros [|d b] Ha Hb; simpl.
  - intros [= ->]. auto.
  - intros [= <- _]. exfalso. apply Hb. now left.
  - intros [= -> _]. exfalso. apply Ha. now left.
  - intros [= -> Heq].
    destruct (IH b) as [-> ->]; auto.
    + intro Hin. apply Ha. now right.
    + intro Hin. apply Hb. now right.
Qed.

End SearchBounds.

(** X14: however the requests behave, one call of [search] sends at most
    [MAX_RETRIES] of them, sleeps once between two of them, and sleeps at
    most [2 ^ MAX_RETRIES - 2] seconds in all. *)
Theorem search_bounds `{JsonModule}
        (MAX_RETRIES : Z) (request : operation (list json)) (now : Q)
        (cache : SQLiteCache.t) (query lang : string)
        (max_results start_index : Z) :
  1 <= MAX_RETRIES ->
  let r := fst (GoogleBooksAPI.search MAX_RETRIES request now cache
                  query max_results lang start_index) in
  Z.of_nat (calls r) <= MAX_RETRIES
  /\ List.length (sleeps r) = Nat.pred (calls r)
  /\ (total_sleep (sleeps r) <= inject_Z (2 ^ MAX_RETRIES - 2))%Q.
Proof.
  intro Hmax. cbv zeta. unfold GoogleBooksAPI.search.
  assert (Hpow : 2 <= 2 ^ MAX_RETRIES).
  { change 2 with (2 ^ 1) at 1. apply Z.pow_le_mono_r; lia. }
  assert (Hq : (0 <= inject_Z (2 ^ MAX_RETRIES - 2))%Q).
  { change 0%Q with (inject_Z 0). rewrite <- Zle_Qle. lia. }
  destruct (SQLiteCache.get cache _) as [cached|e];
    [|simpl; repeat split; [lia|exact Hq]].
  destruct (truthy cached); [simpl; repeat split; [lia|exact Hq]|].
  destruct (@SearchBounds.while_retry_bounds _ MAX_RETRIES request now cache
              (GoogleBooksAPI.cache_key query lang max_results start_index)
              (Z.to_nat MAX_RETRIES) 0 0%nat)
    as (Hc & Hl & _ & Hsum); [lia|lia|].
  split; [lia|]. split; [rewrite <- Hl by lia; reflexivity|].
  replace (Z.max (0 + 1) MAX_RETRIES) with MAX_RETRIES in Hsum by lia.
  exact Hsum.
Qed.

Lemma search_bounds_witness :
  let request : operation (list json) := fun _ => Raise (HTTPError (Some 429)) in
  let r := fst (GoogleBooksAPI.search (H := JsonText.module) 4 request 0
                  (SQLiteCache.Cache [] true 24) "dune" 20 "en" 0) in
  sleeps r = [2; 4; 8]%Q
  /\ (Z.of_nat (calls r) <= 4
      /\ List.length (sleeps r) = Nat.pred (calls r)
      /\ (total_sleep (sleeps r) <= inject_Z (2 ^ 4 - 2))%Q).
Proof.
  intros request r. split; [reflexivity|].
  apply (@search_bounds JsonText.module 4 request 0
           (SQLiteCache.Cache [] true 24) "dune" "en" 20 0).
  lia.
Defined.

(** X15: the cache memoizes: once a call of [search] ended on a request
    that returned a non-empty list of books, the next call with the same
    arguments returns these books without sending any request, whatever the
    network would do. *)
Theorem search_memoizes `{JsonModule}
        (MAX_RETRIES MAX_RETRIES' : Z) (request request' : operation (list json))
        (now now' : Q) (cache : SQLiteCache.t) (query lang : string)
        (max_results start_index : Z) (m : nat) (books : list json) :
  let first := GoogleBooksAPI.search MAX_RETRIES request now cache
                                     query max_results lang start_index in
  SQLiteCache.available cache = true ->
  calls (fst first) = S m ->
  request m = Return books ->
  books <> [] ->
  round_trips (JArr books) ->
  fst first = Run (Return (JArr books)) (S m) (sleeps (fst first))
  /\ GoogleBooksAPI.search MAX_RETRIES' request' now' (snd first)
                           query max_results lang start_index
     = (Run (Return (JArr books)) 0 [], snd first).
Proof.
  intros first Hup Hcalls Hreq Hne Hrt.
  set (key := GoogleBooksAPI.cache_key query lang max_results start_index).
  assert (Hloop : first = GoogleBooksAPI.while_retry MAX_RETRIES request now
                            cache key (Z.to_nat MAX_RETRIES) 0 0).
  { subst first. unfold GoogleBooksAPI.search in *. fold key in Hcalls |- *.
    destruct (SQLiteCache.get cache key) as [cached|e]; [|discriminate].
    destruct (truthy cached); [discriminate|reflexivity]. }
  destruct (@SearchFacts.while_retry_success _ MAX_RETRIES request now cache
              key (Z.to_nat MAX_RETRIES) 0 0%nat m books) as [Hres Hset].
  { now rewrite <- Hloop. }
  { exact Hreq. }
  rewrite <- Hloop in Hres, Hset.
  split.
  - destruct (fst first) as [res c sl]. simpl in *. congruence.
  - destruct (@CacheFacts.get_set _ cache (snd first) key (JArr books) now
                Hup Hrt Hset) as [Hget _].
    unfold GoogleBooksAPI.search. fold key. rewrite Hget.
    destruct books; [contradiction|reflexivity].
Qed.

Lemma search_memoizes_witness :
  let book := JObj [("title", JStr "Dune")] in
  let request : operation (list json) :=
    fun n => match n with O => Raise Timeout | _ => Return [book] end in
  let down : operation (list json) := fun _ => Raise (RequestException None) in
  let first := GoogleBooksAPI.search (H := JsonText.module) 3 request 7
                 (SQLiteCache.Cache [] true 24) "dune" 20 "en" 0 in
  fst first = Run (Return (JArr [book])) 2 (sleeps (fst first))
  /\ GoogleBooksAPI.search (H := JsonText.module) 3 down 9 (snd first)
                           "dune" 20 "en" 0
     = (Run (Return (JArr [book])) 0 [], snd first).
Proof.
  intros book request down.
  apply (@search_memoizes JsonText.module 3 3 request down 7 9
           (SQLiteCache.Cache [] true 24) "dune" "en" 20 0 1%nat [book]).
  - reflexivity.
  - reflexivity.
  - reflexivity.
  - discriminate.
  - run_round_trip (JArr [book]).
Defined.

(** X16: the cache key of [search] tells requests apart as long as the
    query and the language hold no colon; with colons, different requests
    can share a key. *)
Theorem cache_key_collisions :
  (forall query lang max_results start_index
          query' lang' max_results' start_index',
      ~ In ":"%char (list_ascii_of_string query) ->
      ~ In ":"%char (list_ascii_of_string lang) ->
      ~ In ":"%char (list_ascii_of_string query') ->
      ~ In ":"%char (list_ascii_of_string lang') ->
      GoogleBooksAPI.cache_key query lang max_results start_index
      = GoogleBooksAPI.cache_key query' lang' max_results' start_index' ->
      query = query' /\ lang = lang'
      /\ max_results = max_results' /\ start_index = start_index')
  /\ GoogleBooksAPI.cache_key "a:b" "c" 20 0
     = GoogleBooksAPI.cache_key "a" "b:c" 20 0.
Proof.
  split; [|reflexivity].
  intros q l m s q' l' m' s' Hq Hl Hq' Hl'.
  unfold GoogleBooksAPI.cache_key. simpl. intros [= Heq].
  apply SearchBounds.split_at_colon in Heq; [|assumption|assumption].
  destruct Heq as [-> Heq].
  apply SearchBounds.split_at_colon in Heq; [|assumption|assumption].
  destruct Heq as [-> Heq].
  apply SearchBounds.split_at_colon in Heq;
    [|apply SearchBounds.str_int_has_no_colon
     |apply SearchBounds.str_int_has_no_colon].
  destruct Heq as [Hm Hs].
  apply SearchBounds.str_int_injective in Hm, Hs. auto.
Qed.

Lemma cache_key_collisions_witness :
  GoogleBooksAPI.cache_key "dune" "en" 20 0 = "search:dune:en:20:0"
  /\ ("dune" = "dune" /\ "en" = "en" /\ 20 = 20 /\ 0 = 0).
Proof.
  split; [reflexivity|].
  apply (proj1 cache_key_collisions "dune" "en" 20 0 "dune" "en" 20 0);
    try reflexivity; simpl; intuition discriminate.
Defined.

(* ================================================================== *)
(** ** More on [retry_on_failure] *)

Module RetryMore.
Import OpenAIEngine.

Section Wrapper.
Variable A : Type.
Variable max_retries : Z.
Variables delay backoff : PyFloat.float.
Variable func : operation A.

Let loop := for_attempt max_retries backoff func.
Let next := fun current_delay => PyFloat.mul current_delay backoff.

(** The loop invokes [func] at most once per attempt, and its outcome is
    that of the last invocation, unless [time.sleep] raised on the delay
    that was current then. *)
Lemma for_attempt_outcome (attempts : list Z) :
  forall (d : PyFloat.float) (last : option exc) (n : nat),
    let r := loop attempts d last n in
    (calls r <= List.length attempts)%nat
    /\ (calls r = O ->
        attempts = []
        /\ result r = match last with
                      | Some e => Raise e
                      | None => Raise TypeError
                      end)
    /\ (forall k, calls r = S k ->
                  result r = func (n + k)%nat
                  \/ exists e,
                      PyFloat.time_sleep
                        (Nat.iter (List.length (sleeps r)) next d) = Raise e
                      /\ result r = Raise e).
Proof.
  subst loop next.
  induction attempts as [|attempt rest IH]; intros d last n; cbv zeta.
  - cbn [for_attempt]. destruct last; cbn [stop calls result List.length];
      (split; [lia|]); (split; [auto|discriminate]).
  - cbn [for_attempt].
    destruct (func n) as [v|e] eqn:Hf.
    + cbn [call_then stop calls result List.length].
      split; [lia|]. split; [discriminate|].
      intros k [= <-]. left. now rewrite Nat.add_0_r.
    + destruct (retryable e).
      2:{ cbn [call_then stop calls result List.length].
          split; [lia|]. split; [discriminate|].
          intros k [= <-]. left. now rewrite Nat.add_0_r. }
      assert (Hrec : forall d',
                 let r := for_attempt max_retries backoff func rest d'
                                      (Some e) (S n) in
                 (S (calls r) <= S (List.length rest))%nat
                 /\ forall k, S (calls r) = S k ->
                              result r = func (n + k)%nat
                              \/ exists e0,
                                  PyFloat.time_sleep
                                    (Nat.iter (List.length (sleeps r))
                                       (fun c => PyFloat.mul c backoff) d')
                                  = Raise e0
                                  /\ result r = Raise e0).
      { intro d'. cbv zeta.
        destruct (IH d' (Some e) (S n)) as (Hc & Hz & Hk).
        split; [lia|]. intros k [= Hcalls].
        destruct k as [|k].
        - destruct (Hz Hcalls) as [_ Hres]. left.
          now rewrite Hres, Nat.add_0_r.
        - replace (n + S k)%nat with (S n + k)%nat by lia. now apply Hk. }
      destruct (attempt <? max_retries).
      * destruct (PyFloat.time_sleep d) as [u|e'] eqn:Hs.
        -- destruct (Hrec (PyFloat.mul d backoff)) as [Hc Hk].
           cbn [call_then sleep_then calls result sleeps List.length].
           split; [exact Hc|]. split; [discriminate|].
           intros k Hcalls. destruct (Hk k Hcalls) as [Hres|(e0 & He0 & Hres)];
             [now left|right].
           exists e0. split; [|exact Hres].
           now rewrite Nat.iter_succ_r.
        -- cbn [call_then stop calls result sleeps List.length].
           split; [lia|]. split; [discriminate|].
           intros k [= <-]. right. exists e'. auto.
      * destruct (Hrec d) as [Hc Hk].
        cbn [call_then calls result sleeps].
        split; [exact Hc|]. split; [discriminate|exact Hk].
Qed.

(** Failures that are retried, with sleeps that are accepted, then a
    success, within the attempts. *)
Lemma for_attempt_succeeds (k : nat) (v : A) :
  forall (i len : nat) (d : PyFloat.float) (last : option exc) (n : nat),
    Z.of_nat (i + k) <= max_retries ->
    (k < len)%nat ->
    (forall m, (m < k)%nat ->
               exists e, func (n + m)%nat = Raise e /\ retryable e = true) ->
    (forall m, (m < k)%nat ->
               PyFloat.time_sleep (Nat.iter m next d) = Return tt) ->
    func (n + k)%nat = Return v ->
    let r := loop (map Z.of_nat (seq i len)) d last n in
    result r = Return v /\ calls r = S k /\ List.length (sleeps r) = k.
Proof.
  subst loop next.
  induction k as [|k IH]; intros i len d last n Hik Hlen Hfail Hacc Hok;
    (destruct len as [|len]; [lia|]); cbv zeta; cbn [seq map for_attempt].
  - rewrite Nat.add_0_r in Hok. rewrite Hok. auto.
  - destruct (Hfail O) as (e & Hf & Hre); [lia|].
    rewrite Nat.add_0_r in Hf. rewrite Hf, Hre.
    replace (Z.of_nat i <? max_retries) with true
      by (symmetry; apply Z.ltb_lt; lia).
    assert (Hs : PyFloat.time_sleep d = Return tt) by (apply (Hacc O); lia).
    rewrite Hs.
    destruct (IH (S i) len (PyFloat.mul d backoff) (Some e) (S n))
      as (Hr & Hc & Hl).
    + lia.
    + lia.
    + intros m Hm. destruct (Hfail (S m)) as (e' & Hf' & Hre'); [lia|].
      exists e'. now replace (S n + m)%nat with (n + S m)%nat by lia.
    + intros m Hm.
      assert (Hm' : (S m < S k)%nat) by lia.
      pose proof (Hacc (S m) Hm') as Hs'.
      rewrite Nat.iter_succ_r in Hs'. exact Hs'.
    + now replace (S n + k)%nat with (n + S k)%nat by lia.
    + cbn [call_then sleep_then calls result sleeps List.length].
      now rewrite Hr, Hc, Hl.
Qed.
End Wrapper.

End RetryMore.

(** X17: whatever the wrapped function does, the [retry_on_failure] wrapper
    invokes it at most [max_retries + 1] times, and its own outcome is the
    outcome of the last invocation: the value it returned or the exception
    it raised.  The exceptions are a delay that [time.sleep] refuses, whose
    [ValueError] or [OverflowError] leaves the wrapper, and a negative
    [max_retries], with which the function is never invoked and
    [raise None] gives a [TypeError]. *)
Theorem retry_outcome
        (A : Type) (max_retries : Z) (delay backoff : PyFloat.float)
        (func : operation A) :
  let r := OpenAIEngine.retry_on_failure max_retries delay backoff func in
  Z.of_nat (calls r) <= Z.max 0 (max_retries + 1)
  /\ (max_retries < 0 -> r = Run (Raise TypeError) 0 [])
  /\ (forall k,
         calls r = S k ->
         result r = func k
         \/ exists e,
             PyFloat.time_sleep
               (OpenAIEngine.delay_after delay backoff
                                         (List.length (sleeps r))) = Raise e
             /\ result r = Raise e
             /\ (e = ValueError \/ e = OverflowError))
  /\ (forall v, result r = Return v ->
                exists k, calls r = S k /\ func k = Return v).
Proof.
  cbv zeta. unfold OpenAIEngine.retry_on_failure, OpenAIEngine.wrapper.
  destruct (@RetryMore.for_attempt_outcome A max_retries backoff func
              (range (max_retries + 1)) delay None 0) as (Hc & Hz & Hk).
  assert (Hlen : List.length (range (max_retries + 1))
                 = Z.to_nat (max_retries + 1))
    by (unfold range; now rewrite length_map, length_seq).
  split; [lia|]. split; [|split].
  - intro Hneg. unfold range.
    replace (Z.to_nat (max_retries + 1)) with O by lia. reflexivity.
  - intros k Hcalls.
    destruct (Hk k Hcalls) as [Hres|(e & He & Hres)]; [now left|right].
    exists e. split; [exact He|]. split; [exact Hres|].
    now apply FloatFacts.sleep_error in He.
  - intros v Hv.
    destruct (calls (OpenAIEngine.for_attempt max_retries backoff func
                       (range (max_retries + 1)) delay None 0)) as [|k] eqn:E.
    + destruct (Hz eq_refl) as [_ Hres]. congruence.
    + exists k. split; [reflexivity|].
      destruct (Hk k eq_refl) as [Hres|(e & _ & Hres)];
        simpl in Hres; congruence.
Qed.

Lemma retry_outcome_witness :
  let func : operation Z := fun _ => Return 7 in
  let failing : operation Z := fun _ => Raise RateLimitError in
  let long := PyFloat.of_Z (10 ^ 10) in
  let r := OpenAIEngine.retry_on_failure 3 long (PyFloat.of_Z 2) failing in
  OpenAIEngine.retry_on_failure (-1) (PyFloat.of_Z 1) (PyFloat.of_Z 2) func
  = Run (Raise TypeError) 0 []
  /\ r = Run (Raise OverflowError) 1 []
  /\ (result r = failing 0%nat
      \/ exists e,
          PyFloat.time_sleep
            (OpenAIEngine.delay_after long (PyFloat.of_Z 2)
                                      (List.length (sleeps r))) = Raise e
          /\ result r = Raise e
          /\ (e = ValueError \/ e = OverflowError)).
Proof.
  intros func failing long r. split; [|split].
  - apply (proj1 (proj2 (@retry_outcome Z (-1) (PyFloat.of_Z 1)
                           (PyFloat.of_Z 2) func))).
    lia.
  - vm_compute. reflexivity.
  - apply (proj1 (proj2 (proj2 (@retry_outcome Z 3 long (PyFloat.of_Z 2)
                                   failing))) 0%nat).
    vm_compute. reflexivity.
Defined.

(** What [time.sleep] does with ten thousand million seconds. *)
Example sleep_overflow :
  let func : operation unit := fun _ => Raise RateLimitError in
  PyFloat.time_sleep (PyFloat.of_Z (10 ^ 10)) = Raise OverflowError
  /\ OpenAIEngine.retry_on_failure 3 (PyFloat.of_Z (10 ^ 10))
                                   (PyFloat.of_Z 2) func
     = Run (Raise OverflowError) 1 [].
Proof. vm_compute. split; reflexivity. Qed.

(** X18: when the wrapped function fails [k] times with retryable errors
    and then returns [v], with [k <= max_retries] and the [k] delays
    lengths that [time.sleep] accepts, the wrapper returns [v] after
    exactly [k + 1] invocations and [k] sleeps. *)
Theorem retry_succeeds
        (A : Type) (max_retries : Z) (delay backoff : PyFloat.float)
        (func : operation A) (k : nat) (v : A) :
  Z.of_nat k <= max_retries ->
  (forall m, (m < k)%nat ->
             exists e, func m = Raise e /\ OpenAIEngine.retryable e = true) ->
  (forall m, (m < k)%nat ->
             PyFloat.time_sleep (OpenAIEngine.delay_after delay backoff m)
             = Return tt) ->
  func k = Return v ->
  let r := OpenAIEngine.retry_on_failure max_retries delay backoff func in
  result r = Return v /\ calls r = S k /\ List.length (sleeps r) = k.
Proof.
  intros Hk Hfail Hacc Hok.
  unfold OpenAIEngine.retry_on_failure, OpenAIEngine.wrapper, range.
  apply (@RetryMore.for_attempt_succeeds A max_retries backoff func k v
           0 (Z.to_nat (max_retries + 1)) delay None 0);
    try assumption; lia.
Qed.

Lemma retry_succeeds_witness :
  let func : operation Z :=
    fun n => if (n <? 3)%nat then Raise APIConnectionError else Return 42 in
  let r := OpenAIEngine.retry_on_failure
             3 (PyFloat.of_Z 1) (PyFloat.of_Z 2) func in
  result r = Return 42 /\ calls r = 4%nat /\ List.length (sleeps r) = 3%nat.
Proof.
  intro func.
  apply (@retry_succeeds Z 3 (PyFloat.of_Z 1) (PyFloat.of_Z 2) func 3 42).
  - lia.
  - intros m Hm. exists APIConnectionError.
    destruct m as [|[|[|m]]]; [split; reflexivity..|lia].
  - intros m Hm.
    destruct m as [|[|[|m]]]; [vm_compute; reflexivity..|lia].
  - reflexivity.
Defined.

(* ================================================================== *)
(** ** Books *)

(** The cases of [tests/test_models.py]. *)
Example test_book_from_google_api :
  Book.from_google_api
    (JObj [("id", JStr "google123");
           ("volumeInfo",
            JObj [("title", JStr "Sample Book");
                  ("authors", JArr [JStr "Author One"; JStr "Author Two"]);
                  ("description", JStr "Sample description");
                  ("publisher", JStr "Test Publisher");
                  ("publishedDate", JStr "2023-01-01");
                  ("pageCount", JInt 300);
                  ("language", JStr "en");
                  ("categories", JArr [JStr "Fiction"; JStr "Adventure"]);
                  ("averageRating", JFloat 4.5);
                  ("infoLink", JStr "https://example.com/book");
                  ("imageLinks",
                   JObj [("thumbnail", JStr "http://example.com/cover.jpg")])])])
  = Return [("id", JStr "google123"); ("title", JStr "Sample Book");
            ("author", JStr "Author One, Author Two");
            ("description", JStr "Sample description");
            ("cover_url", JStr "https://example.com/cover.jpg&zoom=2");
            ("publisher", JStr "Test Publisher");
            ("published_date", JStr "2023-01-01");
            ("page_count", JInt 300); ("language", JStr "en");
            ("categories", JArr [JStr "Fiction"; JStr "Adventure"]);
            ("rating", JFloat 4.5);
            ("info_link", JStr "https://example.com/book")].
Proof. reflexivity. Qed.

Example test_book_from_google_api_with_missing_fields :
  Book.from_google_api
    (JObj [("id", JStr "google456");
           ("volumeInfo", JObj [("title", JStr "Minimal Book")])])
  = Return [("id", JStr "google456"); ("title", JStr "Minimal Book");
            ("author", JStr "Unknown"); ("description", JStr "");
            ("cover_url", JStr ""); ("publisher", JStr "");
            ("published_date", JStr ""); ("page_count", JStr "N/A");
            ("language", JStr "en"); ("categories", JArr []);
            ("rating", JInt 0); ("info_link", JStr "")].
Proof. reflexivity. Qed.

Example upgrade_zoom :
  Book.upgrade "http://books.google.com/c?id=x&zoom=1&edge=curl"
  = "https://books.google.com/c?id=x&zoom=2&edge=curl".
Proof. reflexivity. Qed.

Module BookFacts.
Import PyStr.

Lemma prefix_cons (a c : ascii) (p s : string) :
  String.prefix (String a p) (String c s)
  = if Ascii.eqb a c then String.prefix p s else false.
Proof.
  simpl. destruct (ascii_dec a c) as [->|Hne].
  - now rewrite Ascii.eqb_refl.
  - destruct (Ascii.eqb a c) eqn:E; [|reflexivity].
    apply Ascii.eqb_eq in E. contradiction.
Qed.

(** Replacing a text by another that begins alike does not touch a prefix
    in which their first character does not occur. *)
Lemma prefix_replace (z : ascii) (old new p : string) :
  ~ In z (list_ascii_of_string p) ->
  forall s,
    String.prefix p (replace (String z old) (String z new) s)
    = String.prefix p s.
Proof.
  unfold replace.
  induction p as [|a p IH]; intros Hz s.
  - now destruct (replace_from _ _ 0 s), s.
  - assert (Haz : Ascii.eqb a z = false).
    { destruct (Ascii.eqb a z) eqn:E; [|reflexivity].
      apply Ascii.eqb_eq in E. exfalso. apply Hz. subst. now left. }
    destruct s as [|c s]; [reflexivity|].
    cbn [replace_from].
    destruct (String.prefix (String z old) (String c s)) eqn:E.
    + rewrite prefix_cons in E.
      destruct (Ascii.eqb z c) eqn:Ezc; [|discriminate].
      apply Ascii.eqb_eq in Ezc. subst c.
      cbn [append]. rewrite !prefix_cons, Haz. reflexivity.
    + rewrite !prefix_cons.
      destruct (Ascii.eqb a c); [|reflexivity].
      apply IH. intro Hin. apply Hz. now right.
Qed.

(** Nor does appending a text whose first character does not occur in it. *)
Lemma prefix_append_other (z : ascii) (t p : string) :
  ~ In z (list_ascii_of_string p) ->
  p <> EmptyString ->
  forall s, String.prefix p (s ++ String z t) = String.prefix p s.
Proof.
  induction p as [|a p IH]; intros Hz Hne s; [contradiction|].
  assert (Haz : Ascii.eqb a z = false).
  { destruct (Ascii.eqb a z) eqn:E; [|reflexivity].
    apply Ascii.eqb_eq in E. exfalso. apply Hz. subst. now left. }
  destruct s as [|c s].
  - cbn [append]. rewrite prefix_cons, Haz. reflexivity.
  - cbn [append]. rewrite !prefix_cons.
    destruct (Ascii.eqb a c); [|reflexivity].
    destruct p as [|b p]; [now destruct (s ++ String z t)%string, s|].
    apply IH; [|discriminate]. intro Hin. apply Hz. now right.
Qed.

Lemma prefix_split (p s : string) :
  String.prefix p s = true -> exists rest, s = (p ++ rest)%string.
Proof.
  revert s. induction p as [|a p IH]; intros s.
  - exists s. reflexivity.
  - destruct s as [|c s]; [discriminate|].
    rewrite prefix_cons. destruct (Ascii.eqb a c) eqn:E; [|discriminate].
    apply Ascii.eqb_eq in E. subst c. intro Hp.
    destruct (IH s Hp) as [rest ->]. now exists rest.
Qed.

Lemma append_assoc (a b c : string) :
  ((a ++ b) ++ c = a ++ (b ++ c))%string.
Proof. induction a as [|x a IH]; simpl; [reflexivity|]. now rewrite IH. Qed.

Lemma replace_from_skip (old new t rest : string) :
  replace_from old new (String.length t) (t ++ rest)
  = replace_from old new 0 rest.
Proof.
  induction t as [|c t IH]; simpl; [|exact IH].
  now destruct rest.
Qed.

(** An occurrence at the very beginning is replaced. *)
Lemma replace_at_start (a : ascii) (old new rest : string) :
  replace (String a old) new (String a old ++ rest)
  = (new ++ replace (String a old) new rest)%string.
Proof.
  unfold replace. cbn [append replace_from].
  change (String a (old ++ rest)) with (String a old ++ rest)%string.
  rewrite PyStrFacts.prefix_append. cbn [String.length Nat.pred].
  now rewrite replace_from_skip.
Qed.

Lemma upgrade_no_http (s : string) :
  String.prefix "http://" (Book.upgrade s) = false.
Proof.
  unfold Book.upgrade.
  set (s1 := if String.prefix "http://" s
             then replace "http://" "https://" s else s).
  assert (H1 : String.prefix "http://" s1 = false).
  { subst s1. destruct (String.prefix "http://" s) eqn:E; [|exact E].
    apply prefix_split in E. destruct E as [rest ->].
    rewrite replace_at_start. cbn [append].
    now rewrite !prefix_cons. }
  cbv zeta.
  destruct (contains "zoom=" s1).
  - rewrite (@prefix_replace "z" "oom=1" "oom=2" "http://"); [exact H1|].
    simpl. intuition discriminate.
  - destruct (negb (String.eqb s1 "")); [|exact H1].
    rewrite (@prefix_append_other "&" "zoom=2" "http://");
      [exact H1| |discriminate].
    simpl. intuition discriminate.
Qed.

Lemma upgrade_https (rest : string) :
  String.prefix "https://" (Book.upgrade ("http://" ++ rest)) = true.
Proof.
  unfold Book.upgrade.
  rewrite PyStrFacts.prefix_append, replace_at_start.
  set (r := replace "http://" "https://" rest).
  cbv zeta.
  destruct (contains "zoom=" ("https://" ++ r)).
  - rewrite (@prefix_replace "z" "oom=1" "oom=2" "https://");
      [apply PyStrFacts.prefix_append|].
    simpl. intuition discriminate.
  - replace (negb (String.eqb ("https://" ++ r) "")) with true by reflexivity.
    rewrite append_assoc. apply PyStrFacts.prefix_append.
Qed.

(** What a [Book] built from a response item looks like. *)
Lemma from_google_api_shape (item : json) (book : Book.t) :
  Book.from_google_api item = Return book ->
  exists id title author description link publisher published_date
         page_count language categories rating info_link,
    book = [("id", id); ("title", title); ("author", JStr author);
            ("description", description);
            ("cover_url", JStr (Book.upgrade link));
            ("publisher", publisher); ("published_date", published_date);
            ("page_count", page_count); ("language", language);
            ("categories", categories); ("rating", rating);
            ("info_link", info_link)].
Proof.
  unfold Book.from_google_api.
  destruct item as [| | | | | |members]; try discriminate.
  cbn [PyObj.get bind].
  destruct (PyObj.get_default members "volumeInfo" (JObj []))
    as [| | | | | |info]; try discriminate.
  cbn [PyObj.get bind].
  destruct (PyObj.get_default info "imageLinks" (JObj []))
    as [| | | | | |links]; try discriminate.
  cbn [bind].
  destruct (Book.first_true _ (JStr "")) as [| | | |link| |]; try discriminate.
  cbn [bind].
  destruct (PyObj.join ", " _) as [author|e]; [|discriminate].
  cbn [bind]. intros [= <-].
  repeat eexists.
Qed.

End BookFacts.

Module ResponseFacts.
Import GoogleBooksResponse.

Lemma has_cover_shows (s : string) :
  has_cover (JStr s) = Return (Service.shows_cover (JStr s)).
Proof.
  unfold has_cover, Service.shows_cover.
  now destruct (truthy (JStr s)).
Qed.

Lemma books_of_items_covered (items : list json) :
  forall books, books_of_items items = Return books -> Forall Service.covered books.
Proof.
  induction items as [|item items IH]; intros books; simpl.
  - intros [= <-]. constructor.
  - destruct (Book.from_google_api item) as [book|e] eqn:Hbook;
      [|discriminate].
    destruct (BookFacts.from_google_api_shape item Hbook)
      as (id & title & author & description & link & publisher & published
          & pages & language & categories & rating & info_link & ->).
    cbn [bind]. unfold PyObj.get_default, PyObj.lookup. simpl find.
    cbn [option_map snd]. rewrite has_cover_shows. cbn [bind].
    destruct (books_of_items items) as [rest|e]; [|discriminate].
    cbn [bind]. specialize (IH rest eq_refl).
    destruct (Service.shows_cover (JStr (Book.upgrade link))) eqn:Hshow;
      intros [= <-]; [|exact IH].
    constructor; [|exact IH].
    eexists _, (Book.upgrade link).
    split; [reflexivity|]. split; [reflexivity|exact Hshow].
Qed.

Lemma filter_books_covered (books : list json) :
  Forall Service.covered books -> Service.filter_books books = Return books.
Proof.
  induction 1 as [|book books (fields & cover & -> & Hlook & Hshow) _ IH];
    simpl; [reflexivity|].
  unfold PyObj.get_default. rewrite Hlook. cbn [bind].
  now rewrite IH, Hshow.
Qed.

End ResponseFacts.

(** X19: a [Book] built by [from_google_api] has the twelve fields, in
    order, and its [cover_url] is a string that never starts with
    [http://]: a link that does is rewritten to [https://].  An item
    without [volumeInfo] gives the defaults. *)
Theorem book_from_google_api :
  (forall item book,
      Book.from_google_api item = Return book ->
      map fst book
      = ["id"; "title"; "author"; "description"; "cover_url"; "publisher";
         "published_date"; "page_count"; "language"; "categories"; "rating";
         "info_link"]
      /\ exists cover,
           PyObj.lookup book "cover_url" = Some (JStr cover)
           /\ String.prefix "http://" cover = false)
  /\ (forall rest,
         String.prefix "https://" (Book.upgrade ("http://" ++ rest)) = true)
  /\ (forall members,
         PyObj.lookup members "volumeInfo" = None ->
         Book.from_google_api (JObj members)
         = Return [("id", PyObj.get_default members "id" (JStr ""));
                   ("title", JStr "Unknown"); ("author", JStr "Unknown");
                   ("description", JStr ""); ("cover_url", JStr "");
                   ("publisher", JStr ""); ("published_date", JStr "");
                   ("page_count", JStr "N/A"); ("language", JStr "en");
                   ("categories", JArr []); ("rating", JInt 0);
                   ("info_link", JStr "")]).
Proof.
  split; [|split].
  - intros item book Hbook.
    destruct (BookFacts.from_google_api_shape item Hbook)
      as (id & title & author & description & link & publisher & published
          & pages & language & categories & rating & info_link & ->).
    split; [reflexivity|].
    exists (Book.upgrade link). split; [reflexivity|].
    apply BookFacts.upgrade_no_http.
  - apply BookFacts.upgrade_https.
  - intros members Hnone.
    assert (Hinfo : PyObj.get_default members "volumeInfo" (JObj [])
                    = JObj [])
      by (unfold PyObj.get_default; now rewrite Hnone).
    unfold Book.from_google_api. cbn [PyObj.get bind].
    rewrite Hinfo. reflexivity.
Qed.

Lemma book_from_google_api_witness :
  let item := JObj [("id", JStr "google789");
                    ("volumeInfo",
                     JObj [("title", JStr "Test Book");
                           ("imageLinks",
                            JObj [("thumbnail",
                                   JStr "http://example.com/cover.jpg")])])] in
  exists book cover,
    Book.from_google_api item = Return book
    /\ PyObj.lookup book "cover_url" = Some (JStr cover)
    /\ String.prefix "http://" cover = false.
Proof.
  intro item.
  destruct (Book.from_google_api item) as [book|e] eqn:Hbook;
    [|discriminate Hbook].
  destruct (proj1 book_from_google_api item book Hbook)
    as (_ & cover & Hlook & Hprefix).
  now exists book, cover.
Defined.

(** X20: the books [search] fetches need no second filtering: every book
    it makes of a response is a dict with a [cover_url] of more than 10
    characters, and [filter_books_with_images] returns the result of a
    call that went to the network as it is. *)
Theorem fetched_books_have_covers `{JsonModule}
        (MAX_RETRIES : Z) (http : operation json) (now : Q)
        (cache : SQLiteCache.t) (query lang : string)
        (max_results start_index : Z) :
  (forall body books,
      GoogleBooksResponse.books_of_response body = Return books ->
      forall book, In book books ->
        exists fields cover,
          book = JObj fields
          /\ PyObj.lookup fields "cover_url" = Some (JStr cover)
          /\ 10 < PyStr.len cover)
  /\ (let r := fst (GoogleBooksAPI.search MAX_RETRIES
                      (GoogleBooksResponse.request_of http) now cache
                      query max_results lang start_index) in
      forall m v,
        calls r = S m -> result r = Return v ->
        Service.filter_books_with_images v = Return v).
Proof.
  assert (Hresp : forall body books,
             GoogleBooksResponse.books_of_response body = Return books ->
             Forall Service.covered books).
  { intros body books. unfold GoogleBooksResponse.books_of_response.
    destruct (PyObj.get body "items" (JArr [])) as [items|e]; [|discriminate].
    cbn [bind]. destruct (PyObj.iterate items) as [l|e]; [|discriminate].
    cbn [bind]. apply ResponseFacts.books_of_items_covered. }
  split.
  - intros body books Hbooks book Hin.
    pose proof (Hresp body books Hbooks) as Hall.
    rewrite Forall_forall in Hall.
    destruct (Hall book Hin) as (fields & cover & -> & Hlook & Hshow).
    exists fields, cover. split; [reflexivity|]. split; [exact Hlook|].
    unfold Service.shows_cover in Hshow.
    apply andb_true_iff in Hshow. destruct Hshow as [_ Hshow].
    apply andb_true_iff in Hshow. destruct Hshow as [_ Hlen].
    rewrite Z.gtb_ltb in Hlen. now apply Z.ltb_lt.
  - cbv zeta. intros m v Hcalls Hres.
    unfold GoogleBooksAPI.search in *.
    destruct (SQLiteCache.get cache _) as [cached|e]; [|discriminate].
    destruct (truthy cached); [discriminate|].
    destruct (SearchFacts.while_retry_result MAX_RETRIES
                (GoogleBooksResponse.request_of http) now cache
                (GoogleBooksAPI.cache_key query lang max_results start_index)
                (Z.to_nat MAX_RETRIES) 0 0)
      as [Hempty|(m' & books & Hc & Hreq & Hbooks)].
    + rewrite Hempty in Hres. injection Hres as <-. reflexivity.
    + rewrite Hbooks in Hres. injection Hres as <-.
      unfold GoogleBooksResponse.request_of in Hreq.
      destruct (http (0 + m')%nat) as [body|e]; [|discriminate].
      cbn [bind] in Hreq.
      unfold Service.filter_books_with_images. cbn [PyObj.iterate bind].
      now rewrite (ResponseFacts.filter_books_covered (Hresp body books Hreq)).
Qed.

Lemma fetched_books_have_covers_witness :
  let item (link : string) :=
    JObj [("id", JStr "x");
          ("volumeInfo",
           JObj [("imageLinks", JObj [("thumbnail", JStr link)])])] in
  let http : operation json :=
    fun _ => Return (JObj [("items", JArr [item "http://e.org/c.jpg";
                                           item "   "; item ""])]) in
  let r := fst (GoogleBooksAPI.search (H := JsonText.module) 3
                  (GoogleBooksResponse.request_of http) 0
                  (SQLiteCache.Cache [] true 24) "dune" 20 "en" 0) in
  exists book,
    result r = Return (JArr [book])
    /\ Service.filter_books_with_images (JArr [book]) = Return (JArr [book]).
Proof.
  intros item http r.
  destruct (result r) as [v|e] eqn:Hres; [|discriminate Hres].
  pose proof (proj2 (@fetched_books_have_covers JsonText.module 3 http 0
                       (SQLiteCache.Cache [] true 24) "dune" "en" 20 0)
                O v eq_refl Hres) as Hfilter.
  vm_compute in Hres. injection Hres as <-.
  eexists. split; [reflexivity|exact Hfilter].
Defined.

(* ================================================================== *)
(** ** The engine's helpers around the chat completion *)

Module GenreFacts.
Import GenreCheck.

Lemma pick_in (books : list json) (indices : list Z) (book : json) :
  In book (pick books indices) -> In book books.
Proof.
  induction indices as [|i rest IH]; simpl; [tauto|].
  destruct ((0 <=? i) && (i <? Z.of_nat (List.length books))); [|exact IH].
  destruct (nth_error books (Z.to_nat i)) as [b|] eqn:Hnth; [|exact IH].
  intros [<-|Hin]; [|now apply IH].
  eapply nth_error_In. exact Hnth.
Qed.

Lemma forallb_false (A : Type) (f : A -> bool) (l : list A) :
  forallb f l = false -> exists x, In x l /\ f x = false.
Proof.
  induction l as [|a l IH]; simpl; [discriminate|].
  destruct (f a) eqn:Ha.
  - intro Hl. destruct (IH Hl) as (x & Hin & Hx). exists x. auto.
  - intros _. exists a. auto.
Qed.
End GenreFacts.

(** X21: [verify_books_batch] asks for one completion at most, and none for
    an empty list; what it returns is made of books it was given.  When the
    completion fails it accepts all the books.  It raises only on a book
    among the first 30 that is not a dict, before any completion. *)
Theorem verify_books_batch_sound
        (py_int : string -> outcome Z) (completion : operation string)
        (books : list json) :
  let r := GenreCheck.verify_books_batch py_int completion books in
  (calls r <= 1)%nat
  /\ sleeps r = []
  /\ (books = [] -> r = stop (Return []))
  /\ (forall kept book,
         result r = Return kept -> In book kept -> In book books)
  /\ (forall e,
         result r = Raise e ->
         calls r = O /\ e = PyObj.AttributeError
         /\ exists book, In book (firstn 30 books)
                         /\ GenreCheck.is_dict book = false)
  /\ (forall e,
         calls r = 1%nat -> completion 0%nat = Raise e ->
         result r = Return books).
Proof.
  cbv zeta. unfold GenreCheck.verify_books_batch.
  destruct books as [|b books'].
  { simpl. repeat split; auto; try discriminate.
    intros kept book [= <-] []. }
  set (books := b :: books').
  destruct (forallb GenreCheck.is_dict (firstn 30 books)) eqn:Hdict.
  - cbn [call_then stop result calls sleeps].
    split; [lia|]. split; [reflexivity|]. split; [discriminate|].
    split; [|split].
    + intros kept book Hres Hin.
      destruct (completion 0%nat) as [answer|e].
      * destruct (GenreCheck.valid_indices py_int answer) as [indices|e].
        -- injection Hres as <-. eapply GenreFacts.pick_in. exact Hin.
        -- now injection Hres as <-.
      * now injection Hres as <-.
    + intros e Hres. exfalso.
      destruct (completion 0%nat) as [answer|e'].
      * destruct (GenreCheck.valid_indices py_int answer); discriminate.
      * discriminate.
    + intros e _ ->. reflexivity.
  - cbn [stop result calls sleeps].
    split; [lia|]. split; [reflexivity|]. split; [discriminate|].
    split; [discriminate|]. split; [|discriminate].
    intros e [= <-]. split; [reflexivity|]. split; [reflexivity|].
    now apply GenreFacts.forallb_false.
Qed.

Module RetryReturns.

(** A value the wrapper returns is one the wrapped function returned, at
    its last invocation. *)
Lemma retry_returns (A : Type) (max_retries : Z)
      (delay backoff : PyFloat.float) (func : operation A) (v : A) :
  let r := OpenAIEngine.retry_on_failure max_retries delay backoff func in
  result r = Return v -> exists k, calls r = S k /\ func k = Return v.
Proof.
  cbv zeta. unfold OpenAIEngine.retry_on_failure, OpenAIEngine.wrapper.
  destruct (@RetryMore.for_attempt_outcome A max_retries backoff func
              (range (max_retries + 1)) delay None 0) as (Hc & Hz & Hk).
  intro Hv.
  destruct (calls (OpenAIEngine.for_attempt max_retries backoff func
                     (range (max_retries + 1)) delay None 0)) as [|k] eqn:E.
  - destruct (Hz eq_refl) as [_ Hres]. congruence.
  - exists k. split; [reflexivity|].
    destruct (Hk k eq_refl) as [Hres|(e & _ & Hres)];
      simpl in Hres; congruence.
Qed.
End RetryReturns.

(** X22: [get_ai_book_recommendations] never raises.  It searches once or
    twice; what it returns is the result of its last search, or the empty
    list when that search raised.  When the client or the retried
    completion fails, the only search is the one for the user's own words;
    a second search happens only after the search for the completion's
    answer raised or gave something without a length. *)
Theorem ai_recommendations_fail_soft
        (RETRY_MAX_ATTEMPTS : Z)
        (RETRY_INITIAL_DELAY RETRY_BACKOFF_MULTIPLIER : PyFloat.float)
        (client : outcome unit) (completion : operation string)
        (search_function : nat -> string -> outcome json)
        (user_query : string) :
  let t := AIHelpers.get_ai_book_recommendations
             RETRY_MAX_ATTEMPTS RETRY_INITIAL_DELAY RETRY_BACKOFF_MULTIPLIER
             client completion search_function user_query in
  let ai := AIHelpers._call_openai_with_retry
              RETRY_MAX_ATTEMPTS RETRY_INITIAL_DELAY RETRY_BACKOFF_MULTIPLIER
              completion in
  (exists v q before,
      AIHelpers.returned t = Return v
      /\ AIHelpers.searched t = (before ++ [q])%list
      /\ (List.length before <= 1)%nat
      /\ (search_function (List.length before) q = Return v
          \/ v = JArr []
             /\ exists e, search_function (List.length before) q = Raise e))
  /\ (AIHelpers.asked t = None <-> exists e, client = Raise e)
  /\ (AIHelpers.asked t = None \/ AIHelpers.asked t = Some ai)
  /\ ((exists e, client = Raise e) \/ (exists e, result ai = Raise e) ->
      AIHelpers.searched t = [user_query])
  /\ (forall q, AIHelpers.searched t = [q; user_query] ->
                result ai = Return q
                /\ ((exists e, search_function 0%nat q = Raise e)
                    \/ exists v, search_function 0%nat q = Return v
                                 /\ AIHelpers.py_len v = Raise TypeError)).
Proof.
  cbv zeta.
  assert (Hfb : forall asked before,
             (List.length before <= 1)%nat ->
             let t := AIHelpers.fallback search_function asked before
                                         user_query in
             exists v q before',
               AIHelpers.returned t = Return v
               /\ AIHelpers.searched t = (before' ++ [q])%list
               /\ (List.length before' <= 1)%nat
               /\ (search_function (List.length before') q = Return v
                   \/ v = JArr []
                      /\ exists e,
                          search_function (List.length before') q = Raise e)).
  { intros asked before Hlen. cbv zeta. unfold AIHelpers.fallback. simpl.
    destruct (search_function (List.length before) user_query) as [v|e] eqn:Hs.
    - exists v, user_query, before. rewrite Hs. auto.
    - exists (JArr []), user_query, before. rewrite Hs.
      split; [reflexivity|]. split; [reflexivity|]. split; [exact Hlen|].
      right. split; [reflexivity|]. now exists e. }
  unfold AIHelpers.get_ai_book_recommendations.
  destruct client as [u|ce].
  2:{ split; [apply Hfb; simpl; lia|].
      split; [split; [intros _; now exists ce|reflexivity]|].
      split; [now left|]. split; [reflexivity|].
      intros q Hq. discriminate Hq. }
  set (ai := AIHelpers._call_openai_with_retry
               RETRY_MAX_ATTEMPTS RETRY_INITIAL_DELAY
               RETRY_BACKOFF_MULTIPLIER completion).
  assert (Hnone : forall (r : run string),
             (Some r = None <-> exists e : exc, Return u = Raise e)).
  { intro r. split; [discriminate|]. intros [e He]. discriminate He. }
  destruct (result ai) as [search_query|ae] eqn:Hai.
  2:{ split; [apply Hfb; simpl; lia|]. split; [apply Hnone|].
      split; [now right|]. split; [reflexivity|].
      intros q Hq. discriminate Hq. }
  destruct (search_function 0%nat search_query) as [results|se] eqn:Hs.
  2:{ split; [apply Hfb; simpl; lia|]. split; [apply Hnone|].
      split; [now right|].
      split.
      - intros [[e He]|[e He]]; discriminate He.
      - intros q [= <-]. split; [reflexivity|]. left. now exists se. }
  destruct (AIHelpers.py_len results) as [n|le] eqn:Hlen.
  2:{ split; [apply Hfb; simpl; lia|]. split; [apply Hnone|].
      split; [now right|].
      split.
      - intros [[e He]|[e He]]; discriminate He.
      - intros q [= <-]. split; [reflexivity|]. right.
        exists results. split; [exact Hs|].
        destruct results; simpl in Hlen; try discriminate Hlen;
          reflexivity. }
  split.
  { exists results, search_query, (@nil string). simpl. auto. }
  split; [apply Hnone|]. split; [now right|].
  split.
  - intros [[e He]|[e He]]; discriminate He.
  - intros q Hq. discriminate Hq.
Qed.

(** X23: [analyze_query_and_results] asks for automatic correction only
    when there were no results at all and a correction exists; a correction
    it returns came from the completion, is never the word [CORRECT] and is
    never the query itself up to letter case; with enough results it makes
    no call and proposes nothing. *)
Theorem auto_correct_only_without_results
        (RETRY_MAX_ATTEMPTS : Z)
        (RETRY_INITIAL_DELAY RETRY_BACKOFF_MULTIPLIER : PyFloat.float)
        (has_client : bool) (completion : operation string)
        (query : string) (results : list json) (threshold : Z)
        (correction : option string) (should_auto_correct : bool) :
  let r := SearchIntelligence.analyze_query_and_results
             RETRY_MAX_ATTEMPTS RETRY_INITIAL_DELAY RETRY_BACKOFF_MULTIPLIER
             has_client completion query results threshold in
  result r = Return (correction, should_auto_correct) ->
  (should_auto_correct = true <-> results = [] /\ correction <> None)
  /\ (forall c,
         correction = Some c ->
         has_client = true
         /\ (exists k, calls r = S k /\ completion k = Return c)
         /\ c <> "CORRECT"
         /\ PyStr.lower c <> PyStr.lower query)
  /\ (results <> [] -> threshold <= Z.of_nat (List.length results) ->
      calls r = O /\ correction = None).
Proof.
  cbv zeta. unfold SearchIntelligence.analyze_query_and_results.
  destruct (truthy (JArr results)
            && (Z.of_nat (List.length results) >=? threshold)) eqn:Henough.
  - cbn [stop result calls]. intros [= <- <-].
    split; [split; [discriminate|intros [_ Hc]; now elim Hc]|].
    split; [discriminate|]. auto.
  - set (ai := SearchIntelligence._get_ai_correction
                 RETRY_MAX_ATTEMPTS RETRY_INITIAL_DELAY
                 RETRY_BACKOFF_MULTIPLIER has_client completion query).
    cbn [result calls].
    destruct (result ai) as [corr|e] eqn:Hai; [|discriminate].
    cbn [bind]. intros [= <- <-].
    split; [|split].
    + rewrite andb_true_iff, Z.eqb_eq. split.
      * intros [Hlen Hsome]. split.
        -- destruct results; [reflexivity|simpl in Hlen; lia].
        -- destruct corr; [discriminate|discriminate Hsome].
      * intros [-> Hsome]. split; [reflexivity|].
        destruct corr; [reflexivity|now elim Hsome].
    + intros c ->.
      destruct (@RetryReturns.retry_returns _ RETRY_MAX_ATTEMPTS
                  RETRY_INITIAL_DELAY RETRY_BACKOFF_MULTIPLIER
                  (SearchIntelligence.correct has_client completion query)
                  (Some c) Hai) as (k & Hcalls & Hk).
      unfold SearchIntelligence.correct in Hk.
      destruct has_client; [|discriminate Hk]. cbn [negb] in Hk.
      destruct (completion k) as [text|e] eqn:Hcomp; [|discriminate Hk].
      cbn [bind] in Hk.
      destruct (String.eqb text "CORRECT") eqn:E1; [discriminate Hk|].
      destruct (String.eqb (PyStr.lower text) (PyStr.lower query)) eqn:E2;
        [discriminate Hk|].
      cbn [orb] in Hk. injection Hk as ->.
      split; [reflexivity|]. split; [now exists k|].
      split; [now apply String.eqb_neq|now apply String.eqb_neq].
    + intros Hne Hth. exfalso.
      destruct results as [|x l]; [now elim Hne|].
      cbn [truthy] in Henough.
      assert (Hge : (Z.of_nat (List.length (x :: l)) >=? threshold) = true)
        by (rewrite Z.geb_leb; now apply Z.leb_le).
      rewrite Hge in Henough. discriminate Henough.
Qed.

Lemma auto_correct_only_without_results_witness :
  let completion : operation string := fun _ => Return "harry potter" in
  let r := SearchIntelligence.analyze_query_and_results
             3 (PyFloat.of_Z 1) (PyFloat.of_Z 2) true completion
             "harry poter" [] 3 in
  result r = Return (Some "harry potter", true)
  /\ "harry potter" <> "CORRECT"
  /\ PyStr.lower "harry potter" <> PyStr.lower "harry poter".
Proof.
  intros completion r.
  assert (Hres : result r = Return (Some "harry potter", true))
    by reflexivity.
  split; [exact Hres|].
  destruct (proj1 (proj2 (@auto_correct_only_without_results
                            3 (PyFloat.of_Z 1) (PyFloat.of_Z 2) true
                            completion "harry poter" [] 3
                            (Some "harry potter") true Hres))
                  "harry potter" eq_refl) as (_ & _ & Hc & Hl).
  split; [exact Hc|exact Hl].
Defined.



(* ================================================================== *)
(** ** [BookVaultService.search_books] *)

Module ServiceFacts.

Lemma filter_books_sound (books : list json) :
  forall filtered,
    Service.filter_books books = Return filtered ->
    Forall Service.covered filtered
    /\ forall book, In book filtered -> In book books.
Proof.
  induction books as [|book books IH]; intros filtered; simpl.
  - intros [= <-]. split; [constructor|tauto].
  - destruct book as [ |b|n|x|s|items|members]; try discriminate.
    cbn [PyObj.get bind].
    destruct (Service.filter_books books) as [rest|e]; [|discriminate].
    destruct (IH rest eq_refl) as [Hall Hin]. cbn [bind].
    destruct (Service.shows_cover
                (PyObj.get_default members "cover_url" (JStr ""))) eqn:Hshow;
      intros [= <-].
    + split.
      * constructor; [|exact Hall].
        unfold PyObj.get_default in Hshow.
        destruct (PyObj.lookup members "cover_url") as [cover|] eqn:Hlook;
          [|discriminate Hshow].
        destruct cover as [ |b|n|x|s|items'|members'];
          try (unfold Service.shows_cover in Hshow;
               rewrite andb_false_r in Hshow; discriminate Hshow).
        exists members, s. auto.
      * intros b [<-|Hb]; [now left|right; now apply Hin].
    + split; [exact Hall|]. intros b Hb. right. now apply Hin.
Qed.

Lemma filter_books_with_images_sound (books : json) (v : json) :
  Service.filter_books_with_images books = Return v ->
  exists items filtered,
    PyObj.iterate books = Return items
    /\ v = JArr filtered
    /\ Forall Service.covered filtered
    /\ forall book, In book filtered -> In book items.
Proof.
  unfold Service.filter_books_with_images.
  destruct (PyObj.iterate books) as [items|e]; [|discriminate].
  cbn [bind].
  destruct (Service.filter_books items) as [filtered|e] eqn:Hf;
    [|discriminate].
  cbn [bind]. intros [= <-].
  destruct (filter_books_sound items Hf) as [Hall Hin].
  exists items, filtered. auto.
Qed.

Lemma verify_books_batch_in (py_int : string -> outcome Z)
      (completion : operation string) (books kept : list json) :
  result (GenreCheck.verify_books_batch py_int completion books)
  = Return kept ->
  forall book, In book kept -> In book books.
Proof.
  unfold GenreCheck.verify_books_batch.
  destruct books as [|b books'].
  { intros [= <-] book []. }
  destruct (forallb GenreCheck.is_dict (firstn 30 (b :: books')));
    [|discriminate].
  cbn [call_then stop result].
  destruct (completion 0%nat) as [answer|e].
  - destruct (GenreCheck.valid_indices py_int answer) as [indices|e].
    + intros [= <-] book Hin. eapply GenreFacts.pick_in. exact Hin.
    + now intros [= <-].
  - now intros [= <-].
Qed.

Lemma validate_search_query_true (query : string) :
  fst (InputValidator.validate_search_query query) = true ->
  InputValidator.validate_search_query query = (true, None).
Proof.
  unfold InputValidator.validate_search_query.
  destruct (String.eqb query ""); [discriminate|].
  destruct (PyStr.len query >? InputValidator.MAX_QUERY_LENGTH);
    [discriminate|].
  destruct (existsb _ _); [discriminate|reflexivity].
Qed.
End ServiceFacts.

(** X25: [search_books] turns a query away before it costs anything: with
    validation on, an invalid query gives the empty list and leaves the
    cache and the rate limiter as they were; with rate limiting on, a
    refused call gives the empty list, reads and writes no cache entry and
    adds no request time.  A search that reaches [books_api.search] is for
    the sanitized query, was validated and let through, and its time is the
    last one the limiter holds for [global]. *)
Theorem search_books_gate `{JsonModule}
        (ENABLE_INPUT_VALIDATION RATE_LIMIT_ENABLED : bool) (MAX_RETRIES : Z)
        (request : string -> operation (list json)) (now limit_now : Q)
        (py_int : string -> outcome Z) (completion : operation string)
        (dict_slice_error : exc)
        (self : BookVaultService.t) (query : string) (max_results : Z)
        (lang : string) (start_index : Z) (verify_genre : bool)
        (expected_genre : string) :
  let t := BookVaultService.search_books
             ENABLE_INPUT_VALIDATION RATE_LIMIT_ENABLED MAX_RETRIES request
             now limit_now py_int completion dict_slice_error
             self query max_results lang start_index verify_genre
             expected_genre in
  let gate := RateLimiter.is_allowed (BookVaultService.limiter self)
                                     "global" limit_now in
  let times (s : BookVaultService.t) :=
    RateLimiter.requests (BookVaultService.limiter s) "global" in
  (ENABLE_INPUT_VALIDATION = true ->
   fst (InputValidator.validate_search_query query) = false ->
   t = BookVaultService.Searched (Return (JArr [])) None 0 self)
  /\ (RATE_LIMIT_ENABLED = true -> fst (fst gate) = false ->
      BookVaultService.returned t = Return (JArr [])
      /\ BookVaultService.api t = None
      /\ BookVaultService.completions t = O
      /\ BookVaultService.cache (BookVaultService.after t)
         = BookVaultService.cache self
      /\ (List.length (times (BookVaultService.after t))
          <= List.length (times self))%nat)
  /\ (forall q r,
         BookVaultService.api t = Some (q, r) ->
         q = InputValidator.sanitize_string
               query (Some InputValidator.MAX_QUERY_LENGTH)
         /\ (ENABLE_INPUT_VALIDATION = true ->
             InputValidator.validate_search_query query = (true, None))
         /\ (RATE_LIMIT_ENABLED = true ->
             exists earlier,
               times (BookVaultService.after t)
               = (earlier ++ [limit_now])%list
               /\ Z.of_nat (List.length earlier)
                  < RateLimiter.max_requests (BookVaultService.limiter self)))
  /\ (BookVaultService.api t = None ->
      BookVaultService.returned t = Return (JArr [])
      /\ BookVaultService.completions t = O
      /\ BookVaultService.cache (BookVaultService.after t)
         = BookVaultService.cache self)
  /\ (RATE_LIMIT_ENABLED = false ->
      BookVaultService.limiter (BookVaultService.after t)
      = BookVaultService.limiter self).
Proof.
  cbv zeta. unfold BookVaultService.search_books.
  destruct (RateLimiterFacts.is_allowed_spec
              (BookVaultService.limiter self) "global" limit_now)
    as (_ & _ & _ & Hverdict & Htimes).
  cbv zeta in Hverdict, Htimes.
  set (gate := RateLimiter.is_allowed (BookVaultService.limiter self)
                                      "global" limit_now) in *.
  set (cleaned := filter _ _) in *.
  destruct (fst (InputValidator.validate_search_query query)) eqn:Hvalid.
  2:{ destruct ENABLE_INPUT_VALIDATION; cbn [andb negb].
      - split; [reflexivity|].
        cbn [BookVaultService.returned BookVaultService.api
             BookVaultService.completions BookVaultService.after].
        split; [intros _ _; repeat split; lia|].
        split; [discriminate|]. split; [auto|]. reflexivity.
      - destruct RATE_LIMIT_ENABLED.
        + destruct (fst (fst gate)) eqn:Hgate; cbn [negb].
          * match goal with
            | |- context [match ?x with Return _ => _ | Raise _ => _ end] =>
                destruct x as [books|e]
            end.
            2:{ cbn [BookVaultService.returned BookVaultService.api
                     BookVaultService.completions BookVaultService.after
                     BookVaultService.limiter BookVaultService.cache].
                split; [discriminate|]. split; [discriminate|].
                split; [|split; [discriminate|discriminate]].
                intros q r [= <- <-]. split; [reflexivity|].
                split; [discriminate|]. intros _. exists cleaned.
                split; [exact Htimes|].
                symmetry in Hverdict. now apply Z.ltb_lt in Hverdict. }
            destruct (AIHelpers.py_len books);
              [destruct (verify_genre && negb (String.eqb expected_genre "")
                         && truthy books)|];
              cbn [BookVaultService.returned BookVaultService.api
                   BookVaultService.completions BookVaultService.after
                   BookVaultService.limiter BookVaultService.cache];
              (split; [discriminate|]); (split; [discriminate|]);
              (split; [|split; [discriminate|discriminate]]);
              intros q r [= <- <-]; (split; [reflexivity|]);
              (split; [discriminate|]); intros _; exists cleaned;
              (split; [exact Htimes|]);
              symmetry in Hverdict; now apply Z.ltb_lt in Hverdict.
          * cbn [BookVaultService.returned BookVaultService.api
                 BookVaultService.completions BookVaultService.after
                 BookVaultService.limiter BookVaultService.cache].
            split; [discriminate|].
            split.
            { intros _ _. split; [reflexivity|]. split; [reflexivity|].
              split; [reflexivity|]. split; [reflexivity|].
              rewrite Htimes. subst cleaned. apply ListFacts.filter_length_le. }
            split; [discriminate|]. split; [auto|discriminate].
        + cbn [negb fst snd].
          match goal with
          | |- context [match ?x with Return _ => _ | Raise _ => _ end] =>
              destruct x as [books|e]
          end.
          2:{ cbn [BookVaultService.returned BookVaultService.api
                   BookVaultService.completions BookVaultService.after
                   BookVaultService.limiter BookVaultService.cache].
              split; [discriminate|]. split; [discriminate|].
              split; [|split; [discriminate|reflexivity]].
              intros q r [= <- <-]. split; [reflexivity|].
              split; discriminate. }
          destruct (AIHelpers.py_len books);
            [destruct (verify_genre && negb (String.eqb expected_genre "")
                       && truthy books)|];
            cbn [BookVaultService.returned BookVaultService.api
                 BookVaultService.completions BookVaultService.after
                 BookVaultService.limiter BookVaultService.cache];
            (split; [discriminate|]); (split; [discriminate|]);
            (split; [|split; [discriminate|reflexivity]]);
            intros q r [= <- <-]; (split; [reflexivity|]);
            split; discriminate. }
  pose proof (ServiceFacts.validate_search_query_true query Hvalid) as Hok.
  rewrite andb_false_r.
  destruct RATE_LIMIT_ENABLED.
  - destruct (fst (fst gate)) eqn:Hgate; cbn [negb].
    + match goal with
      | |- context [match ?x with Return _ => _ | Raise _ => _ end] =>
          destruct x as [books|e]
      end.
      2:{ cbn [BookVaultService.returned BookVaultService.api
               BookVaultService.completions BookVaultService.after
               BookVaultService.limiter BookVaultService.cache].
          split; [discriminate|]. split; [discriminate|].
          split; [|split; [discriminate|discriminate]].
          intros q r [= <- <-]. split; [reflexivity|].
          split; [auto|]. intros _. exists cleaned.
          split; [exact Htimes|].
          symmetry in Hverdict. now apply Z.ltb_lt in Hverdict. }
      destruct (AIHelpers.py_len books);
        [destruct (verify_genre && negb (String.eqb expected_genre "")
                   && truthy books)|];
        cbn [BookVaultService.returned BookVaultService.api
             BookVaultService.completions BookVaultService.after
             BookVaultService.limiter BookVaultService.cache];
        (split; [discriminate|]); (split; [discriminate|]);
        (split; [|split; [discriminate|discriminate]]);
        intros q r [= <- <-]; (split; [reflexivity|]);
        (split; [auto|]); intros _; exists cleaned;
        (split; [exact Htimes|]);
        symmetry in Hverdict; now apply Z.ltb_lt in Hverdict.
    + cbn [BookVaultService.returned BookVaultService.api
           BookVaultService.completions BookVaultService.after
           BookVaultService.limiter BookVaultService.cache].
      split; [discriminate|].
      split.
      { intros _ _. split; [reflexivity|]. split; [reflexivity|].
        split; [reflexivity|]. split; [reflexivity|].
        rewrite Htimes. subst cleaned. apply ListFacts.filter_length_le. }
      split; [discriminate|]. split; [auto|discriminate].
  - cbn [negb fst snd].
    match goal with
    | |- context [match ?x with Return _ => _ | Raise _ => _ end] =>
        destruct x as [books|e]
    end.
    2:{ cbn [BookVaultService.returned BookVaultService.api
             BookVaultService.completions BookVaultService.after
             BookVaultService.limiter BookVaultService.cache].
        split; [discriminate|]. split; [discriminate|].
        split; [|split; [discriminate|reflexivity]].
        intros q r [= <- <-]. split; [reflexivity|].
        split; [auto|discriminate]. }
    destruct (AIHelpers.py_len books);
      [destruct (verify_genre && negb (String.eqb expected_genre "")
                 && truthy books)|];
      cbn [BookVaultService.returned BookVaultService.api
           BookVaultService.completions BookVaultService.after
           BookVaultService.limiter BookVaultService.cache];
      (split; [discriminate|]); (split; [discriminate|]);
      (split; [|split; [discriminate|reflexivity]]);
      intros q r [= <- <-]; (split; [reflexivity|]);
      (split; [auto|discriminate]).
Qed.

(** X26: whatever the cache held and whatever the completion answered,
    the books [search_books] returns are dicts with a [cover_url] that
    passes the cover test, and each of them is among the books the search
    gave. *)
Theorem search_books_covers `{JsonModule}
        (ENABLE_INPUT_VALIDATION RATE_LIMIT_ENABLED : bool) (MAX_RETRIES : Z)
        (request : string -> operation (list json)) (now limit_now : Q)
        (py_int : string -> outcome Z) (completion : operation string)
        (dict_slice_error : exc)
        (self : BookVaultService.t) (query : string) (max_results : Z)
        (lang : string) (start_index : Z) (verify_genre : bool)
        (expected_genre : string) (v : json) :
  let t := BookVaultService.search_books
             ENABLE_INPUT_VALIDATION RATE_LIMIT_ENABLED MAX_RETRIES request
             now limit_now py_int completion dict_slice_error
             self query max_results lang start_index verify_genre
             expected_genre in
  BookVaultService.returned t = Return v ->
  exists books,
    v = JArr books
    /\ Forall Service.covered books
    /\ (BookVaultService.completions t <= 1)%nat
    /\ forall q r,
         BookVaultService.api t = Some (q, r) ->
         exists found items,
           result r = Return found
           /\ PyObj.iterate found = Return items
           /\ forall book, In book books -> In book items.
Proof.
  cbv zeta. unfold BookVaultService.search_books.
  destruct (ENABLE_INPUT_VALIDATION
            && negb (fst (InputValidator.validate_search_query query))).
  { cbn [BookVaultService.returned BookVaultService.api
         BookVaultService.completions].
    intros [= <-]. exists []. split; [reflexivity|].
    split; [constructor|]. split; [lia|]. discriminate. }
  destruct (negb (fst (fst (if RATE_LIMIT_ENABLED then _ else _)))).
  { cbn [BookVaultService.returned BookVaultService.api
         BookVaultService.completions].
    intros [= <-]. exists []. split; [reflexivity|].
    split; [constructor|]. split; [lia|]. discriminate. }
  match goal with
  | |- context [match ?x with Return _ => _ | Raise _ => _ end] =>
      destruct x as [found|e] eqn:Hfound
  end; [|discriminate].
  destruct (AIHelpers.py_len found) as [n|e]; [|discriminate].
  destruct (verify_genre && negb (String.eqb expected_genre "")
            && truthy found);
    cbn [BookVaultService.returned BookVaultService.api
         BookVaultService.completions].
  - destruct found as [ |b|n'|x|s|items|members];
      cbn [BookVaultService.verify stop result]; try discriminate.
    destruct (result (GenreCheck.verify_books_batch py_int completion items))
      as [verified|e] eqn:Hverified; [|discriminate].
    cbn [bind]. intro Hfilter.
    destruct (ServiceFacts.filter_books_with_images_sound _ Hfilter)
      as (items' & books & Hit & -> & Hall & Hin).
    injection Hit as <-.
    exists books. split; [reflexivity|]. split; [exact Hall|].
    split.
    + unfold GenreCheck.verify_books_batch.
      destruct items as [|i l]; [simpl; lia|].
      destruct (forallb _ _); simpl; lia.
    + intros q r [= <- <-]. exists (JArr items), items.
      split; [exact Hfound|]. split; [reflexivity|].
      intros book Hbook.
      eapply ServiceFacts.verify_books_batch_in; [exact Hverified|].
      now apply Hin.
  - intro Hfilter.
    destruct (ServiceFacts.filter_books_with_images_sound _ Hfilter)
      as (items & books & Hit & -> & Hall & Hin).
    exists books. split; [reflexivity|]. split; [exact Hall|].
    split; [lia|].
    intros q r [= <- <-]. exists found, items. auto.
Qed.

Lemma search_books_covers_witness :
  let item (link : string) :=
    JObj [("id", JStr "x");
          ("volumeInfo",
           JObj [("imageLinks", JObj [("thumbnail", JStr link)])])] in
  let http : operation json :=
    fun _ => Return (JObj [("items", JArr [item "http://e.org/c.jpg";
                                           item "   "; item ""])]) in
  let t := BookVaultService.search_books (H := JsonText.module)
             true true 3 (fun _ => GoogleBooksResponse.request_of http)
             0 0 (fun _ => Raise ValueError) (fun _ => Return "1")
             TypeError
             (BookVaultService.Service_ (SQLiteCache.Cache [] true 24)
                                        RateLimiter.search_rate_limiter)
             " dune " 20 "en" 0 true "Fiction" in
  exists book,
    BookVaultService.returned t = Return (JArr [book])
    /\ Forall Service.covered [book]
    /\ BookVaultService.completions t = 1%nat.
Proof.
  intros item http t.
  destruct (BookVaultService.returned t) as [v|e] eqn:Hres;
    [|discriminate Hres].
  destruct (@search_books_covers JsonText.module
              true true 3 (fun _ => GoogleBooksResponse.request_of http)
              0 0 (fun _ => Raise ValueError) (fun _ => Return "1")
              TypeError
              (BookVaultService.Service_ (SQLiteCache.Cache [] true 24)
                                         RateLimiter.search_rate_limiter)
              " dune " 20 "en" 0 true "Fiction" v Hres)
    as (books & Hv & Hall & _).
  vm_compute in Hres. injection Hres as Hres. subst v.
  injection Hv as <-.
  eexists. split; [reflexivity|]. split; [exact Hall|reflexivity].
Defined.

(* ================================================================== *)
(** ** [get_recommendations] *)

Module RecommendationFacts.
Import Recommendations.






Section Loops.
Context `{JsonModule}.
Variable MAX_RETRIES : Z.
Variable request : nat -> string -> operation (list json).
Variable now : Q.
Variable title : string.
Variable lang : string.
Variable max_results : Z.




End Loops.

End RecommendationFacts.

